(** * Complexity analyzer: the Structural Detector and the Heuristic Optimizer

    A shallow embedding of [utils/complexityDetector.ts] and
    [utils/aiOptimizer.ts].

    Conventions of the embedding.
    - Text is [String.string]: a sequence of 8-bit code units, read as the
      first 256 Unicode code points (what a JavaScript string holds when every
      code unit is below 256).
    - JavaScript numbers that index lines are [nat]; the exponent parsed from a
      label is [N]; the score is [Z].  Every number the analysis computes is an
      integer, and a double represents it exactly while it stays below 2^53.
    - A call that may throw returns a [comp]: [Value v], [TypeError], or
      [OutOfFuel] for a bounded model of a [while] loop whose bound was too
      small (shown never to happen). *)

From Stdlib Require Import Bool Arith ZArith NArith Lia List Permutation Sorted.
From Stdlib Require Import Ascii String DecimalString DecimalNat DecimalN DecimalPos.
Import ListNotations.

Local Open Scope string_scope.
Local Open Scope list_scope.
Local Open Scope nat_scope.

(** ** JavaScript strings and numbers *)

Module JS.

Definition code (c : ascii) : nat := nat_of_ascii c.

Definition in_range (lo hi : nat) (c : ascii) : bool :=
  (lo <=? code c) && (code c <=? hi).

(** [\d] *)
Definition is_digit (c : ascii) : bool := in_range 48 57 c.

(** [\w]: [A-Za-z0-9_] *)
Definition is_word (c : ascii) : bool :=
  in_range 65 90 c || in_range 97 122 c || is_digit c || (code c =? 95).

(** [\s], and what [trim] strips: TAB, LF, VT, FF, CR, SP, NBSP. *)
Definition is_space (c : ascii) : bool :=
  in_range 9 13 c || (code c =? 32) || (code c =? 160).

(** [.] without the [s] flag: anything but a line terminator. *)
Definition is_dot (c : ascii) : bool :=
  negb ((code c =? 10) || (code c =? 13)).

Definition lower_char (c : ascii) : ascii :=
  if in_range 65 90 c || in_range 192 214 c || in_range 216 222 c
  then ascii_of_nat (code c + 32) else c.

(** [s.toLowerCase()] *)
Fixpoint toLowerCase (s : string) : string :=
  match s with
  | EmptyString => EmptyString
  | String c s' => String (lower_char c) (toLowerCase s')
  end.

Fixpoint startsWith (p s : string) : bool :=
  match p, s with
  | EmptyString, _ => true
  | String a p', String b s' => Ascii.eqb a b && startsWith p' s'
  | String _ _, EmptyString => false
  end.

(** [s.includes(sub)] *)
Fixpoint includes (s sub : string) : bool :=
  startsWith sub s ||
  match s with
  | EmptyString => false
  | String _ s' => includes s' sub
  end.

Fixpoint trimStart (s : string) : string :=
  match s with
  | String c s' => if is_space c then trimStart s' else s
  | EmptyString => EmptyString
  end.

Fixpoint trimEnd (s : string) : string :=
  match s with
  | EmptyString => EmptyString
  | String c s' =>
      match trimEnd s' with
      | EmptyString => if is_space c then EmptyString else String c EmptyString
      | t => String c t
      end
  end.

(** [s.trim()] *)
Definition trim (s : string) : string := trimEnd (trimStart s).

Definition nl : string := String (ascii_of_nat 10) EmptyString.
Definition dquote : string := String (ascii_of_nat 34) EmptyString.
Definition sup2 : string := String (ascii_of_nat 178) EmptyString.

(** [s.split('\n')]: never empty, the empty text gives one empty line. *)
Fixpoint split_lines (s : string) : list string :=
  match s with
  | EmptyString => [EmptyString]
  | String c s' =>
      if code c =? 10 then EmptyString :: split_lines s'
      else match split_lines s' with
           | l :: ls => String c l :: ls
           | [] => [String c EmptyString]
           end
  end.

(** [xs.join(sep)] *)
Fixpoint join (sep : string) (xs : list string) : string :=
  match xs with
  | [] => EmptyString
  | [x] => x
  | x :: rest => (x ++ sep ++ join sep rest)%string
  end.

(** [xs.slice(a, b)] for [0 <= a] and [0 <= b <= xs.length]. *)
Definition slice {A} (xs : list A) (a b : nat) : list A :=
  firstn (b - a) (skipn a xs).

(** [xs.some(p)] *)
Definition some {A} (p : A -> bool) (xs : list A) : bool := existsb p xs.

(** Template-literal rendering of a non-negative integer: all its decimal
    digits, as the source writes a Number that is an integer below 2^53. *)
Definition show_nat (n : nat) : string := NilEmpty.string_of_uint (Nat.to_uint n).
Definition show_N (n : N) : string := NilEmpty.string_of_uint (N.to_uint n).

(** [parseInt(s)] on a text of decimal digits: reading stops at the first
    character that is not a digit.  The source answers a Number; the integer
    kept here is that Number whenever it is below 2^53, and the properties
    that read a label back are stated within that bound. *)
Fixpoint parse_digits (acc : N) (s : string) : N :=
  match s with
  | String c s' =>
      if is_digit c then parse_digits (acc * 10 + N.of_nat (code c - 48)) s'
      else acc
  | EmptyString => acc
  end.

Definition parseInt (s : string) : N := parse_digits 0%N s.

End JS.

(** ** Regular expressions: a backtracking matcher

    Alternatives are tried left to right and [Star] is greedy, as in
    JavaScript, so that the first match found by [exec] and its capture groups
    are the ones [String.prototype.match] returns. *)

Module RegExp.
Import JS.

Inductive regex : Type :=
| Eps
| Cls (p : ascii -> bool)
| Cat (r1 r2 : regex)
| Alt (r1 r2 : regex)
| Star (r : regex)
| Grp (n : nat) (r : regex)
| Bnd.

Definition captures := list (nat * string).

Definition Plus (r : regex) : regex := Cat r (Star r).
Definition Chr (c : ascii) : regex := Cls (Ascii.eqb c).
Definition NotChr (c : ascii) : regex := Cls (fun x => negb (Ascii.eqb c x)).

Fixpoint Lit (s : string) : regex :=
  match s with
  | EmptyString => Eps
  | String c EmptyString => Chr c
  | String c s' => Cat (Chr c) (Lit s')
  end.

Definition word_before (prev : option ascii) : bool :=
  match prev with Some c => is_word c | None => false end.

Definition word_after (s : string) : bool :=
  match s with String c _ => is_word c | EmptyString => false end.

Definition take (n : nat) (s : string) : string := substring 0 n s.

(** [rmatch r prev s caps k]: match [r] at the head of [s], where [prev] is the
    character just before, then continue with [k]. *)
Fixpoint rmatch (r : regex) (prev : option ascii) (s : string) (caps : captures)
    (k : option ascii -> string -> captures -> option captures)
    : option captures :=
  match r with
  | Eps => k prev s caps
  | Cls p =>
      match s with
      | String c s' => if p c then k (Some c) s' caps else None
      | EmptyString => None
      end
  | Cat r1 r2 =>
      rmatch r1 prev s caps (fun prev' s' caps' => rmatch r2 prev' s' caps' k)
  | Alt r1 r2 =>
      match rmatch r1 prev s caps k with
      | Some c => Some c
      | None => rmatch r2 prev s caps k
      end
  | Star r' =>
      (fix iterate (fuel : nat) (prev : option ascii) (s : string)
           (caps : captures) {struct fuel} : option captures :=
         match fuel with
         | O => k prev s caps
         | S fuel' =>
             match rmatch r' prev s caps
                     (fun prev' s' caps' =>
                        if String.length s' <? String.length s
                        then iterate fuel' prev' s' caps' else None) with
             | Some c => Some c
             | None => k prev s caps
             end
         end) (S (String.length s)) prev s caps
  | Grp n r' =>
      rmatch r' prev s caps
        (fun prev' s' caps' =>
           k prev' s'
             ((n, take (String.length s - String.length s') s) :: caps'))
  | Bnd =>
      if xorb (word_before prev) (word_after s) then k prev s caps else None
  end.

Definition accept : option ascii -> string -> captures -> option captures :=
  fun _ _ caps => Some caps.

(** Leftmost match: try every start position in turn. *)
Fixpoint search (r : regex) (prev : option ascii) (s : string) : option captures :=
  match rmatch r prev s [] accept with
  | Some c => Some c
  | None =>
      match s with
      | String c s' => search r (Some c) s'
      | EmptyString => None
      end
  end.

(** [s.match(r)]: the capture groups of the first match, or [None] for [null]. *)
Definition exec (r : regex) (s : string) : option captures := search r None s.

(** [r.test(s)] *)
Definition test (r : regex) (s : string) : bool :=
  match exec r s with Some _ => true | None => false end.

(** [m[n]]: the text of group [n], [None] when the group took no part. *)
Fixpoint group (n : nat) (caps : captures) : option string :=
  match caps with
  | [] => None
  | (m, s) :: rest => if m =? n then Some s else group n rest
  end.

(** [a || b] on a capture group: [undefined] and the empty text are falsy. *)
Definition orDefault (a : option string) (b : string) : string :=
  match a with
  | Some (String c s) => String c s
  | _ => b
  end.

Definition Seq (rs : list regex) : regex := fold_right Cat Eps rs.

Definition white : regex := Cls is_space.
Definition wordc : regex := Cls is_word.
Definition digit : regex := Cls is_digit.
Definition dot : regex := Cls is_dot.

End RegExp.

(** ** Computations that may throw *)

Inductive comp (A : Type) : Type :=
| Value (a : A)
| TypeError
| OutOfFuel.

Arguments Value {A} a.
Arguments TypeError {A}.
Arguments OutOfFuel {A}.

Definition bind {A B} (m : comp A) (f : A -> comp B) : comp B :=
  match m with
  | Value a => f a
  | TypeError => TypeError
  | OutOfFuel => OutOfFuel
  end.

Notation "x <- m ;; k" := (bind m (fun x => k))
  (at level 61, m at next level, right associativity).

(** [a && b] where only [b] may throw: [b] runs when [a] holds. *)
Definition andThen (a : bool) (b : comp bool) : comp bool :=
  if a then b else Value false.

(** [a || b] where only [b] may throw: [b] runs when [a] fails. *)
Definition orElse (a : bool) (b : comp bool) : comp bool :=
  if a then Value true else b.

(** A [for] loop over all lines whose body pushes onto one result list. *)
Fixpoint forEachLine {A} (body : nat -> string -> comp (list A)) (i : nat)
    (lines : list string) : comp (list A) :=
  match lines with
  | [] => Value []
  | raw :: rest =>
      xs <- body i raw ;;
      ys <- forEachLine body (S i) rest ;;
      Value (xs ++ ys)
  end.

(** ** The data model ([types/analysis.ts])

    A field whose name several interfaces share carries a prefix here
    ([lc_], [p_], [s_]): [s_line] is [Suggestion.line], [p_type] is
    [ComplexityPattern.type]. *)

(** ['low' | 'medium' | 'high']: severity, impact and priority. *)
Inductive Level : Type := low | medium | high.

Inductive PatternType : Type := PLoop | PRecursion | PNested | PAlgorithm.

Inductive SuggestionType : Type := SOptimization | SRefactor | SAlgorithm.

Definition Level_eqb (a b : Level) : bool :=
  match a, b with
  | low, low | medium, medium | high, high => true
  | _, _ => false
  end.

Record Overall : Type := {
  time : string;
  space : string;
  score : Z
}.

Record LineComplexity : Type := {
  lc_line : nat;
  lc_code : string;
  lc_complexity : string;
  lc_reason : string;
  lc_severity : Level
}.

Record ComplexityPattern : Type := {
  p_type : PatternType;
  startLine : nat;
  endLine : nat;
  p_complexity : string;
  p_description : string;
  impact : Level
}.

Record Suggestion : Type := {
  s_line : nat;
  s_type : SuggestionType;
  title : string;
  s_description : string;
  example : option string;
  priority : Level
}.

Record EducationalContent : Type := {
  concepts : list string;
  explanations : list (string * string);
  examples : list (string * string)
}.

Record ComplexityAnalysis : Type := {
  overall : Overall;
  lineByLine : list LineComplexity;
  patterns : list ComplexityPattern;
  suggestions : list Suggestion;
  educational : EducationalContent
}.

(** The [loopPatterns] object literal of both classes, read with
    [loopPatterns[key]]: an own
    property holds a regular expression, a name of [Object.prototype] is found
    through the prototype chain and holds a truthy value without a [test]
    method, any other key is [undefined]. *)
Inductive Property : Type :=
| Own (r : RegExp.regex)
| Inherited
| Undefined.

Module LoopPatterns.
Import JS RegExp.

(** [/\b(for|while)\s*\(/] *)
Definition braces : regex :=
  Cat Bnd (Cat (Grp 1 (Alt (Lit "for") (Lit "while")))
            (Cat (Star white) (Chr "("))).

(** [/\b(for|while)\b.*:/] *)
Definition colon : regex :=
  Cat Bnd (Cat (Grp 1 (Alt (Lit "for") (Lit "while")))
            (Cat Bnd (Cat (Star dot) (Chr ":")))).

Definition objectPrototype : list string :=
  [ "constructor"; "__proto__"; "hasOwnProperty"; "isPrototypeOf";
    "propertyIsEnumerable"; "toLocaleString"; "toString"; "valueOf";
    "__defineGetter__"; "__defineSetter__"; "__lookupGetter__";
    "__lookupSetter__" ].

Definition get (key : string) : Property :=
  if String.eqb key "cpp" then Own braces
  else if String.eqb key "java" then Own braces
  else if String.eqb key "python" then Own colon
  else if existsb (String.eqb key) objectPrototype then Inherited
  else Undefined.

End LoopPatterns.

(** ** The Heuristic Optimizer ([utils/aiOptimizer.ts]) *)

Module AIOptimizer.
Import JS RegExp.

Record t : Type := {
  code : string;
  language : string;
  analysis : ComplexityAnalysis
}.

Definition new (code language : string) (analysis : ComplexityAnalysis) : t :=
  {| code := code; language := toLowerCase language; analysis := analysis |}.

(** *** Example texts *)

Definition getHashMapExample : string :=
  join nl
    [ "// Instead of nested loops:";
      "for (int i = 0; i < n; i++) {";
      "    for (int j = 0; j < m; j++) {";
      "        if (arr1[i] == arr2[j]) { /* found */ }";
      "    }";
      "}";
      EmptyString;
      "// Use hash map:";
      "unordered_set<int> hashSet(arr2, arr2 + m);";
      "for (int i = 0; i < n; i++) {";
      "    if (hashSet.find(arr1[i]) != hashSet.end()) {";
      "        /* found in O(1) */";
      "    }";
      "}" ].

Definition getMemoizationExample (functionName : string) : string :=
  join nl
    [ "// Add memoization:";
      "unordered_map<int, int> memo;";
      EmptyString;
      ("int " ++ functionName ++ "(int n) {")%string;
      "    if (memo.find(n) != memo.end()) {";
      "        return memo[n];";
      "    }";
      "    if (n <= 1) return n;";
      ("    memo[n] = " ++ functionName ++ "(n-1) + " ++ functionName ++ "(n-2);")%string;
      "    return memo[n];";
      "}" ].

Definition getBinarySearchExample : string :=
  join nl
    [ "// Replace linear search:";
      "for (int i = 0; i < n; i++) {";
      "    if (arr[i] == target) return i;";
      "}";
      EmptyString;
      "// With binary search:";
      "int left = 0, right = n - 1;";
      "while (left <= right) {";
      "    int mid = left + (right - left) / 2;";
      "    if (arr[mid] == target) return mid;";
      "    if (arr[mid] < target) left = mid + 1;";
      "    else right = mid - 1;";
      "}" ].

Definition getStringBuilderExample : string :=
  join nl
    [ "// Instead of string concatenation:";
      ("string result = " ++ dquote ++ dquote ++ ";")%string;
      "for (int i = 0; i < n; i++) {";
      ("    result += arr[i]; // O(n" ++ sup2 ++ ") complexity")%string;
      "}";
      EmptyString;
      "// Use StringBuilder or vector:";
      "vector<string> parts;";
      "for (int i = 0; i < n; i++) {";
      "    parts.push_back(arr[i]);";
      "}";
      "string result = join(parts); // O(n) complexity" ].

Definition getMatrixOptimizationExample : string :=
  join nl
    [ "// Cache-friendly matrix traversal:";
      "// Instead of column-major order:";
      "for (int j = 0; j < cols; j++) {";
      "    for (int i = 0; i < rows; i++) {";
      "        process(matrix[i][j]);";
      "    }";
      "}";
      EmptyString;
      "// Use row-major order:";
      "for (int i = 0; i < rows; i++) {";
      "    for (int j = 0; j < cols; j++) {";
      "        process(matrix[i][j]);";
      "    }";
      "}" ].

Definition getDequeExample : string :=
  join nl
    [ "// Instead of array front insertion:";
      "vector<int> arr;";
      "arr.insert(arr.begin(), value); // O(n)";
      EmptyString;
      "// Use deque:";
      "deque<int> dq;";
      "dq.push_front(value); // O(1)" ].

Definition getHashMapLookupExample : string :=
  join nl
    [ "// Replace array lookup:";
      "bool found = false;";
      "for (int x : arr) {";
      "    if (x == target) { found = true; break; }";
      "}";
      EmptyString;
      "// With hash map:";
      "unordered_set<int> hashSet(arr.begin(), arr.end());";
      "bool found = hashSet.count(target) > 0;" ].

Definition getSetOperationExample : string :=
  join nl
    [ "// Instead of array for unique elements:";
      "vector<int> unique_arr;";
      "for (int x : arr) {";
      "    if (find(unique_arr.begin(), unique_arr.end(), x) == unique_arr.end()) {";
      "        unique_arr.push_back(x);";
      "    }";
      "}";
      EmptyString;
      "// Use set:";
      "set<int> unique_set(arr.begin(), arr.end());" ].

Definition getKMPExample : string :=
  join nl
    [ "// For repeated string matching, use KMP:";
      "vector<int> computeLPS(string pattern) {";
      "    int m = pattern.length();";
      "    vector<int> lps(m, 0);";
      "    int len = 0, i = 1;";
      "    ";
      "    while (i < m) {";
      "        if (pattern[i] == pattern[len]) {";
      "            lps[i++] = ++len;";
      "        } else if (len) {";
      "            len = lps[len - 1];";
      "        } else {";
      "            lps[i++] = 0;";
      "        }";
      "    }";
      "    return lps;";
      "}" ].

Definition getEfficientSortExample : string :=
  join nl
    [ ("// Instead of bubble sort O(n" ++ sup2 ++ "):")%string;
      "for (int i = 0; i < n-1; i++) {";
      "    for (int j = 0; j < n-i-1; j++) {";
      "        if (arr[j] > arr[j+1]) {";
      "            swap(arr[j], arr[j+1]);";
      "        }";
      "    }";
      "}";
      EmptyString;
      "// Use built-in sort O(n log n):";
      "sort(arr.begin(), arr.end());" ].

Definition getMergeSortExample : string :=
  join nl
    [ "// Implement merge sort O(n log n):";
      "void mergeSort(vector<int>& arr, int left, int right) {";
      "    if (left < right) {";
      "        int mid = left + (right - left) / 2;";
      "        mergeSort(arr, left, mid);";
      "        mergeSort(arr, mid + 1, right);";
      "        merge(arr, left, mid, right);";
      "    }";
      "}" ].

Definition getTailRecursionExample (functionName : string) : string :=
  join nl
    [ "// Convert to tail recursion:";
      ("int " ++ functionName ++ "Helper(int n, int acc) {")%string;
      "    if (n <= 1) return acc;";
      ("    return " ++ functionName ++ "Helper(n - 1, acc * n);")%string;
      "}";
      EmptyString;
      ("int " ++ functionName ++ "(int n) {")%string;
      ("    return " ++ functionName ++ "Helper(n, 1);")%string;
      "}" ].

Definition getCharArrayExample : string :=
  join nl
    [ "// Instead of string concatenation:";
      ("string result = " ++ dquote ++ dquote ++ ";")%string;
      "for (char c : chars) {";
      ("    result += c; // O(n" ++ sup2 ++ ")")%string;
      "}";
      EmptyString;
      "// Use character array:";
      "vector<char> result;";
      "for (char c : chars) {";
      "    result.push_back(c); // O(n)";
      "}";
      "string final_result(result.begin(), result.end());" ].

Definition getInPlaceOperationExample : string :=
  join nl
    [ "// Instead of creating new array:";
      "vector<int> doubled;";
      "for (int x : arr) {";
      "    doubled.push_back(x * 2);";
      "}";
      EmptyString;
      "// Modify in-place:";
      "for (int& x : arr) {";
      "    x *= 2;";
      "}" ].

Definition getSpaceOptimizationExample : string :=
  join nl
    [ "// Space-optimized approach:";
      "// Instead of O(n) extra space:";
      "vector<int> temp(n);";
      EmptyString;
      "// Use O(1) space with two pointers:";
      "int left = 0, right = n - 1;";
      "while (left < right) {";
      "    // Process without extra space";
      "    left++;";
      "    right--;";
      "}" ].

(** *** Helper methods for pattern detection *)

Definition isLoop (this : t) (line : string) : comp bool :=
  match LoopPatterns.get (language this) with
  | Own pattern => Value (test pattern line)
  | Inherited => TypeError
  | Undefined => Value false
  end.

Definition bump (cond : bool) (d : Z) (n : Z) : Z :=
  if cond then (n + d)%Z else n.

(** The loop of [hasNestedLoop] from index [i] on, over the lines of its
    window that are left. *)
Fixpoint hasNestedLoop_from (this : t) (window : list string)
    (i startIndex : nat) (braceCount : Z) : comp bool :=
  match window with
  | [] => Value false
  | raw :: rest =>
      let line := trim raw in
      let braceCount := bump (includes line "{") 1 braceCount in
      let braceCount := bump (includes line "}") (-1) braceCount in
      nested <- andThen (0 <? braceCount)%Z
                  (l <- isLoop this line ;; Value (l && (startIndex <? i))) ;;
      if nested then Value true
      else if (braceCount =? 0)%Z && (startIndex <? i) then Value false
      else hasNestedLoop_from this rest (S i) startIndex braceCount
  end.

Definition hasNestedLoop (this : t) (lines : list string) (startIndex : nat)
    : comp bool :=
  hasNestedLoop_from this
    (slice lines startIndex (Nat.min (startIndex + 20) (List.length lines)))
    startIndex startIndex 0%Z.

Record LoopContext : Type := {
  isSearching : bool;
  isMatrixOperation : bool
}.

Definition getLoopContext (lines : list string) (startIndex : nat) : LoopContext :=
  fold_left
    (fun context raw =>
       let line := toLowerCase raw in
       {| isSearching :=
            if includes line "==" || includes line "find" || includes line "search"
            then true else isSearching context;
          isMatrixOperation :=
            if includes line "[i][j]" || includes line "matrix" || includes line "grid"
            then true else isMatrixOperation context |})
    (slice lines startIndex (Nat.min (startIndex + 10) (List.length lines)))
    {| isSearching := false; isMatrixOperation := false |}.

Definition isRecursiveFunction (line : string) : bool :=
  includes line "def " || includes line "function " ||
  (includes line "(" && includes line ")" && includes line "{").

(** [/(?:def|function)\s+(\w+)|(\w+)\s*\(/] *)
Definition functionNamePattern : regex :=
  Alt (Cat (Alt (Lit "def") (Lit "function")) (Cat (Plus white) (Grp 1 (Plus wordc))))
      (Cat (Grp 2 (Plus wordc)) (Cat (Star white) (Chr "("))).

Definition extractFunctionName (line : string) : string :=
  match exec functionNamePattern line with
  | Some m => orDefault (group 1 m) (orDefault (group 2 m) "function")
  | None => "function"
  end.

Definition isFibonacciPattern (lines : list string) (startIndex : nat) : bool :=
  let functionBody :=
    join " " (slice lines startIndex (Nat.min (startIndex + 10) (List.length lines))) in
  includes functionBody "fibonacci" ||
  (includes functionBody "n-1" && includes functionBody "n-2").

Definition canOptimizeToTailRecursion (lines : list string) (startIndex : nat) : bool :=
  let functionBody :=
    slice lines startIndex (Nat.min (startIndex + 15) (List.length lines)) in
  some (fun line =>
          includes line "return" && includes line "(" &&
          negb (includes line "+") && negb (includes line "*"))
       functionBody.

Definition hasArrayInsertionAtBeginning (line : string) : bool :=
  includes line ".insert(0" || includes line ".unshift(" ||
  includes line "insert(arr.begin()".

(** [index - 3] on [nat] stops at 0, which is [Math.max(0, index - 3)]. *)
Definition hasFrequentArrayLookups (lines : list string) (index : nat) : bool :=
  let context :=
    slice lines (Nat.max 0 (index - 3)) (Nat.min (List.length lines) (index + 3)) in
  let lookupCount :=
    List.length (filter (fun line =>
                      includes line ".find(" || includes line ".indexOf(" ||
                      includes line "in ") context) in
  2 <=? lookupCount.

Definition hasSetOperationsOnArray (line : string) : bool :=
  (includes line "unique" || includes line "distinct") &&
  (includes line "array" || includes line "list" || includes line "vector").

Definition isLinearSearchInSortedArray (this : t) (lines : list string)
    (index : nat) : comp bool :=
  let context :=
    slice lines (Nat.max 0 (index - 5)) (Nat.min (List.length lines) (index + 5)) in
  let hasSortedComment :=
    some (fun line =>
            includes (toLowerCase line) "sorted" ||
            includes (toLowerCase line) "ascending") context in
  hasLinearSearch <-
    andThen (includes (nth index lines EmptyString) "==")
            (isLoop this (nth index lines EmptyString)) ;;
  Value (hasSortedComment && hasLinearSearch).

Definition hasSubstringSearch (line : string) : bool :=
  includes line ".find(" || includes line ".indexOf(" ||
  includes line "substring" || includes line "strstr".

Definition isBubbleSort (this : t) (lines : list string) (index : nat) : comp bool :=
  let context :=
    join " " (slice lines index (Nat.min (index + 8) (List.length lines))) in
  orElse (includes context "bubble")
    (andThen (includes context "swap" && includes context "j+1")
       (hasNestedLoop this lines index)).

Definition isSelectionSort (this : t) (lines : list string) (index : nat) : comp bool :=
  let context :=
    join " " (slice lines index (Nat.min (index + 10) (List.length lines))) in
  orElse (includes context "selection")
    (andThen (includes context "min" && includes context "swap")
       (hasNestedLoop this lines index)).

Definition hasStringConcatenationInLoop (this : t) (lines : list string)
    (index : nat) : comp bool :=
  l <- isLoop this (nth index lines EmptyString) ;;
  Value (l &&
         some (fun line =>
                 includes line "+=" && (includes line dquote || includes line "'"))
              (slice lines index (Nat.min (index + 5) (List.length lines)))).

Definition hasCharacterByCharacterBuilding (line : string) : bool :=
  includes line "charAt" || (includes line "[i]" && includes line "string").

Definition hasUnnecessaryArrayCopy (line : string) : bool :=
  includes line ".copy()" || includes line ".clone()" ||
  includes line "Arrays.copyOf" || includes line "memcpy".

Definition hasSpaceInefficiency (lines : list string) (index : nat) : bool :=
  let context := slice lines index (Nat.min (index + 5) (List.length lines)) in
  some (fun line =>
          includes line "new " && (includes line "[n]" || includes line "vector<"))
       context.

(** *** The seven recognizer families *)

(** The suggestion pushed when [cond] holds. *)
Definition when (cond : bool) (s : Suggestion) : list Suggestion :=
  if cond then [s] else [].

Definition analyzeNestedLoops (this : t) (lines : list string)
    : comp (list Suggestion) :=
  forEachLine
    (fun i raw =>
       let line := trim raw in
       l <- isLoop this line ;;
       nested <- andThen l (hasNestedLoop this lines i) ;;
       if nested then
         let context := getLoopContext lines i in
         Value
           (when (isSearching context)
              {| s_line := i + 1;
                 s_type := SOptimization;
                 title := "Replace nested loop search with hash map";
                 s_description :=
                   "Convert O(n" ++ sup2 ++ ") nested loop search to O(n) using a hash map for constant-time lookups.";
                 example := Some getHashMapExample;
                 priority := high |}
            ++
            when (isMatrixOperation context)
              {| s_line := i + 1;
                 s_type := SAlgorithm;
                 title := "Optimize matrix operations";
                 s_description :=
                   "Consider cache-friendly iteration patterns or specialized matrix algorithms.";
                 example := Some getMatrixOptimizationExample;
                 priority := medium |})
       else Value [])
    0 lines.

Definition analyzeRecursionPatterns (this : t) (lines : list string)
    : comp (list Suggestion) :=
  forEachLine
    (fun i raw =>
       let line := trim raw in
       if isRecursiveFunction line then
         let functionName := extractFunctionName line in
         Value
           (when (isFibonacciPattern lines i)
              {| s_line := i + 1;
                 s_type := SAlgorithm;
                 title := "Implement memoization for recursive function";
                 s_description :=
                   "Add memoization to avoid redundant calculations and reduce time complexity from O(2^n) to O(n).";
                 example := Some (getMemoizationExample functionName);
                 priority := high |}
            ++
            when (canOptimizeToTailRecursion lines i)
              {| s_line := i + 1;
                 s_type := SOptimization;
                 title := "Convert to tail recursion or iterative approach";
                 s_description :=
                   "Optimize stack usage by converting to tail recursion or an iterative solution.";
                 example := Some (getTailRecursionExample functionName);
                 priority := medium |})
       else Value [])
    0 lines.

Definition analyzeDataStructureUsage (this : t) (lines : list string)
    : comp (list Suggestion) :=
  forEachLine
    (fun i raw =>
       let line := trim raw in
       Value
         (when (hasArrayInsertionAtBeginning line)
            {| s_line := i + 1;
               s_type := SOptimization;
               title := "Use deque for efficient front insertions";
               s_description :=
                 "Array insertions at the beginning are O(n). Consider using a deque or linked list for O(1) front insertions.";
               example := Some getDequeExample;
               priority := medium |}
          ++
          when (hasFrequentArrayLookups lines i)
            {| s_line := i + 1;
               s_type := SOptimization;
               title := "Replace array with hash map for faster lookups";
               s_description :=
                 "Convert O(n) array searches to O(1) hash map lookups for better performance.";
               example := Some getHashMapLookupExample;
               priority := high |}
          ++
          when (hasSetOperationsOnArray line)
            {| s_line := i + 1;
               s_type := SOptimization;
               title := "Use Set data structure for unique elements";
               s_description :=
                 "Set operations on arrays are inefficient. Use a Set data structure for O(1) add/remove/contains operations.";
               example := Some getSetOperationExample;
               priority := medium |}))
    0 lines.

Definition analyzeSearchPatterns (this : t) (lines : list string)
    : comp (list Suggestion) :=
  forEachLine
    (fun i raw =>
       let line := trim raw in
       linear <- isLinearSearchInSortedArray this lines i ;;
       Value
         (when linear
            {| s_line := i + 1;
               s_type := SAlgorithm;
               title := "Use binary search for sorted arrays";
               s_description :=
                 "Replace O(n) linear search with O(log n) binary search for sorted data.";
               example := Some getBinarySearchExample;
               priority := high |}
          ++
          when (hasSubstringSearch line)
            {| s_line := i + 1;
               s_type := SAlgorithm;
               title := "Consider KMP algorithm for string matching";
               s_description :=
                 "For repeated string searches, KMP algorithm provides O(n+m) complexity instead of O(n*m).";
               example := Some getKMPExample;
               priority := medium |}))
    0 lines.

Definition analyzeSortingPatterns (this : t) (lines : list string)
    : comp (list Suggestion) :=
  forEachLine
    (fun i raw =>
       bubble <- isBubbleSort this lines i ;;
       selection <- isSelectionSort this lines i ;;
       Value
         (when bubble
            {| s_line := i + 1;
               s_type := SAlgorithm;
               title := "Replace bubble sort with efficient sorting algorithm";
               s_description :=
                 "Bubble sort has O(n" ++ sup2 ++ ") complexity. Use quicksort, mergesort, or built-in sort functions for O(n log n) performance.";
               example := Some getEfficientSortExample;
               priority := high |}
          ++
          when selection
            {| s_line := i + 1;
               s_type := SAlgorithm;
               title := "Upgrade from selection sort to merge sort";
               s_description :=
                 "Selection sort is O(n" ++ sup2 ++ "). Consider merge sort or heap sort for guaranteed O(n log n) performance.";
               example := Some getMergeSortExample;
               priority := high |}))
    0 lines.

Definition analyzeStringOperations (this : t) (lines : list string)
    : comp (list Suggestion) :=
  forEachLine
    (fun i raw =>
       let line := trim raw in
       concatenation <- hasStringConcatenationInLoop this lines i ;;
       Value
         (when concatenation
            {| s_line := i + 1;
               s_type := SOptimization;
               title := "Use StringBuilder for string concatenation in loops";
               s_description :=
                 "String concatenation in loops creates O(n" ++ sup2 ++ ") complexity. Use StringBuilder or string arrays for O(n) performance.";
               example := Some getStringBuilderExample;
               priority := high |}
          ++
          when (hasCharacterByCharacterBuilding line)
            {| s_line := i + 1;
               s_type := SOptimization;
               title := "Optimize character-by-character string operations";
               s_description :=
                 "Consider using character arrays or StringBuilder for efficient string manipulation.";
               example := Some getCharArrayExample;
               priority := medium |}))
    0 lines.

Definition analyzeMemoryOptimizations (this : t) (lines : list string)
    : comp (list Suggestion) :=
  forEachLine
    (fun i raw =>
       let line := trim raw in
       Value
         (when (hasUnnecessaryArrayCopy line)
            {| s_line := i + 1;
               s_type := SOptimization;
               title := "Avoid unnecessary array copying";
               s_description :=
                 "Array copying is O(n) operation. Consider using array slicing or in-place operations when possible.";
               example := Some getInPlaceOperationExample;
               priority := medium |}
          ++
          when (hasSpaceInefficiency lines i)
            {| s_line := i + 1;
               s_type := SOptimization;
               title := "Optimize space complexity";
               s_description :=
                 "Consider space-time trade-offs. Sometimes using O(1) extra space instead of O(n) can be beneficial.";
               example := Some getSpaceOptimizationExample;
               priority := low |}))
    0 lines.

(** The closing [filter(s => s !== null)] keeps everything: no recognizer
    pushes [null]. *)
Definition generateAISuggestions (this : t) : comp (list Suggestion) :=
  let lines := split_lines (code this) in
  s1 <- analyzeNestedLoops this lines ;;
  s2 <- analyzeRecursionPatterns this lines ;;
  s3 <- analyzeDataStructureUsage this lines ;;
  s4 <- analyzeSearchPatterns this lines ;;
  s5 <- analyzeSortingPatterns this lines ;;
  s6 <- analyzeStringOperations this lines ;;
  s7 <- analyzeMemoryOptimizations this lines ;;
  Value (s1 ++ s2 ++ s3 ++ s4 ++ s5 ++ s6 ++ s7).

End AIOptimizer.

(** ** The Structural Detector ([utils/complexityDetector.ts]) *)

Module ComplexityDetector.
Import JS RegExp.

Record t : Type := {
  language : string;
  code : string;
  lines : list string
}.

Definition new (code language : string) : t :=
  {| code := code; language := toLowerCase language; lines := split_lines code |}.

(** *** Line recognizers *)

(** A simplified version in the source as well: a placeholder that answers 0. *)
Definition getNestedLoopDepth (line : string) : nat := 0.

Definition isLoop (this : t) (line : string) : comp bool :=
  match LoopPatterns.get (language this) with
  | Own pattern => Value (test pattern line)
  | Inherited => TypeError
  | Undefined => Value false
  end.

(** [/\w+\s*\([^)]*\w+\s*[-+]\s*\d+[^)]*\)/] *)
Definition selfCallPattern : regex :=
  Seq [ Plus wordc; Star white; Chr "("; Star (NotChr ")"); Plus wordc;
        Star white; Alt (Chr "-") (Chr "+"); Star white; Plus digit;
        Star (NotChr ")"); Chr ")" ].

Definition isRecursiveCall (line : string) : bool :=
  includes line "function_name(" || includes line "def " ||
  test selfCallPattern line.

Definition collectionPatterns : list regex :=
  [ Lit ".find("; Lit ".filter("; Lit ".map("; Lit ".forEach(";
    Seq [Lit "in"; Plus white; Plus wordc];
    Lit ".contains("; Lit ".indexOf(" ].

Definition isCollectionOperation (line : string) : bool :=
  some (fun pattern => test pattern line) collectionPatterns.

Definition hashPatterns : list regex :=
  [ Seq [Chr "["; Star dot; Chr "]"; Star white; Chr "="];
    Lit ".get("; Lit ".put(";
    Seq [Chr "["; Star dot; Chr "]"] ].

Definition isHashOperation (line : string) : bool :=
  some (fun pattern => test pattern line) hashPatterns.

(** *** Per-line classification *)

Record Complexity : Type := {
  notation : string;
  reason : string;
  severity : Level
}.

Definition getLineComplexity (this : t) (line : string) : comp Complexity :=
  let nestedLoopDepth := getNestedLoopDepth line in
  if 1 <? nestedLoopDepth then
    Value {| notation := "O(n^" ++ show_nat nestedLoopDepth ++ ")";
             reason := "Nested loop with depth " ++ show_nat nestedLoopDepth;
             severity := high |}
  else
    l <- isLoop this line ;;
    if l then
      Value {| notation := "O(n)";
               reason := "Linear loop iteration";
               severity := medium |}
    else if isRecursiveCall line then
      Value {| notation := "O(2^n)";
               reason := "Potential exponential recursion";
               severity := high |}
    else if isCollectionOperation line then
      Value {| notation := "O(n)";
               reason := "Collection iteration or search";
               severity := medium |}
    else if isHashOperation line then
      Value {| notation := "O(1)";
               reason := "Hash table lookup/insertion";
               severity := low |}
    else
      Value {| notation := "O(1)";
               reason := "Constant time operation";
               severity := low |}.

(** [this.lines.map((line, index) => ...)] from [index] on. *)
Fixpoint analyzeLines_from (this : t) (index : nat) (rest : list string)
    : comp (list LineComplexity) :=
  match rest with
  | [] => Value []
  | line :: rest' =>
      let trimmedLine := trim line in
      complexity <- getLineComplexity this trimmedLine ;;
      records <- analyzeLines_from this (S index) rest' ;;
      Value ({| lc_line := index + 1;
                lc_code := line;
                lc_complexity := notation complexity;
                lc_reason := reason complexity;
                lc_severity := severity complexity |} :: records)
  end.

Definition analyzeLines (this : t) : comp (list LineComplexity) :=
  analyzeLines_from this 0 (lines this).

(** *** Structural patterns *)

(** The [while] loop of [analyzeNestedStructure] from [currentLine] on, over
    the lines that are left; it answers the final [currentLine] and
    [maxDepth]. *)
Fixpoint scanNested (this : t) (rest : list string)
    (currentLine startLine depth maxDepth : nat) (braceCount : Z)
    : comp (nat * nat) :=
  match rest with
  | [] => Value (currentLine, maxDepth)
  | raw :: rest' =>
      let line := trim raw in
      l <- isLoop this line ;;
      let depth := if l then depth + 1 else depth in
      let maxDepth := if l then Nat.max maxDepth depth else maxDepth in
      let braceCount := if includes line "{" then (braceCount + 1)%Z else braceCount in
      let closing := includes line "}" in
      let braceCount := if closing then (braceCount - 1)%Z else braceCount in
      let depth := if closing && (0 <? depth) then depth - 1 else depth in
      if (braceCount =? 0)%Z && (startLine <? currentLine)
      then Value (currentLine, maxDepth)
      else scanNested this rest' (S currentLine) startLine depth maxDepth braceCount
  end.

Definition analyzeNestedStructure (this : t) (startLine : nat)
    : comp (option ComplexityPattern) :=
  r <- scanNested this (skipn startLine (lines this)) startLine startLine 0 1 0%Z ;;
  let '(currentLine, maxDepth) := r in
  if 1 <? maxDepth then
    Value (Some {| p_type := PNested;
                   startLine := startLine + 1;
                   endLine := currentLine + 1;
                   p_complexity := "O(n^" ++ show_nat maxDepth ++ ")";
                   p_description := "Nested loops with depth " ++ show_nat maxDepth;
                   impact := if 2 <? maxDepth then high else medium |})
  else Value None.

Definition recursionPattern (i : nat) : ComplexityPattern :=
  {| p_type := PRecursion;
     startLine := i + 1;
     endLine := i + 1;
     p_complexity := "O(2^n)";
     p_description := "Recursive function call detected";
     impact := high |}.

(** The [while] loop of [detectPatterns] from index [i] on; [fuel] bounds the
    number of iterations. *)
Fixpoint detectPatterns_from (this : t) (fuel i : nat)
    (patterns : list ComplexityPattern) : comp (list ComplexityPattern) :=
  match fuel with
  | O => OutOfFuel
  | S fuel' =>
      if i <? List.length (lines this) then
        let line := trim (nth i (lines this) EmptyString) in
        l <- isLoop this line ;;
        nestedPattern <- (if l then analyzeNestedStructure this i else Value None) ;;
        match nestedPattern with
        | Some nested =>
            detectPatterns_from this fuel' (endLine nested) (patterns ++ [nested])
        | None =>
            let patterns :=
              if isRecursiveCall line then patterns ++ [recursionPattern i]
              else patterns in
            detectPatterns_from this fuel' (i + 1) patterns
        end
      else Value patterns
  end.

Definition detectPatterns (this : t) : comp (list ComplexityPattern) :=
  detectPatterns_from this (S (List.length (lines this))) 0 [].

(** *** Structural suggestions *)

Definition PatternType_eqb (a b : PatternType) : bool :=
  match a, b with
  | PLoop, PLoop | PRecursion, PRecursion
  | PNested, PNested | PAlgorithm, PAlgorithm => true
  | _, _ => false
  end.

Definition nestedSuggestion (pattern : ComplexityPattern) : Suggestion :=
  {| s_line := startLine pattern;
     s_type := SOptimization;
     title := "Reduce nested loop complexity";
     s_description :=
       "Consider using hash maps, early termination, or breaking the problem into smaller functions.";
     example := Some "Use a hash map for O(1) lookups instead of nested loops for searching.";
     priority := high |}.

Definition recursionSuggestion (pattern : ComplexityPattern) : Suggestion :=
  {| s_line := startLine pattern;
     s_type := SAlgorithm;
     title := "Optimize recursion";
     s_description :=
       "Consider using memoization, dynamic programming, or iterative approaches.";
     example := Some "Add a cache to store previously computed results.";
     priority := high |}.

Definition simplifySuggestion (line : LineComplexity) : Suggestion :=
  {| s_line := lc_line line;
     s_type := SRefactor;
     title := "Simplify complex operation";
     s_description := "This line contributes significantly to overall complexity.";
     example := None;
     priority := medium |}.

Definition generateSuggestions (lineAnalysis : list LineComplexity)
    (patterns : list ComplexityPattern) : list Suggestion :=
  let suggestions :=
    fold_left
      (fun suggestions pattern =>
         let suggestions :=
           if PatternType_eqb (p_type pattern) PNested && Level_eqb (impact pattern) high
           then suggestions ++ [nestedSuggestion pattern] else suggestions in
         if PatternType_eqb (p_type pattern) PRecursion
         then suggestions ++ [recursionSuggestion pattern] else suggestions)
      patterns [] in
  fold_left
    (fun suggestions line =>
       if Level_eqb (lc_severity line) high &&
          negb (some (fun s => s_line s =? lc_line line) suggestions)
       then suggestions ++ [simplifySuggestion line] else suggestions)
    lineAnalysis suggestions.

(** *** Merge: deduplicate, then sort by priority *)

(** The key [`${suggestion.line}-${suggestion.title}`]. *)
Definition key (suggestion : Suggestion) : string :=
  show_nat (s_line suggestion) ++ "-" ++ title suggestion.

(** [seen.has(key)] for the [Set<string>] kept as the list of its elements. *)
Definition has (seen : list string) (k : string) : bool :=
  existsb (String.eqb k) seen.

(** The [filter] callback run over the list, threading the set [seen]. *)
Fixpoint filterSeen (seen : list string) (suggestions : list Suggestion)
    : list Suggestion :=
  match suggestions with
  | [] => []
  | suggestion :: rest =>
      if has seen (key suggestion) then filterSeen seen rest
      else suggestion :: filterSeen (key suggestion :: seen) rest
  end.

Definition priorityOrder (p : Level) : Z :=
  match p with high => 3 | medium => 2 | low => 1 end.

(** The comparator handed to [sort]: negative when [a] goes first. *)
Definition byPriority (a b : Suggestion) : Z :=
  (priorityOrder (priority b) - priorityOrder (priority a))%Z.

(** [Array.prototype.sort] is a stable sort: an element moves behind those
    that compare before it and stays ahead of the later ones it ties with. *)
Fixpoint insertSorted {A} (compare : A -> A -> Z) (x : A) (sorted : list A) : list A :=
  match sorted with
  | [] => [x]
  | y :: rest =>
      if (compare x y <=? 0)%Z then x :: y :: rest
      else y :: insertSorted compare x rest
  end.

Definition sort {A} (compare : A -> A -> Z) (xs : list A) : list A :=
  fold_right (insertSorted compare) [] xs.

Definition deduplicateSuggestions (suggestions : list Suggestion) : list Suggestion :=
  sort byPriority (filterSeen [] suggestions).

(** *** Educational content *)

(** [set.add(x)]: insertion order is kept, a member is not added again. *)
Definition add (x : string) (set : list string) : list string :=
  if existsb (String.eqb x) set then set else set ++ [x].

(** [obj[k] = v] on an object used as a map, keys in insertion order. *)
Fixpoint assign (k v : string) (obj : list (string * string)) : list (string * string) :=
  match obj with
  | [] => [(k, v)]
  | (k', v') :: rest =>
      if String.eqb k k' then (k, v) :: rest else (k', v') :: assign k v rest
  end.

Definition learn (concept explanation sample : string) (e : EducationalContent)
    : EducationalContent :=
  {| concepts := add concept (concepts e);
     explanations := assign concept explanation (explanations e);
     examples := assign concept sample (examples e) |}.

Definition generateEducationalContent (patterns : list ComplexityPattern)
    : EducationalContent :=
  let seen :=
    fold_left
      (fun e pattern =>
         match p_type pattern with
         | PNested =>
             learn "Nested Loops"
               ("Nested loops multiply time complexity. Two nested loops over n elements result in O(n" ++ sup2 ++ ") complexity.")
               (join nl
                  [ "for (int i = 0; i < n; i++) {";
                    "  for (int j = 0; j < n; j++) {";
                    ("    // O(n" ++ sup2 ++ ") operation")%string;
                    "  }";
                    "}" ])
               e
         | PRecursion =>
             learn "Recursion"
               "Recursive functions call themselves. Without optimization, they can have exponential complexity."
               (join nl
                  [ "int fibonacci(int n) {";
                    "  if (n <= 1) return n;";
                    "  return fibonacci(n-1) + fibonacci(n-2); // O(2^n)";
                    "}" ])
               e
         | _ => e
         end)
      patterns
      {| concepts := []; explanations := []; examples := [] |} in
  learn "Big O Notation"
    ("Big O describes how algorithm performance scales with input size. O(1) is constant, O(n) is linear, O(n" ++ sup2 ++ ") is quadratic.")
    (join nl
       [ "O(1): array[index]";
         "O(n): linear search";
         ("O(n" ++ sup2 ++ "): nested loops")%string;
         "O(log n): binary search" ])
    seen.

(** *** Aggregate scoring *)

(** [/n\^(\d+)/] *)
Definition exponentPattern : regex :=
  Seq [Chr "n"; Chr "^"; Grp 1 (Plus digit)].

(** [parseInt(pattern.complexity.match(/n\^(\d+)/)?.[1] || '2')] *)
Definition exponentOf (complexity : string) : N :=
  parseInt
    (orDefault
       (match exec exponentPattern complexity with
        | Some m => group 1 m
        | None => None
        end)
       "2").

(** One turn of the [forEach] callback on the pair [(maxComplexity, score)]. *)
Definition scorePattern (state : string * Z) (pattern : ComplexityPattern)
    : string * Z :=
  let '(maxComplexity, score) := state in
  if includes (p_complexity pattern) "n^" then
    let exponent := exponentOf (p_complexity pattern) in
    (("O(n^" ++ show_N exponent ++ ")")%string, (score - Z.of_N exponent * 20)%Z)
  else if String.eqb (p_complexity pattern) "O(2^n)" then
    ("O(2^n)", (score - 40)%Z)
  else if String.eqb (p_complexity pattern) "O(n log n)" then
    ("O(n log n)", (score - 15)%Z)
  else if String.eqb (p_complexity pattern) "O(n)" && String.eqb maxComplexity "O(1)" then
    ("O(n)", (score - 10)%Z)
  else (maxComplexity, score).

Definition calculateOverallComplexity (patterns : list ComplexityPattern) : Overall :=
  let '(maxComplexity, score) := fold_left scorePattern patterns ("O(1)", 100%Z) in
  {| time := maxComplexity;
     space := "O(1)";
     score := Z.max 0 score |}.

(** *** The entry point *)

Definition analyze (this : t) : comp ComplexityAnalysis :=
  lineByLine <- analyzeLines this ;;
  patterns <- detectPatterns this ;;
  let basicSuggestions := generateSuggestions lineByLine patterns in
  let educational := generateEducationalContent patterns in
  let overall := calculateOverallComplexity patterns in
  let preliminaryAnalysis :=
    {| overall := overall;
       lineByLine := lineByLine;
       patterns := patterns;
       suggestions := basicSuggestions;
       educational := educational |} in
  let aiOptimizer :=
    AIOptimizer.new (code this) (language this) preliminaryAnalysis in
  aiSuggestions <- AIOptimizer.generateAISuggestions aiOptimizer ;;
  let allSuggestions := basicSuggestions ++ aiSuggestions in
  let uniqueSuggestions := deduplicateSuggestions allSuggestions in
  Value {| overall := overall;
           lineByLine := lineByLine;
           patterns := patterns;
           suggestions := uniqueSuggestions;
           educational := educational |}.

End ComplexityDetector.

(** [new ComplexityDetector(code, language).analyze()], as [App.tsx] calls it. *)
Definition analyze (code language : string) : comp ComplexityAnalysis :=
  ComplexityDetector.analyze (ComplexityDetector.new code language).

(** ** Global, case-insensitive matching ([new RegExp(text, 'gi')]) *)

Module RegExpGlobal.
Import JS RegExp.

(** The canonical form two characters share when they are equal up to case
    (flag [i], no flag [u]): the upper-case letter.  A character whose
    upper-case form lies outside the 8-bit range, or is more than one
    character, is equal up to case to itself only. *)
Definition canonicalize (c : ascii) : ascii :=
  if in_range 97 122 c || in_range 224 246 c || in_range 248 254 c
  then ascii_of_nat (code c - 32) else c.

(** The characters of [s], one after the other, up to case. *)
Fixpoint LitI (s : string) : regex :=
  match s with
  | EmptyString => Eps
  | String c EmptyString =>
      Cls (fun x => Ascii.eqb (canonicalize c) (canonicalize x))
  | String c s' =>
      Cat (Cls (fun x => Ascii.eqb (canonicalize c) (canonicalize x))) (LitI s')
  end.

(** The text matched by [r] at the head of [s], if any. *)
Definition matchHere (r : regex) (prev : option ascii) (s : string) : option string :=
  match rmatch (Grp 0 r) prev s [] accept with
  | Some caps => Some (match group 0 caps with Some m => m | None => EmptyString end)
  | None => None
  end.

(** [s.match(r)] for a global [r]: all matches from left to right, the search
    resuming where the last match ended (one character further after an empty
    match).  [skip] counts the characters of [s] the last match still covers. *)
Fixpoint matchAll (r : regex) (prev : option ascii) (s : string) (skip : nat)
    : list string :=
  match skip with
  | S skip' =>
      match s with
      | String c s' => matchAll r (Some c) s' skip'
      | EmptyString => []
      end
  | O =>
      match matchHere r prev s with
      | Some m =>
          m :: match s with
               | String c s' => matchAll r (Some c) s' (String.length m - 1)
               | EmptyString => []
               end
      | None =>
          match s with
          | String c s' => matchAll r (Some c) s' 0
          | EmptyString => []
          end
      end
  end.

(** [const matches = s.match(r); matches ? matches.length : 0] *)
Definition matchCount (r : regex) (s : string) : nat :=
  List.length (matchAll r None s 0).

End RegExpGlobal.

(** ** The language detector ([utils/languageDetector.ts]) *)

Module LanguageDetector.
Import JS RegExp RegExpGlobal.

Record CodeLanguage : Type := {
  id : string;
  name : string;
  extensions : list string;
  keywords : list string;
  complexityPatterns : list regex
}.

Definition SUPPORTED_LANGUAGES : list CodeLanguage :=
  [ {| id := "cpp";
       name := "C++";
       extensions := [".cpp"; ".cc"; ".cxx"; ".h"; ".hpp"];
       keywords := ["#include"; "using namespace"; "int main"; "std::"; "cout";
                    "cin"; "vector"; "class"];
       complexityPatterns :=
         [ Seq [Lit "for"; Star white; Chr "("];
           Seq [Lit "while"; Star white; Chr "("];
           Seq [Lit "do"; Star white; Chr "{"] ] |};
    {| id := "java";
       name := "Java";
       extensions := [".java"];
       keywords := ["public class"; "private"; "public"; "static"; "void";
                    "import"; "package"; "System.out"];
       complexityPatterns :=
         [ Seq [Lit "for"; Star white; Chr "("];
           Seq [Lit "while"; Star white; Chr "("];
           Seq [Lit "do"; Star white; Chr "{"] ] |};
    {| id := "python";
       name := "Python";
       extensions := [".py"];
       keywords := ["def "; "import "; "from "; "class "; "if __name__";
                    "print("; "range("; "len("];
       complexityPatterns :=
         [ Seq [Lit "for"; Plus white; Plus wordc; Plus white; Lit "in"];
           Seq [Lit "while"; Plus white];
           Seq [Lit "def"; Plus white; Plus wordc] ] |} ].

(** [filename.split('.').pop()]: the text after the last dot, the whole name
    when it has no dot. *)
Fixpoint lastSegment (s : string) : string :=
  match s with
  | EmptyString => EmptyString
  | String c s' =>
      if includes s' "." then lastSegment s'
      else if Ascii.eqb c "." then s' else String c s'
  end.

(** [xs.includes(x)] on an array of texts. *)
Definition member (x : string) (xs : list string) : bool :=
  existsb (String.eqb x) xs.

(** [new RegExp(keyword.replace(/[.*+?^${}()|[\]\\]/g, '\\$&'), 'gi')]: every
    special character is escaped, so the expression matches the characters of
    the keyword and nothing else, up to case. *)
Definition keywordPattern (keyword : string) : regex := LitI keyword.

(** The score one language collects: the matches of all its keywords. *)
Definition keywordScore (lang : CodeLanguage) (code : string) : nat :=
  fold_left
    (fun score keyword => score + matchCount (keywordPattern keyword) code)
    (keywords lang) 0.

(** [scores[key] = value] on the object [scores], keys in insertion order. *)
Fixpoint setScore (key : string) (value : nat) (scores : list (string * nat))
    : list (string * nat) :=
  match scores with
  | [] => [(key, value)]
  | (k, v) :: rest =>
      if String.eqb key k then (key, value) :: rest
      else (k, v) :: setScore key value rest
  end.

(** [scores[key]] for a key of the object. *)
Fixpoint getScore (key : string) (scores : list (string * nat)) : nat :=
  match scores with
  | [] => 0
  | (k, v) :: rest => if String.eqb key k then v else getScore key rest
  end.

Definition computeScores (code : string) : list (string * nat) :=
  fold_left
    (fun scores lang => setScore (id lang) (keywordScore lang code) scores)
    SUPPORTED_LANGUAGES [].

(** [keys.reduce(f)] without an initial value: a [TypeError] on no key. *)
Definition reduce (f : string -> string -> string) (keys : list string) : comp string :=
  match keys with
  | [] => TypeError
  | first :: rest => Value (fold_left f rest first)
  end.

Definition detectLanguage (code : string) (filename : option string) : comp string :=
  let byExtension :=
    match filename with
    | Some (String c f) =>
        let extension := ("." ++ toLowerCase (lastSegment (String c f)))%string in
        find (fun lang => member extension (extensions lang)) SUPPORTED_LANGUAGES
    | _ => None
    end in
  match byExtension with
  | Some langByExt => Value (id langByExt)
  | None =>
      let scores := computeScores code in
      detectedLang <-
        reduce (fun a b => if getScore b scores <? getScore a scores then a else b)
               (map fst scores) ;;
      Value (if 0 <? getScore detectedLang scores then detectedLang else "cpp")
  end.

Definition getLanguageInfo (languageId : string) : option CodeLanguage :=
  find (fun lang => String.eqb (id lang) languageId) SUPPORTED_LANGUAGES.

End LanguageDetector.

(** ** Inputs of the scenarios *)

Module Scenarios.
Import JS.

(** Scenario A: one [for] loop, no nesting. *)
Definition singleLoop : string :=
  join nl [ "for(i=0;i<n;i++){"; "sum+=arr[i];"; "}" ].

(** Scenario C: the recursive Fibonacci function in Python. *)
Definition fibonacciPython : string :=
  join nl
    [ "def fibonacci(n):";
      "    if n <= 1:";
      "        return n";
      "    return fibonacci(n-1) + fibonacci(n-2)" ].

(** The same function written on one line. *)
Definition fibonacciOneLine : string :=
  "def fibonacci(n): return fibonacci(n-1) + fibonacci(n-2)".

(** Two nested loops closed by two braces on one line. *)
Definition nestedClosedTogether : string :=
  join nl
    [ "for(i=0;i<n;i++){";
      "for(j=0;j<n;j++){";
      "s+=a[i][j];";
      "}}" ].

Definition loopHeader : string := "for (int i = 0; i < n; i++) {".

(** A loop header that counts down from [n-1]. *)
Definition countDown : string := "for (i = n-1; i >= 0; i--) {".

End Scenarios.

(** ** Views used to state the properties *)

(** A language tag that selects an own entry of [loopPatterns]. *)
Definition recognized (language : string) : bool :=
  existsb (String.eqb (JS.toLowerCase language)) ["cpp"; "java"; "python"].

(** A language tag that names a member of [Object.prototype]. *)
Definition inherited (language : string) : bool :=
  existsb (String.eqb (JS.toLowerCase language)) LoopPatterns.objectPrototype.

(** The suggestions of the Detector alone. *)
Definition detectorSuggestions (code language : string) : comp (list Suggestion) :=
  let this := ComplexityDetector.new code language in
  lineByLine <- ComplexityDetector.analyzeLines this ;;
  patterns <- ComplexityDetector.detectPatterns this ;;
  Value (ComplexityDetector.generateSuggestions lineByLine patterns).

(** The suggestions of the Optimizer, built with the analysis [a]. *)
Definition optimizerSuggestions (code language : string) (a : ComplexityAnalysis)
    : comp (list Suggestion) :=
  AIOptimizer.generateAISuggestions (AIOptimizer.new code language a).

(** Identity of a suggestion for the merge: the pair (line, title). *)
Definition identity (s : Suggestion) : nat * string := (s_line s, title s).

Definition sameIdentity (a b : Suggestion) : bool :=
  (s_line a =? s_line b) && String.eqb (title a) (title b).

(** The memoization suggestion of Scenario C. *)
Definition isMemoization (s : Suggestion) : Prop :=
  title s = "Implement memoization for recursive function" /\
  priority s = high /\
  exists e, example s = Some e /\ JS.includes e "fibonacci" = true.

Definition lineCount (code : string) : nat := List.length (JS.split_lines code).

(** *** Views of the aggregate scoring *)

(** A pattern whose label takes one of the three branches that overwrite the
    time label whatever it is. *)
Definition overwrites (p : ComplexityPattern) : bool :=
  JS.includes (p_complexity p) "n^" ||
  String.eqb (p_complexity p) "O(2^n)" ||
  String.eqb (p_complexity p) "O(n log n)".

(** A pattern whose label is exactly ['O(n)']. *)
Definition linear (p : ComplexityPattern) : bool :=
  String.eqb (p_complexity p) "O(n)".

(** The time label a pattern that overwrites sets. *)
Definition labelSetBy (p : ComplexityPattern) : string :=
  if JS.includes (p_complexity p) "n^"
  then "O(n^" ++ JS.show_N (ComplexityDetector.exponentOf (p_complexity p)) ++ ")"
  else p_complexity p.

(** The label set by the last pattern that takes a scoring branch.  An
    ['O(n)'] pattern takes its branch only while the label is still ['O(1)'],
    that is when no earlier pattern took one; so it is the last to do so only
    when no pattern overwrites. *)
Definition lastFiringLabel (ps : list ComplexityPattern) : string :=
  match find overwrites (rev ps) with
  | Some p => labelSetBy p
  | None => if existsb linear ps then "O(n)" else "O(1)"
  end.

(** The pattern [p] with its complexity label replaced. *)
Definition relabel (label : string) (p : ComplexityPattern) : ComplexityPattern :=
  {| p_type := p_type p;
     startLine := startLine p;
     endLine := endLine p;
     p_complexity := label;
     p_description := p_description p;
     impact := impact p |}.

(** *** Views of the merge *)

(** A text without the separator [-] of the deduplication key. *)
Fixpoint dashFree (s : string) : Prop :=
  match s with
  | EmptyString => True
  | String c s' => c <> "-"%char /\ dashFree s'
  end.

(** [a] may stand before [b] in the sorted list: its rank is not lower. *)
Definition before (a b : Suggestion) : Prop :=
  (ComplexityDetector.priorityOrder (priority b)
   <= ComplexityDetector.priorityOrder (priority a))%Z.

Definition hasPriority (p : Level) (s : Suggestion) : bool :=
  Level_eqb (priority s) p.

(** *** Views of the nested patterns *)

(** What [analyzeNestedStructure] answers at index [i] when it answers a
    pattern. *)
Definition nestedFrom (this : ComplexityDetector.t) (i : nat)
    (p : ComplexityPattern) : Prop :=
  p_type p = PNested /\
  startLine p = i + 1 /\
  i + 1 <= endLine p <= Nat.max i (List.length (ComplexityDetector.lines this)) + 1 /\
  exists d, 2 <= d /\ p_complexity p = ("O(n^" ++ JS.show_nat d ++ ")")%string.

(** The bounds claimed for a nested pattern, but for the last one: the end
    line may be one past the last line. *)
Definition nestedWithin (this : ComplexityDetector.t) (p : ComplexityPattern) : Prop :=
  p_type p = PNested ->
  1 <= startLine p <= endLine p /\
  endLine p <= List.length (ComplexityDetector.lines this) + 1 /\
  exists d, 2 <= d /\ p_complexity p = ("O(n^" ++ JS.show_nat d ++ ")")%string.

(** ** The panels that show a result *)

(** The suggestion panel (component [ImprovementSuggestions]). *)
Module ImprovementSuggestions.
Import JS.

Definition priorityOrder (p : Level) : Z :=
  match p with high => 3 | medium => 2 | low => 1 end.

(** [suggestions.sort((a, b) => priorityOrder[b.priority] - priorityOrder[a.priority])] *)
Definition sortedSuggestions (suggestions : list Suggestion) : list Suggestion :=
  ComplexityDetector.sort
    (fun a b => (priorityOrder (priority b) - priorityOrder (priority a))%Z)
    suggestions.

(** The titles the panel shows as AI-powered. *)
Definition isAiTitle (s : Suggestion) : bool :=
  includes (title s) "hash map" || includes (title s) "memoization" ||
  includes (title s) "binary search" || includes (title s) "StringBuilder" ||
  includes (title s) "deque" || includes (title s) "Set data structure".

Definition aiSuggestions (suggestions : list Suggestion) : list Suggestion :=
  filter isAiTitle (sortedSuggestions suggestions).

Definition SuggestionType_eqb (a b : SuggestionType) : bool :=
  match a, b with
  | SOptimization, SOptimization | SRefactor, SRefactor
  | SAlgorithm, SAlgorithm => true
  | _, _ => false
  end.

Definition option_eqb (a b : option string) : bool :=
  match a, b with
  | Some x, Some y => String.eqb x y
  | None, None => true
  | _, _ => false
  end.

(** Two suggestions with the same fields.  [aiSuggestions.includes(s)]
    compares objects; an object equal to [s] field by field has the title of
    [s], so it is in [aiSuggestions] exactly when [s] is. *)
Definition Suggestion_eqb (a b : Suggestion) : bool :=
  (s_line a =? s_line b) && SuggestionType_eqb (s_type a) (s_type b) &&
  String.eqb (title a) (title b) &&
  String.eqb (s_description a) (s_description b) &&
  option_eqb (example a) (example b) &&
  Level_eqb (priority a) (priority b).

Definition basicSuggestions (suggestions : list Suggestion) : list Suggestion :=
  filter (fun s => negb (existsb (Suggestion_eqb s) (aiSuggestions suggestions)))
         (sortedSuggestions suggestions).

End ImprovementSuggestions.

(** The summary cards (component [ComplexityVisualization]). *)
Module ComplexityVisualization.
Import JS.

Definition getScoreColor (score : Z) : string :=
  if (80 <=? score)%Z then "text-green-600 bg-green-50"
  else if (60 <=? score)%Z then "text-yellow-600 bg-yellow-50"
  else if (40 <=? score)%Z then "text-orange-600 bg-orange-50"
  else "text-red-600 bg-red-50".

(** The [notation] of each entry of [complexityLevels]. *)
Definition levelNotations : list string :=
  [ "O(1)"; "O(log n)"; "O(n)"; "O(n log n)";
    ("O(n" ++ sup2 ++ ")")%string; "O(2^n)" ].

(** The entries marked CURRENT: [analysis.overall.time === level.notation]. *)
Definition currentLevels (analysis : ComplexityAnalysis) : list string :=
  filter (String.eqb (time (overall analysis))) levelNotations.

End ComplexityVisualization.

(** *** Views of the detected patterns *)

(** The record [analyzeNestedStructure] builds for a scan that started at
    index [i], stopped at index [last] and saw depth [d]. *)
Definition nestedPattern (i last d : nat) : ComplexityPattern :=
  {| p_type := PNested;
     startLine := i + 1;
     endLine := last + 1;
     p_complexity := "O(n^" ++ JS.show_nat d ++ ")";
     p_description := "Nested loops with depth " ++ JS.show_nat d;
     impact := if 2 <? d then high else medium |}.

(** How [detectPatterns] came to a pattern: at an index [i] of the text,
    either the trimmed line matches the recursive-call heuristic and the
    pattern is the one-line recursion pattern of that line, or the trimmed
    line is a loop header and the pattern is a nested pattern of depth at
    least 2 that starts there. *)
Definition builtAt (this : ComplexityDetector.t) (p : ComplexityPattern) : Prop :=
  exists i,
    i < List.length (ComplexityDetector.lines this) /\
    let line := JS.trim (nth i (ComplexityDetector.lines this) EmptyString) in
    ((ComplexityDetector.isRecursiveCall line = true /\
      p = ComplexityDetector.recursionPattern i) \/
     (ComplexityDetector.isLoop this line = Value true /\
      exists d last,
        2 <= d /\ i <= last <= List.length (ComplexityDetector.lines this) /\
        p = nestedPattern i last d)).

(** [p] ends on a line before the one [q] starts on. *)
Definition endsBefore (p q : ComplexityPattern) : Prop := endLine p < startLine q.

(** The recursion patterns of the lines [rest], the first of which has index
    [i]: one for every line whose trimmed text matches the recursive-call
    heuristic. *)
Fixpoint recursionPatternsFrom (i : nat) (rest : list string) : list ComplexityPattern :=
  match rest with
  | [] => []
  | line :: rest' =>
      (if ComplexityDetector.isRecursiveCall (JS.trim line)
       then [ComplexityDetector.recursionPattern i] else [])
      ++ recursionPatternsFrom (S i) rest'
  end.

(** The number written after [O(n^] in a label. *)
Definition depthOfLabel (label : string) : N :=
  match label with
  | String _ (String _ (String _ (String _ digits))) => JS.parseInt digits
  | _ => 0%N
  end.

(** What a pattern of [analyze] takes off the score: 40 for a recursion
    pattern, 20 times its depth for a nested pattern. *)
Definition penalty (p : ComplexityPattern) : Z :=
  match p_type p with
  | PRecursion => 40
  | PNested => 20 * Z.of_N (depthOfLabel (p_complexity p))
  | _ => 0
  end.

(** *** Views of the texts of digits *)

Fixpoint allDigits (s : string) : Prop :=
  match s with
  | EmptyString => True
  | String c s' => JS.is_digit c = true /\ allDigits s'
  end.

Definition noDigitAhead (s : string) : Prop :=
  match s with
  | EmptyString => True
  | String c _ => JS.is_digit c = false
  end.

(** The character before the end of [s], [prev] for the empty text. *)
Fixpoint lastChar (prev : option ascii) (s : string) : option ascii :=
  match s with
  | EmptyString => prev
  | String c s' => lastChar (Some c) s'
  end.

(** What the patterns take off the score together. *)
Definition totalPenalty (ps : list ComplexityPattern) : Z :=
  fold_right Z.add 0%Z (map penalty ps).

(** *** Views of the suggestions *)

(** The titles the Optimizer gives its suggestions. *)
Definition optimizerTitles : list string :=
  [ "Replace nested loop search with hash map";
    "Optimize matrix operations";
    "Implement memoization for recursive function";
    "Convert to tail recursion or iterative approach";
    "Use deque for efficient front insertions";
    "Replace array with hash map for faster lookups";
    "Use Set data structure for unique elements";
    "Use binary search for sorted arrays";
    "Consider KMP algorithm for string matching";
    "Replace bubble sort with efficient sorting algorithm";
    "Upgrade from selection sort to merge sort";
    "Use StringBuilder for string concatenation in loops";
    "Optimize character-by-character string operations";
    "Avoid unnecessary array copying";
    "Optimize space complexity" ].

(** A suggestion as a recognizer of the Optimizer makes it for line [n]. *)
Definition optimizerMade (n : nat) (s : Suggestion) : Prop :=
  s_line s = n /\ In (title s) optimizerTitles /\ example s <> None.

(** A suggestion as [generateSuggestions] makes it from the patterns [ps] and
    the line records [la]. *)
Definition detectorMade (la : list LineComplexity) (ps : list ComplexityPattern)
    (s : Suggestion) : Prop :=
  (exists p, In p ps /\ p_type p = PNested /\ impact p = high /\
             s = ComplexityDetector.nestedSuggestion p) \/
  (exists p, In p ps /\ p_type p = PRecursion /\
             s = ComplexityDetector.recursionSuggestion p) \/
  (exists l, In l la /\ lc_severity l = high /\
             s = ComplexityDetector.simplifySuggestion l).

(** *** Views of the educational content *)

(** [obj[k]] on an object used as a map: [None] for [undefined]. *)
Fixpoint lookup (k : string) (obj : list (string * string)) : option string :=
  match obj with
  | [] => None
  | (k', v) :: rest => if String.eqb k k' then Some v else lookup k rest
  end.

(** What the loop of [generateEducationalContent] keeps true: the concepts
    are distinct, they are the keys of both maps, and each is one of the two
    concepts a pattern can teach. *)
Definition coherent (e : EducationalContent) : Prop :=
  NoDup (concepts e) /\
  map fst (explanations e) = concepts e /\
  map fst (examples e) = concepts e /\
  Forall (fun c => c = "Nested Loops" \/ c = "Recursion") (concepts e).

(** Three loops nested in Python. *)
Definition tripleLoopPython : string :=
  JS.join JS.nl
    [ "for i in a:";
      "    for j in b:";
      "        for k in c:";
      "            total += 1" ].

(** [tripleLoopPython] with its indentation removed. *)
Definition tripleLoopFlat : string :=
  JS.join JS.nl
    [ "for i in a:";
      "for j in b:";
      "for k in c:";
      "total += 1" ].

(** What a line record says of its line, the text of the line apart. *)
Definition classification (l : LineComplexity) : nat * string * string * Level :=
  (lc_line l, lc_complexity l, lc_reason l, lc_severity l).

(** The titles of the suggestions that are made for a loop header only. *)
Definition loopTitles : list string :=
  [ "Reduce nested loop complexity";
    "Replace nested loop search with hash map";
    "Optimize matrix operations";
    "Use binary search for sorted arrays";
    "Use StringBuilder for string concatenation in loops" ].

Definition aboutLoops (s : Suggestion) : Prop := In (title s) loopTitles.

(** Two texts that are equal up to the case of their characters. *)
Fixpoint sameUpToCase (a b : string) : bool :=
  match a, b with
  | EmptyString, EmptyString => true
  | String x a', String y b' =>
      Ascii.eqb (RegExpGlobal.canonicalize x) (RegExpGlobal.canonicalize y)
      && sameUpToCase a' b'
  | _, _ => false
  end.

(** A Python script, and the same in capitals. *)
Definition pythonScript : string :=
  JS.join JS.nl [ "def f(xs):"; "    print(len(xs))" ].

Definition pythonScriptCapitals : string :=
  JS.join JS.nl [ "DEF F(XS):"; "    PRINT(LEN(XS))" ].

(** *** The number model

    [parseInt] answers a Number and the template literal renders one.  The
    model keeps the integer the digits write, which is the Number of the
    source for every value below 2^53; a pattern whose written exponent is
    below that bound is scored and labelled as the source does. *)
Definition safeExponent (p : ComplexityPattern) : Prop :=
  (ComplexityDetector.exponentOf (p_complexity p) < 2 ^ 53)%N.

(** *** Ranks of the specification *)

(** The rank of a priority in the words of the specification: high 3,
    medium 2, low 1. *)
Definition priorityRank (p : Level) : Z :=
  match p with
  | high => 3%Z
  | medium => 2%Z
  | low => 1%Z
  end.

(** *** Inputs of the merge *)

(** Three suggestions, the first and the last of which share line and
    title. *)
Definition firstOnLine3 : Suggestion :=
  {| s_line := 3; s_type := SAlgorithm; title := "Optimize recursion";
     s_description := "first"; example := None; priority := medium |}.

Definition onLine4 : Suggestion :=
  {| s_line := 4; s_type := SAlgorithm; title := "Optimize recursion";
     s_description := "other"; example := None; priority := high |}.

Definition secondOnLine3 : Suggestion :=
  {| s_line := 3; s_type := SAlgorithm; title := "Optimize recursion";
     s_description := "second"; example := None; priority := high |}.

(** A C++ text whose Detector suggestion (medium) comes before Optimizer
    suggestions of priority high, medium and low. *)
Definition mixedPriorities : string :=
  JS.join JS.nl
    [ "int* p = new int[n];";
      "for(i=0;i<n;i++){";
      "for(j=0;j<n;j++){";
      "if(a[i]==b[j]) x = f(n-1);";
      "}}";
      "k = s.indexOf(t);" ].

(** Two line records of severity high on one line. *)
Definition highRecord (code : string) : LineComplexity :=
  {| lc_line := 1; lc_code := code; lc_complexity := "O(2^n)";
     lc_reason := "Potential exponential recursion"; lc_severity := high |}.

(** * Properties *)

Section Monad.

Context {A B : Type}.

Lemma bind_Value (m : comp A) (f : A -> comp B) (b : B) :
  bind m f = Value b -> exists a, m = Value a /\ f a = Value b.
Proof.
  destruct m as [a| |]; simpl; intros H; try discriminate.
  exists a; split; [reflexivity | exact H].
Qed.

End Monad.

Lemma lower_char_idempotent c : JS.lower_char (JS.lower_char c) = JS.lower_char c.
Proof.
  destruct c as [[] [] [] [] [] [] [] []]; reflexivity.
Qed.

Lemma toLowerCase_idempotent s : JS.toLowerCase (JS.toLowerCase s) = JS.toLowerCase s.
Proof.
  induction s as [|c s IH]; simpl; [reflexivity|].
  now rewrite lower_char_idempotent, IH.
Qed.

(** What a successful [analyze] is made of. *)
Lemma analyze_Value code language r :
  analyze code language = Value r ->
  exists lineByLine patterns aiSuggestions preliminary,
    ComplexityDetector.analyzeLines (ComplexityDetector.new code language)
      = Value lineByLine /\
    ComplexityDetector.detectPatterns (ComplexityDetector.new code language)
      = Value patterns /\
    optimizerSuggestions code language preliminary = Value aiSuggestions /\
    r = {| overall := ComplexityDetector.calculateOverallComplexity patterns;
           lineByLine := lineByLine;
           patterns := patterns;
           suggestions :=
             ComplexityDetector.deduplicateSuggestions
               (ComplexityDetector.generateSuggestions lineByLine patterns
                ++ aiSuggestions);
           educational := ComplexityDetector.generateEducationalContent patterns |}.
Proof.
  unfold analyze, ComplexityDetector.analyze. intros H.
  apply bind_Value in H. destruct H as [lbl [Hl H]].
  apply bind_Value in H. destruct H as [pats [Hp H]].
  apply bind_Value in H. destruct H as [ai [Ha H]].
  exists lbl, pats, ai. eexists. repeat split; try eassumption.
  - unfold optimizerSuggestions.
    unfold AIOptimizer.new in *. simpl in Ha.
    rewrite toLowerCase_idempotent in Ha. exact Ha.
  - injection H as <-. reflexivity.
Qed.

(** ** The recognizers on sample lines *)

Example split_lines_keeps_last_empty_line :
  JS.split_lines (JS.join JS.nl ["a"; "b"; EmptyString]) = ["a"; "b"; EmptyString].
Proof. reflexivity. Qed.

Example split_lines_of_empty_text : JS.split_lines EmptyString = [EmptyString].
Proof. reflexivity. Qed.

Example trim_strips_both_ends : JS.trim "   a b  " = "a b".
Proof. reflexivity. Qed.

Example braces_needs_word_boundary :
  RegExp.test LoopPatterns.braces "for (int i = 0; i < n; i++) {" = true /\
  RegExp.test LoopPatterns.braces "while(x)" = true /\
  RegExp.test LoopPatterns.braces "xfor (;;)" = false /\
  RegExp.test LoopPatterns.braces "for i in range(n):" = false.
Proof. repeat split. Qed.

Example colon_needs_colon_on_the_line :
  RegExp.test LoopPatterns.colon "for i in range(n):" = true /\
  RegExp.test LoopPatterns.colon "for (;;) {" = false /\
  RegExp.test LoopPatterns.colon "platform: x" = false.
Proof. repeat split. Qed.

Example isRecursiveCall_samples :
  ComplexityDetector.isRecursiveCall "return fibonacci(n-1) + fibonacci(n-2)" = true /\
  ComplexityDetector.isRecursiveCall "def f(x):" = true /\
  ComplexityDetector.isRecursiveCall "for(i=0;i<n;i++){" = false /\
  ComplexityDetector.isRecursiveCall "return f(x) + 1" = false.
Proof. repeat split. Qed.

Example extractFunctionName_samples :
  AIOptimizer.extractFunctionName "def fibonacci(n):" = "fibonacci" /\
  AIOptimizer.extractFunctionName "int fib(int n) {" = "fib" /\
  AIOptimizer.extractFunctionName "{" = "function".
Proof. repeat split. Qed.

Example exponentOf_samples :
  ComplexityDetector.exponentOf "O(n^12)" = 12%N /\
  ComplexityDetector.exponentOf "O(n^k)" = 2%N.
Proof. repeat split. Qed.

Example empty_text_is_trivial :
  exists r,
    analyze EmptyString "cpp" = Value r /\
    patterns r = [] /\ suggestions r = [] /\
    List.length (lineByLine r) = 1 /\
    time (overall r) = "O(1)" /\ score (overall r) = 100%Z.
Proof. eexists. split; [vm_compute; reflexivity|]. repeat split. Qed.

(** ** Scenario A: a single loop *)

(** C1, as stated, fails: for the three-line single [for] loop under the tag
    [cpp] the overall time is not ['O(n)'] with score 90. *)
Lemma C1_single_loop_is_not_linear_overall :
  ~ (exists r,
       analyze Scenarios.singleLoop "cpp" = Value r /\
       time (overall r) = "O(n)" /\
       score (overall r) = 90%Z /\
       exists l, In l (lineByLine r) /\ lc_severity l = medium).
Proof.
  intros [r [H [Ht _]]].
  vm_compute in H. injection H as <-. discriminate Ht.
Qed.

(** C1, amended: for the three-line single [for] loop under the tag [cpp],
    [analyze] finds no pattern, so the overall time is ['O(1)'] and the score
    is 100; the line record of the loop header (line 1) is ['O(n)'] with
    severity [medium]. *)
Theorem C1_single_loop_overall :
  exists r,
    analyze Scenarios.singleLoop "cpp" = Value r /\
    patterns r = [] /\
    time (overall r) = "O(1)" /\
    score (overall r) = 100%Z /\
    exists l, In l (lineByLine r) /\
              lc_line l = 1 /\ lc_complexity l = "O(n)" /\ lc_severity l = medium.
Proof.
  eexists. split; [vm_compute; reflexivity|].
  repeat split.
  eexists. split; [left; reflexivity|].
  repeat split.
Qed.

(** ** Nested patterns *)

(** C2 at its failing input: two nested loops closed by [}}] on the fourth and
    last line.  The brace counter drops once for that line and never comes
    back to zero, the scan leaves the text, and the nested pattern ends on
    line 5 of a four-line input. *)
Theorem C2_nested_pattern_ends_past_last_line :
  lineCount Scenarios.nestedClosedTogether = 4 /\
  exists r,
    analyze Scenarios.nestedClosedTogether "cpp" = Value r /\
    patterns r =
      [ {| p_type := PNested;
           startLine := 1;
           endLine := 5;
           p_complexity := "O(n^2)";
           p_description := "Nested loops with depth 2";
           impact := medium |} ].
Proof.
  split; [reflexivity|].
  eexists. split; [vm_compute; reflexivity|]. reflexivity.
Qed.

(** ** Scenario C: recursive Fibonacci *)



(** ** The loop-header recognizer and the language tag *)

Lemma get_unrecognized language :
  recognized language = false ->
  inherited language = false ->
  LoopPatterns.get (JS.toLowerCase language) = Undefined.
Proof.
  unfold recognized, inherited, LoopPatterns.get. simpl existsb at 1.
  intros Hr Hi. rewrite Hi.
  repeat (apply orb_false_iff in Hr; destruct Hr as [? Hr]).
  repeat match goal with H : String.eqb _ _ = false |- _ => rewrite H; clear H end.
  reflexivity.
Qed.

Lemma get_inherited language :
  inherited language = true ->
  LoopPatterns.get (JS.toLowerCase language) = Inherited.
Proof.
  unfold inherited. intros Hi.
  apply existsb_exists in Hi. destruct Hi as [name [Hname Heq]].
  apply String.eqb_eq in Heq. rewrite Heq. simpl in Hname.
  repeat (destruct Hname as [<-|Hname]; [reflexivity|]).
  contradiction.
Qed.

(** C3, as stated, fails: under the tag [javascript] the C-family header
    [for (int i = 0; i < n; i++) {] is not classified as a loop, and the
    result differs from the one under [cpp]. *)
Lemma C3_unrecognized_tag_does_not_fall_back :
  ComplexityDetector.isLoop
    (ComplexityDetector.new Scenarios.loopHeader "javascript")
    Scenarios.loopHeader = Value false /\
  analyze Scenarios.loopHeader "javascript" <> analyze Scenarios.loopHeader "cpp".
Proof.
  split; [reflexivity|].
  vm_compute. discriminate.
Qed.

(** C3, amended: for a language tag that, in lower case, is neither [cpp],
    [java] nor [python] (and is not the name of a member of
    [Object.prototype]), the loop-header recognizer of the Detector and of the
    Optimizer answers [false] on every line: there is no fallback to the
    C-family pattern. *)
Theorem C3_unrecognized_tag_has_no_loops code language a line :
  recognized language = false ->
  inherited language = false ->
  ComplexityDetector.isLoop (ComplexityDetector.new code language) line
    = Value false /\
  AIOptimizer.isLoop (AIOptimizer.new code language a) line = Value false.
Proof.
  intros Hr Hi.
  unfold ComplexityDetector.isLoop, AIOptimizer.isLoop; simpl.
  rewrite (get_unrecognized _ Hr Hi). split; reflexivity.
Qed.

Lemma C3_unrecognized_tag_has_no_loops_witness :
  recognized "javascript" = false /\
  inherited "javascript" = false /\
  ComplexityDetector.isLoop
    (ComplexityDetector.new Scenarios.loopHeader "javascript")
    Scenarios.loopHeader = Value false.
Proof.
  split; [reflexivity|]. split; [reflexivity|].
  apply (C3_unrecognized_tag_has_no_loops Scenarios.loopHeader "javascript"
           {| overall := {| time := "O(1)"; space := "O(1)"; score := 100 |};
              lineByLine := []; patterns := []; suggestions := [];
              educational := {| concepts := []; explanations := []; examples := [] |} |}
           Scenarios.loopHeader); reflexivity.
Defined.

(** A tag that names a member of [Object.prototype] makes the recognizer
    throw: the inherited value is truthy and has no [test] method. *)
Lemma isLoop_inherited_tag code language line :
  inherited language = true ->
  ComplexityDetector.isLoop (ComplexityDetector.new code language) line = TypeError.
Proof.
  intros Hi. unfold ComplexityDetector.isLoop; simpl.
  now rewrite (get_inherited _ Hi).
Qed.

(** ** Line records *)

Lemma getLineComplexity_cases this line c :
  ComplexityDetector.getLineComplexity this line = Value c ->
  In (ComplexityDetector.notation c) ["O(1)"; "O(n)"; "O(2^n)"] /\
  (ComplexityDetector.severity c = high <->
   ComplexityDetector.isLoop this line = Value false /\
   ComplexityDetector.isRecursiveCall line = true).
Proof.
  unfold ComplexityDetector.getLineComplexity.
  change (1 <? ComplexityDetector.getNestedLoopDepth line) with false.
  cbv iota.
  destruct (ComplexityDetector.isLoop this line) as [[|]| |]; simpl;
    try discriminate.
  - intros [= <-]; simpl. split; [tauto|].
    split; [discriminate | intros [[=] _]].
  - destruct (ComplexityDetector.isRecursiveCall line).
    + intros [= <-]; simpl. split; [tauto|]. split; auto.
    + destruct (ComplexityDetector.isCollectionOperation line);
        [|destruct (ComplexityDetector.isHashOperation line)];
        intros [= <-]; simpl; (split; [tauto|]);
        (split; [discriminate | intros [_ [=]]]).
Qed.

Lemma analyzeLines_from_records this index rest records :
  ComplexityDetector.analyzeLines_from this index rest = Value records ->
  forall record, In record records ->
  exists c,
    ComplexityDetector.getLineComplexity this (JS.trim (lc_code record)) = Value c /\
    lc_complexity record = ComplexityDetector.notation c /\
    lc_severity record = ComplexityDetector.severity c.
Proof.
  revert index records.
  induction rest as [|line rest IH]; intros index records H record Hin.
  - injection H as <-. contradiction.
  - simpl in H.
    apply bind_Value in H. destruct H as [c [Hc H]].
    apply bind_Value in H. destruct H as [tail [Htail H]].
    injection H as <-.
    destruct Hin as [<-|Hin].
    + exists c. simpl. auto.
    + eapply IH; eassumption.
Qed.

(** C10, as stated, fails: the trimmed text of the count-down loop header
    matches the recursive-call heuristic, yet its line record is not of
    severity [high], because the loop rule comes first. *)
Lemma C10_loop_header_matching_recursion_is_medium :
  exists r record,
    analyze Scenarios.countDown "cpp" = Value r /\
    In record (lineByLine r) /\
    ComplexityDetector.isRecursiveCall (JS.trim (lc_code record)) = true /\
    lc_severity record <> high.
Proof.
  eexists. eexists. split; [vm_compute; reflexivity|].
  split; [left; reflexivity|].
  split; [vm_compute; reflexivity | discriminate].
Qed.

(** C10, amended: every line record produced by [analyze] carries a label
    among ['O(1)'], ['O(n)'] and ['O(2^n)'] (the nested-depth helper always
    answers 0), and it has severity [high] exactly when its trimmed text is
    not a loop header and matches the recursive-call heuristic. *)
Theorem C10_line_record_labels code language r record :
  analyze code language = Value r ->
  In record (lineByLine r) ->
  In (lc_complexity record) ["O(1)"; "O(n)"; "O(2^n)"] /\
  (lc_severity record = high <->
   ComplexityDetector.isLoop (ComplexityDetector.new code language)
     (JS.trim (lc_code record)) = Value false /\
   ComplexityDetector.isRecursiveCall (JS.trim (lc_code record)) = true).
Proof.
  intros H Hin.
  apply analyze_Value in H.
  destruct H as [lbl [pats [ai [pre [Hl [_ [_ ->]]]]]]]. simpl in Hin.
  destruct (analyzeLines_from_records _ _ _ _ Hl _ Hin) as [c [Hc [E1 E2]]].
  rewrite E1, E2. exact (getLineComplexity_cases _ _ _ Hc).
Qed.

Lemma C10_line_record_labels_witness :
  exists r record,
    analyze Scenarios.fibonacciPython "python" = Value r /\
    In record (lineByLine r) /\
    In (lc_complexity record) ["O(1)"; "O(n)"; "O(2^n)"] /\
    (lc_severity record = high <->
     ComplexityDetector.isLoop
       (ComplexityDetector.new Scenarios.fibonacciPython "python")
       (JS.trim (lc_code record)) = Value false /\
     ComplexityDetector.isRecursiveCall (JS.trim (lc_code record)) = true).
Proof.
  assert (E : exists r,
             analyze Scenarios.fibonacciPython "python" = Value r /\
             exists record, In record (lineByLine r)).
  { eexists. split; [vm_compute; reflexivity|].
    eexists. left. reflexivity. }
  destruct E as [r [H [record Hin]]].
  exists r, record.
  split; [exact H|]. split; [exact Hin|].
  exact (C10_line_record_labels _ _ _ _ H Hin).
Defined.

(** ** The Optimizer reads the text and the tag only *)

Section OptimizerInputs.

Variables this that : AIOptimizer.t.
Hypothesis same_language : AIOptimizer.language this = AIOptimizer.language that.

Lemma isLoop_same line : AIOptimizer.isLoop this line = AIOptimizer.isLoop that line.
Proof. unfold AIOptimizer.isLoop. now rewrite same_language. Qed.

Lemma hasNestedLoop_from_same window i startIndex braceCount :
  AIOptimizer.hasNestedLoop_from this window i startIndex braceCount =
  AIOptimizer.hasNestedLoop_from that window i startIndex braceCount.
Proof.
  revert i braceCount.
  induction window as [|raw rest IH]; intros i braceCount; simpl; [reflexivity|].
  rewrite isLoop_same.
  destruct (andThen _ _) as [[|]| |]; simpl; try reflexivity.
  destruct (_ && _); [reflexivity | apply IH].
Qed.

Lemma hasNestedLoop_same lines startIndex :
  AIOptimizer.hasNestedLoop this lines startIndex =
  AIOptimizer.hasNestedLoop that lines startIndex.
Proof. apply hasNestedLoop_from_same. Qed.

Lemma forEachLine_ext {A} (f g : nat -> string -> comp (list A)) :
  (forall i raw, f i raw = g i raw) ->
  forall lines i, forEachLine f i lines = forEachLine g i lines.
Proof.
  intros Hfg lines.
  induction lines as [|raw rest IH]; intros i; simpl; [reflexivity|].
  now rewrite Hfg, IH.
Qed.

Lemma generateAISuggestions_same :
  AIOptimizer.code this = AIOptimizer.code that ->
  AIOptimizer.generateAISuggestions this = AIOptimizer.generateAISuggestions that.
Proof.
  intros same_code. unfold AIOptimizer.generateAISuggestions.
  rewrite same_code.
  set (lines := JS.split_lines (AIOptimizer.code that)).
  assert (E1 : AIOptimizer.analyzeNestedLoops this lines =
               AIOptimizer.analyzeNestedLoops that lines).
  { apply forEachLine_ext. intros i raw. cbv beta zeta.
    now rewrite isLoop_same, hasNestedLoop_same. }
  assert (E2 : AIOptimizer.analyzeRecursionPatterns this lines =
               AIOptimizer.analyzeRecursionPatterns that lines) by reflexivity.
  assert (E3 : AIOptimizer.analyzeDataStructureUsage this lines =
               AIOptimizer.analyzeDataStructureUsage that lines) by reflexivity.
  assert (E4 : AIOptimizer.analyzeSearchPatterns this lines =
               AIOptimizer.analyzeSearchPatterns that lines).
  { apply forEachLine_ext. intros i raw. cbv beta zeta.
    unfold AIOptimizer.isLinearSearchInSortedArray.
    now rewrite isLoop_same. }
  assert (E5 : AIOptimizer.analyzeSortingPatterns this lines =
               AIOptimizer.analyzeSortingPatterns that lines).
  { apply forEachLine_ext. intros i raw. cbv beta zeta.
    unfold AIOptimizer.isBubbleSort, AIOptimizer.isSelectionSort.
    now rewrite hasNestedLoop_same. }
  assert (E6 : AIOptimizer.analyzeStringOperations this lines =
               AIOptimizer.analyzeStringOperations that lines).
  { apply forEachLine_ext. intros i raw. cbv beta zeta.
    unfold AIOptimizer.hasStringConcatenationInLoop.
    now rewrite isLoop_same. }
  assert (E7 : AIOptimizer.analyzeMemoryOptimizations this lines =
               AIOptimizer.analyzeMemoryOptimizations that lines) by reflexivity.
  now rewrite E1, E2, E3, E4, E5, E6, E7.
Qed.

End OptimizerInputs.

(** C9: the suggestions of the Optimizer are the same for any two values of
    the analysis handed to its constructor: they depend on the text and the
    language tag only. *)
Theorem C9_optimizer_ignores_analysis code language (a1 a2 : ComplexityAnalysis) :
  AIOptimizer.generateAISuggestions (AIOptimizer.new code language a1) =
  AIOptimizer.generateAISuggestions (AIOptimizer.new code language a2).
Proof.
  apply generateAISuggestions_same; reflexivity.
Qed.

(** ** Aggregate scoring *)

Lemma labelSetBy_not_constant p :
  overwrites p = true -> String.eqb (labelSetBy p) "O(1)" = false.
Proof.
  unfold overwrites, labelSetBy.
  destruct (JS.includes (p_complexity p) "n^"); simpl; [reflexivity|].
  intros H. apply orb_true_iff in H.
  destruct H as [H|H]; apply String.eqb_eq in H; rewrite H; reflexivity.
Qed.

Lemma scorePattern_label cur sc p :
  fst (ComplexityDetector.scorePattern (cur, sc) p) =
  if overwrites p then labelSetBy p
  else if linear p && String.eqb cur "O(1)" then "O(n)" else cur.
Proof.
  unfold ComplexityDetector.scorePattern, overwrites, labelSetBy, linear.
  destruct (JS.includes (p_complexity p) "n^"); simpl; [reflexivity|].
  destruct (String.eqb (p_complexity p) "O(2^n)") eqn:E1; simpl.
  { apply String.eqb_eq in E1. now rewrite E1. }
  destruct (String.eqb (p_complexity p) "O(n log n)") eqn:E2; simpl.
  { apply String.eqb_eq in E2. now rewrite E2. }
  destruct (String.eqb (p_complexity p) "O(n)" && String.eqb cur "O(1)");
    reflexivity.
Qed.

Lemma fold_scorePattern_label ps sc :
  fst (fold_left ComplexityDetector.scorePattern ps ("O(1)", sc)) =
  lastFiringLabel ps.
Proof.
  induction ps as [|p ps IH] using rev_ind; [reflexivity|].
  rewrite fold_left_app. simpl.
  destruct (fold_left ComplexityDetector.scorePattern ps ("O(1)", sc))
    as [cur sc'] eqn:E.
  simpl in IH. rewrite scorePattern_label, IH.
  unfold lastFiringLabel. rewrite rev_app_distr, existsb_app. simpl.
  destruct (overwrites p); [reflexivity|].
  destruct (find overwrites (rev ps)) as [q|] eqn:Hq.
  - apply find_some in Hq. destruct Hq as [_ Hq].
    rewrite (labelSetBy_not_constant q Hq), andb_false_r. reflexivity.
  - rewrite orb_false_r.
    destruct (existsb linear ps), (linear p); reflexivity.
Qed.

Lemma calculateOverallComplexity_time ps :
  time (ComplexityDetector.calculateOverallComplexity ps) = lastFiringLabel ps.
Proof.
  unfold ComplexityDetector.calculateOverallComplexity.
  rewrite <- (fold_scorePattern_label ps 100).
  destruct (fold_left _ _ _); reflexivity.
Qed.



Lemma scorePattern_score cur sc p :
  (snd (ComplexityDetector.scorePattern (cur, sc) p) <= sc)%Z.
Proof.
  unfold ComplexityDetector.scorePattern.
  repeat match goal with |- context [if ?c then _ else _] => destruct c end;
    simpl; lia.
Qed.

Lemma fold_scorePattern_score ps state :
  (snd (fold_left ComplexityDetector.scorePattern ps state) <= snd state)%Z.
Proof.
  revert state.
  induction ps as [|p ps IH]; intros [cur sc]; simpl; [lia|].
  etransitivity; [apply IH|]. apply scorePattern_score.
Qed.

Lemma calculateOverallComplexity_bounds ps :
  (0 <= score (ComplexityDetector.calculateOverallComplexity ps) <= 100)%Z /\
  space (ComplexityDetector.calculateOverallComplexity ps) = "O(1)".
Proof.
  unfold ComplexityDetector.calculateOverallComplexity.
  pose proof (fold_scorePattern_score ps ("O(1)", 100%Z)) as H.
  destruct (fold_left _ _ _) as [cur sc]; simpl in *. split; [lia | reflexivity].
Qed.

(** C8: the overall score returned by [analyze] is an integer between 0 and
    100, and the space label is ['O(1)']. *)
Theorem C8_score_bounds code language r :
  analyze code language = Value r ->
  (0 <= score (overall r) <= 100)%Z /\ space (overall r) = "O(1)".
Proof.
  intros H. apply analyze_Value in H.
  destruct H as [lbl [pats [ai [pre [_ [_ [_ ->]]]]]]]. simpl.
  apply calculateOverallComplexity_bounds.
Qed.

Lemma C8_score_bounds_witness :
  exists r,
    analyze Scenarios.fibonacciPython "python" = Value r /\
    (0 <= score (overall r) <= 100)%Z /\ space (overall r) = "O(1)".
Proof.
  assert (E : exists r, analyze Scenarios.fibonacciPython "python" = Value r)
    by (eexists; vm_compute; reflexivity).
  destruct E as [r H]. exists r. split; [exact H|].
  exact (C8_score_bounds _ _ _ H).
Defined.

(** ** The deduplication key *)

Lemma dashFree_string_of_uint d : dashFree (NilEmpty.string_of_uint d).
Proof.
  induction d; simpl; try (split; [discriminate | assumption]). exact I.
Qed.

Lemma string_of_uint_inj d d' :
  NilEmpty.string_of_uint d = NilEmpty.string_of_uint d' -> d = d'.
Proof.
  intros H.
  assert (E : Some d = Some d')
    by (rewrite <- (NilEmpty.usu d), <- (NilEmpty.usu d'); now rewrite H).
  now injection E.
Qed.

Lemma show_nat_inj n m : JS.show_nat n = JS.show_nat m -> n = m.
Proof.
  unfold JS.show_nat. intros H. apply string_of_uint_inj in H.
  rewrite <- (DecimalNat.Unsigned.of_to n), <- (DecimalNat.Unsigned.of_to m).
  now rewrite H.
Qed.

Lemma append_dash_inj a b t u :
  dashFree a -> dashFree b ->
  (a ++ "-" ++ t)%string = (b ++ "-" ++ u)%string -> a = b /\ t = u.
Proof.
  revert b.
  induction a as [|c a IH]; intros [|c' b] Ha Hb H; simpl in *.
  - injection H as ->. auto.
  - injection H as <- _. destruct Hb as [Hb _]. now elim Hb.
  - injection H as -> _. destruct Ha as [Ha _]. now elim Ha.
  - injection H as -> H. destruct Ha as [_ Ha], Hb as [_ Hb].
    destruct (IH b Ha Hb H) as [-> ->]. auto.
Qed.

(** The key text stands for the pair (line, title). *)
Lemma key_identity a b :
  ComplexityDetector.key a = ComplexityDetector.key b <-> identity a = identity b.
Proof.
  unfold ComplexityDetector.key, identity. split.
  - intros H.
    apply append_dash_inj in H; try apply dashFree_string_of_uint.
    destruct H as [Hl Ht]. apply show_nat_inj in Hl. congruence.
  - intros [= -> ->]. reflexivity.
Qed.

Lemma sameIdentity_key a b :
  sameIdentity a b = true <-> ComplexityDetector.key a = ComplexityDetector.key b.
Proof.
  rewrite key_identity. unfold sameIdentity, identity.
  rewrite andb_true_iff, Nat.eqb_eq, String.eqb_eq.
  split; [intros [-> ->]; reflexivity | intros [= -> ->]; auto].
Qed.

Lemma has_In seen k : ComplexityDetector.has seen k = true <-> In k seen.
Proof.
  unfold ComplexityDetector.has. rewrite existsb_exists. split.
  - intros [x [Hx E]]. apply String.eqb_eq in E. now subst.
  - intros H. exists k. split; [assumption | apply String.eqb_refl].
Qed.

(** ** Deduplication keeps the first of each key *)

Section FilterSeen.

Import ComplexityDetector.

Lemma filterSeen_In seen l s :
  In s (filterSeen seen l) -> In s l /\ ~ In (key s) seen.
Proof.
  revert seen. induction l as [|x l IH]; intros seen H; simpl in *; [contradiction|].
  destruct (has seen (key x)) eqn:E.
  - destruct (IH _ H). auto.
  - destruct H as [<-|H].
    + split; [auto|]. rewrite <- has_In, E. discriminate.
    + destruct (IH _ H) as [H1 H2]. split; [auto|].
      intros H3. apply H2. now right.
Qed.

Lemma filterSeen_NoDup seen l : NoDup (map key (filterSeen seen l)).
Proof.
  revert seen. induction l as [|x l IH]; intros seen; simpl; [constructor|].
  destruct (has seen (key x)); [apply IH|].
  simpl. constructor; [|apply IH].
  intros H. apply in_map_iff in H. destruct H as [y [Hk Hy]].
  apply filterSeen_In in Hy. destruct Hy as [_ Hy].
  apply Hy. left. now rewrite Hk.
Qed.

Lemma filterSeen_first seen l s :
  In s (filterSeen seen l) -> find (sameIdentity s) l = Some s.
Proof.
  revert seen. induction l as [|x l IH]; intros seen H; simpl in *; [contradiction|].
  assert (Hskip : forall seen', In s (filterSeen seen' l) -> In (key x) seen' ->
                                sameIdentity s x = false).
  { intros seen' Hs Hx. apply filterSeen_In in Hs. destruct Hs as [_ Hs].
    apply not_true_is_false. intros E. apply sameIdentity_key in E.
    apply Hs. now rewrite E. }
  destruct (has seen (key x)) eqn:E.
  - rewrite (Hskip seen H); [eauto|]. now apply has_In.
  - destruct H as [<-|H].
    + now rewrite (proj2 (sameIdentity_key x x) eq_refl).
    + rewrite (Hskip _ H); [eauto|]. now left.
Qed.

Lemma filterSeen_complete seen l s :
  In s l -> ~ In (key s) seen ->
  exists s', In s' (filterSeen seen l) /\ key s' = key s.
Proof.
  revert seen. induction l as [|x l IH]; intros seen H Hs; simpl in *; [contradiction|].
  destruct (has seen (key x)) eqn:E.
  - destruct H as [->|H]; [|eauto].
    apply has_In in E. contradiction.
  - destruct H as [->|H].
    + exists s. split; [now left | reflexivity].
    + destruct (string_dec (key s) (key x)) as [Ek|Ek].
      * exists x. split; [now left | now symmetry].
      * destruct (IH (key x :: seen) H) as [s' [H1 H2]].
        { intros [H3|H3]; [now apply Ek | now apply Hs]. }
        exists s'. split; [now right | assumption].
Qed.

End FilterSeen.

(** ** The stable sort by priority *)

Section SortByPriority.

Import ComplexityDetector.

Lemma byPriority_before a b : (byPriority a b <=? 0)%Z = true <-> before a b.
Proof. unfold byPriority, before. rewrite Z.leb_le. lia. Qed.

Lemma byPriority_after a b : (byPriority a b <=? 0)%Z = false -> before b a.
Proof. unfold byPriority, before. rewrite Z.leb_gt. lia. Qed.

Lemma insertSorted_perm x l : Permutation (insertSorted byPriority x l) (x :: l).
Proof.
  induction l as [|y l IH]; simpl; [reflexivity|].
  destruct (byPriority x y <=? 0)%Z; [reflexivity|].
  rewrite IH. apply perm_swap.
Qed.

Lemma sort_perm l : Permutation (sort byPriority l) l.
Proof.
  induction l as [|x l IH]; simpl; [reflexivity|].
  rewrite insertSorted_perm. now constructor.
Qed.

Lemma insertSorted_HdRel y x l :
  before y x -> HdRel before y l -> HdRel before y (insertSorted byPriority x l).
Proof.
  intros Hyx Hl.
  destruct l as [|z l]; simpl; [now constructor|].
  destruct (byPriority x z <=? 0)%Z; constructor; trivial.
  now inversion Hl.
Qed.

Lemma insertSorted_sorted x l :
  Sorted before l -> Sorted before (insertSorted byPriority x l).
Proof.
  induction 1 as [|y l Hl IH Hy]; simpl.
  - repeat constructor.
  - destruct (byPriority x y <=? 0)%Z eqn:E.
    + constructor; [now constructor|].
      constructor. now apply byPriority_before.
    + constructor; [assumption|].
      apply insertSorted_HdRel; [now apply byPriority_after | assumption].
Qed.

Lemma sort_sorted l : Sorted before (sort byPriority l).
Proof.
  induction l as [|x l IH]; simpl; [constructor|].
  now apply insertSorted_sorted.
Qed.

Lemma Sorted_adjacent l1 a b l2 :
  Sorted before (l1 ++ a :: b :: l2) -> before a b.
Proof.
  induction l1 as [|x l1 IH]; simpl; intros H.
  - apply Sorted_inv in H. destruct H as [_ H]. now inversion H.
  - apply Sorted_inv in H. destruct H as [H _]. auto.
Qed.

Lemma different_rank_different_priority x y p :
  (byPriority x y <=? 0)%Z = false ->
  hasPriority p x && hasPriority p y = false.
Proof.
  unfold byPriority, hasPriority. rewrite Z.leb_gt.
  destruct (priority x), (priority y), p; simpl; intros H;
    try reflexivity; lia.
Qed.

Lemma insertSorted_stable p x l :
  filter (hasPriority p) (insertSorted byPriority x l) =
  filter (hasPriority p) (x :: l).
Proof.
  induction l as [|y l IH]; simpl; [reflexivity|].
  destruct (byPriority x y <=? 0)%Z eqn:E; [reflexivity|].
  simpl. rewrite IH. simpl.
  pose proof (different_rank_different_priority x y p E) as Hxy.
  destruct (hasPriority p x), (hasPriority p y); try reflexivity.
  discriminate Hxy.
Qed.

Lemma sort_stable p l :
  filter (hasPriority p) (sort byPriority l) = filter (hasPriority p) l.
Proof.
  induction l as [|x l IH]; simpl; [reflexivity|].
  rewrite insertSorted_stable. simpl. now rewrite IH.
Qed.

End SortByPriority.

(** ** The merged suggestion list *)

(** The suggestions of a successful [analyze] are the Detector's followed by
    the Optimizer's, deduplicated and sorted. *)
Lemma analyze_suggestions code language r :
  analyze code language = Value r ->
  exists basic ai a,
    detectorSuggestions code language = Value basic /\
    optimizerSuggestions code language a = Value ai /\
    suggestions r = ComplexityDetector.deduplicateSuggestions (basic ++ ai).
Proof.
  intros H. apply analyze_Value in H.
  destruct H as [lbl [pats [ai [pre [Hl [Hp [Ha ->]]]]]]].
  exists (ComplexityDetector.generateSuggestions lbl pats), ai, pre.
  repeat split; trivial.
  unfold detectorSuggestions. rewrite Hl, Hp. reflexivity.
Qed.

Lemma deduplicateSuggestions_first_kept l :
  NoDup (map identity (ComplexityDetector.deduplicateSuggestions l)) /\
  (forall s, In s (ComplexityDetector.deduplicateSuggestions l) ->
             find (sameIdentity s) l = Some s) /\
  (forall s, In s l ->
             exists s', In s' (ComplexityDetector.deduplicateSuggestions l) /\
                        identity s' = identity s).
Proof.
  unfold ComplexityDetector.deduplicateSuggestions.
  pose proof (sort_perm (ComplexityDetector.filterSeen [] l)) as Hperm.
  split; [|split].
  - apply (Permutation_NoDup (l := map identity (ComplexityDetector.filterSeen [] l))).
    + apply Permutation_map. now symmetry.
    + pose proof (filterSeen_NoDup [] l) as Hnd.
      revert Hnd. generalize (ComplexityDetector.filterSeen [] l).
      intros kept Hnd.
      apply (NoDup_map_inv (fun i => JS.show_nat (fst i) ++ "-" ++ snd i)%string).
      rewrite map_map. exact Hnd.
  - intros s Hin. apply (Permutation_in _ Hperm) in Hin.
    eapply filterSeen_first; eassumption.
  - intros s Hin.
    destruct (filterSeen_complete [] _ s Hin) as [s' [H1 H2]]; [auto|].
    exists s'. split.
    + apply (Permutation_in _ (Permutation_sym Hperm)). assumption.
    + now apply key_identity.
Qed.

(** C6: for every suggestion list, no two suggestions that
    [deduplicateSuggestions] keeps share a (line, title) pair, each kept
    suggestion is the first one of the list with its pair, and every pair of
    the list is still present.  The suggestions [analyze] returns are those
    kept of the Detector's suggestions followed by the Optimizer's: no two
    share a pair, and of the suggestions sharing a pair the first one is the
    one returned. *)
Theorem C6_suggestions_unique_first_kept :
  (forall l,
     NoDup (map identity (ComplexityDetector.deduplicateSuggestions l)) /\
     (forall s, In s (ComplexityDetector.deduplicateSuggestions l) ->
                find (sameIdentity s) l = Some s) /\
     (forall s, In s l ->
                exists s', In s' (ComplexityDetector.deduplicateSuggestions l) /\
                           identity s' = identity s)) /\
  (forall code language r,
     analyze code language = Value r ->
     NoDup (map identity (suggestions r)) /\
     exists basic ai a,
       detectorSuggestions code language = Value basic /\
       optimizerSuggestions code language a = Value ai /\
       suggestions r = ComplexityDetector.deduplicateSuggestions (basic ++ ai) /\
       (forall s, In s (suggestions r) ->
                  find (sameIdentity s) (basic ++ ai) = Some s) /\
       (forall s, In s (basic ++ ai) ->
                  exists s', In s' (suggestions r) /\ identity s' = identity s)).
Proof.
  split; [exact deduplicateSuggestions_first_kept|].
  intros code language r H.
  destruct (analyze_suggestions _ _ _ H) as [basic [ai [a [Hb [Ha Hs]]]]].
  destruct (deduplicateSuggestions_first_kept (basic ++ ai)) as [Hnd [Hfirst Hall]].
  rewrite Hs. split; [exact Hnd|].
  exists basic, ai, a. repeat split; trivial.
Qed.

Lemma C6_suggestions_unique_first_kept_witness :
  ComplexityDetector.deduplicateSuggestions [firstOnLine3; onLine4; secondOnLine3]
  = [onLine4; firstOnLine3] /\
  find (sameIdentity firstOnLine3) [firstOnLine3; onLine4; secondOnLine3]
  = Some firstOnLine3 /\
  ~ In secondOnLine3
      (ComplexityDetector.deduplicateSuggestions
         [firstOnLine3; onLine4; secondOnLine3]) /\
  exists r,
    analyze Scenarios.fibonacciPython "python" = Value r /\
    NoDup (map identity (suggestions r)).
Proof.
  destruct (proj1 C6_suggestions_unique_first_kept
              [firstOnLine3; onLine4; secondOnLine3]) as [_ [Hfirst _]].
  split; [vm_compute; reflexivity|].
  split; [apply Hfirst; vm_compute; right; left; reflexivity|].
  split.
  - intros Hin. apply Hfirst in Hin. vm_compute in Hin. discriminate Hin.
  - assert (E : exists r, analyze Scenarios.fibonacciPython "python" = Value r)
      by (eexists; vm_compute; reflexivity).
    destruct E as [r H]. exists r. split; [exact H|].
    exact (proj1 (proj2 C6_suggestions_unique_first_kept _ _ _ H)).
Defined.

Lemma priorityOrder_rank p : ComplexityDetector.priorityOrder p = priorityRank p.
Proof. destruct p; reflexivity. Qed.

Lemma deduplicateSuggestions_sorted_stably l :
  (forall l1 a b l2,
     ComplexityDetector.deduplicateSuggestions l = l1 ++ a :: b :: l2 ->
     (priorityRank (priority a) >= priorityRank (priority b))%Z) /\
  Permutation (ComplexityDetector.deduplicateSuggestions l)
              (ComplexityDetector.filterSeen [] l) /\
  forall p,
    filter (hasPriority p) (ComplexityDetector.deduplicateSuggestions l) =
    filter (hasPriority p) (ComplexityDetector.filterSeen [] l).
Proof.
  unfold ComplexityDetector.deduplicateSuggestions. split; [|split].
  - intros l1 x y l2 E.
    pose proof (sort_sorted (ComplexityDetector.filterSeen [] l)) as Hsorted.
    rewrite E in Hsorted. apply Sorted_adjacent in Hsorted.
    unfold before in Hsorted. rewrite !priorityOrder_rank in Hsorted.
    apply Z.le_ge. exact Hsorted.
  - apply sort_perm.
  - intros p. apply sort_stable.
Qed.

(** C7: for every suggestion list, what [deduplicateSuggestions] answers is
    in non-increasing order of priority rank (high 3, medium 2, low 1): the
    rank of the first of two neighbours is at least the rank of the second;
    and the suggestions of each priority stand in the order they had before
    the sort, in the deduplicated list.  So it is for the suggestions
    [analyze] returns, which are the Detector's followed by the Optimizer's,
    deduplicated and sorted. *)
Theorem C7_suggestions_sorted_stably :
  (forall l,
     (forall l1 a b l2,
        ComplexityDetector.deduplicateSuggestions l = l1 ++ a :: b :: l2 ->
        (priorityRank (priority a) >= priorityRank (priority b))%Z) /\
     Permutation (ComplexityDetector.deduplicateSuggestions l)
                 (ComplexityDetector.filterSeen [] l) /\
     forall p,
       filter (hasPriority p) (ComplexityDetector.deduplicateSuggestions l) =
       filter (hasPriority p) (ComplexityDetector.filterSeen [] l)) /\
  (forall code language r,
     analyze code language = Value r ->
     (forall l1 a b l2,
        suggestions r = l1 ++ a :: b :: l2 ->
        (priorityRank (priority a) >= priorityRank (priority b))%Z) /\
     exists basic ai a,
       detectorSuggestions code language = Value basic /\
       optimizerSuggestions code language a = Value ai /\
       Permutation (suggestions r) (ComplexityDetector.filterSeen [] (basic ++ ai)) /\
       forall p,
         filter (hasPriority p) (suggestions r) =
         filter (hasPriority p) (ComplexityDetector.filterSeen [] (basic ++ ai))).
Proof.
  split; [exact deduplicateSuggestions_sorted_stably|].
  intros code language r H.
  destruct (analyze_suggestions _ _ _ H) as [basic [ai [a [Hb [Ha Hs]]]]].
  destruct (deduplicateSuggestions_sorted_stably (basic ++ ai))
    as [Hsorted [Hperm Hstable]].
  rewrite Hs. split; [exact Hsorted|].
  exists basic, ai, a. repeat split; trivial.
Qed.

Lemma C7_suggestions_sorted_stably_witness :
  exists r basic,
    analyze mixedPriorities "cpp" = Value r /\
    detectorSuggestions mixedPriorities "cpp" = Value basic /\
    map (fun s => (s_line s, priority s)) basic = [(4, medium)] /\
    map (fun s => (s_line s, priority s)) (suggestions r)
    = [(2, high); (4, medium); (6, medium); (1, low)] /\
    forall l1 a b l2,
      suggestions r = l1 ++ a :: b :: l2 ->
      (priorityRank (priority a) >= priorityRank (priority b))%Z.
Proof.
  assert (E : exists r basic,
             analyze mixedPriorities "cpp" = Value r /\
             detectorSuggestions mixedPriorities "cpp" = Value basic /\
             map (fun s => (s_line s, priority s)) basic = [(4, medium)] /\
             map (fun s => (s_line s, priority s)) (suggestions r)
             = [(2, high); (4, medium); (6, medium); (1, low)]).
  { eexists. eexists. split; [vm_compute; reflexivity|].
    split; [vm_compute; reflexivity|]. split; reflexivity. }
  destruct E as [r [basic [H [Hb [Hbasic Hr]]]]]. exists r, basic.
  split; [exact H|]. split; [exact Hb|]. split; [exact Hbasic|].
  split; [exact Hr|].
  exact (proj1 (proj2 C7_suggestions_sorted_stably _ _ _ H)).
Defined.

(** ** Bounds of the nested patterns *)

Section NestedBounds.

Import ComplexityDetector.

Variable this : t.

Lemma scanNested_range rest currentLine startLine depth maxDepth braceCount last deepest :
  scanNested this rest currentLine startLine depth maxDepth braceCount
    = Value (last, deepest) ->
  currentLine <= last <= currentLine + List.length rest /\ maxDepth <= deepest.
Proof.
  revert currentLine depth maxDepth braceCount.
  induction rest as [|raw rest IH]; intros currentLine depth maxDepth braceCount H.
  - injection H as <- <-. simpl. lia.
  - simpl in H. apply bind_Value in H. destruct H as [l [_ H]].
    destruct (_ && (startLine <? currentLine)).
    + injection H as <- <-. simpl. destruct l; lia.
    + apply IH in H. simpl. destruct l; lia.
Qed.

Lemma analyzeNestedStructure_pattern i p :
  analyzeNestedStructure this i = Value (Some p) -> nestedFrom this i p.
Proof.
  unfold analyzeNestedStructure. intros H.
  apply bind_Value in H. destruct H as [[last deepest] [Hscan H]].
  apply scanNested_range in Hscan. rewrite length_skipn in Hscan.
  destruct (1 <? deepest) eqn:E; [|discriminate].
  injection H as <-. apply Nat.ltb_lt in E.
  unfold nestedFrom; simpl. repeat split; try lia.
  exists deepest. split; [lia | reflexivity].
Qed.

Lemma detectPatterns_from_within fuel i found ps :
  detectPatterns_from this fuel i found = Value ps ->
  Forall (nestedWithin this) found -> Forall (nestedWithin this) ps.
Proof.
  revert i found.
  induction fuel as [|fuel IH]; intros i found H Hfound; simpl in H; [discriminate|].
  destruct (i <? List.length (lines this)) eqn:Hi; [|now injection H as <-].
  apply Nat.ltb_lt in Hi.
  apply bind_Value in H. destruct H as [l [_ H]].
  apply bind_Value in H. destruct H as [nested [Hn H]].
  destruct nested as [p|].
  - apply IH in H; [assumption|].
    apply Forall_app. split; [assumption|]. constructor; [|constructor].
    destruct l; [|discriminate].
    apply analyzeNestedStructure_pattern in Hn.
    destruct Hn as [_ [Hs [He Hd]]]. intros _.
    repeat split; trivial; lia.
  - apply IH in H; [assumption|].
    destruct (isRecursiveCall _); [|assumption].
    apply Forall_app. split; [assumption|]. constructor; [|constructor].
    intros [=].
Qed.

End NestedBounds.

(** What does hold of every nested pattern of [analyze]: it starts on a line
    of the text, does not end before it starts, ends at most one line past
    the last line, and its label is [O(n^d)] with [d >= 2]. *)
Lemma nested_pattern_bounds code language r p :
  analyze code language = Value r ->
  In p (patterns r) ->
  p_type p = PNested ->
  1 <= startLine p <= endLine p /\
  endLine p <= lineCount code + 1 /\
  exists d, 2 <= d /\ p_complexity p = ("O(n^" ++ JS.show_nat d ++ ")")%string.
Proof.
  intros H Hin Hp. apply analyze_Value in H.
  destruct H as [lbl [pats [ai [pre [_ [Hpats [_ ->]]]]]]]. simpl in Hin.
  apply detectPatterns_from_within in Hpats; [|constructor].
  rewrite Forall_forall in Hpats.
  exact (Hpats p Hin Hp).
Qed.

(** ** [analyze] returns *)

Section DetectorReturns.

Import ComplexityDetector.

Variable this : t.
Hypothesis tag_ok : LoopPatterns.get (language this) <> Inherited.

Lemma isLoop_returns line : exists b, isLoop this line = Value b.
Proof.
  unfold isLoop. destruct (LoopPatterns.get (language this)); eauto.
  now elim tag_ok.
Qed.

Lemma getLineComplexity_returns line :
  exists c, getLineComplexity this line = Value c.
Proof.
  unfold getLineComplexity.
  change (1 <? getNestedLoopDepth line) with false. cbv iota.
  destruct (isLoop_returns line) as [b ->]. simpl.
  destruct b; [eauto|].
  destruct (isRecursiveCall line); [eauto|].
  destruct (isCollectionOperation line); [eauto|].
  destruct (isHashOperation line); eauto.
Qed.

Lemma analyzeLines_from_returns index rest :
  exists records, analyzeLines_from this index rest = Value records.
Proof.
  revert index. induction rest as [|line rest IH]; intros index; simpl; [eauto|].
  destruct (getLineComplexity_returns (JS.trim line)) as [c ->]. simpl.
  destruct (IH (S index)) as [records ->]. simpl. eauto.
Qed.

Lemma scanNested_returns rest currentLine startLine depth maxDepth braceCount :
  exists r,
    scanNested this rest currentLine startLine depth maxDepth braceCount = Value r.
Proof.
  revert currentLine depth maxDepth braceCount.
  induction rest as [|raw rest IH]; intros currentLine depth maxDepth braceCount;
    simpl; [eauto|].
  destruct (isLoop_returns (JS.trim raw)) as [b ->]. simpl.
  destruct (_ && (startLine <? currentLine)); eauto.
Qed.

Lemma analyzeNestedStructure_returns i :
  exists o, analyzeNestedStructure this i = Value o.
Proof.
  unfold analyzeNestedStructure.
  destruct (scanNested_returns (skipn i (lines this)) i i 0 1 0%Z)
    as [[last deepest] ->]. simpl.
  destruct (1 <? deepest); eauto.
Qed.

(** The bound on the iterations is enough: every turn moves the index
    forward. *)
Lemma detectPatterns_from_returns fuel i found :
  List.length (lines this) - i < fuel ->
  exists ps, detectPatterns_from this fuel i found = Value ps.
Proof.
  revert i found.
  induction fuel as [|fuel IH]; intros i found Hfuel; [lia|]. simpl.
  destruct (i <? List.length (lines this)) eqn:Hi; [|eauto].
  apply Nat.ltb_lt in Hi.
  destruct (isLoop_returns (JS.trim (nth i (lines this) EmptyString))) as [b ->].
  simpl.
  destruct b.
  - destruct (analyzeNestedStructure_returns i) as [[p|] Hn]; rewrite Hn; simpl.
    + apply analyzeNestedStructure_pattern in Hn.
      destruct Hn as [_ [_ [He _]]]. apply IH. lia.
    + apply IH. lia.
  - apply IH. lia.
Qed.

Lemma detectPatterns_returns : exists ps, detectPatterns this = Value ps.
Proof. apply detectPatterns_from_returns. lia. Qed.

End DetectorReturns.

Section OptimizerReturns.

Import AIOptimizer.

Variable this : t.
Hypothesis tag_ok : LoopPatterns.get (language this) <> Inherited.

Lemma optimizer_isLoop_returns line : exists b, isLoop this line = Value b.
Proof.
  unfold isLoop. destruct (LoopPatterns.get (language this)); eauto.
  now elim tag_ok.
Qed.

Lemma hasNestedLoop_from_returns window i startIndex braceCount :
  exists b, hasNestedLoop_from this window i startIndex braceCount = Value b.
Proof.
  revert i braceCount.
  induction window as [|raw rest IH]; intros i braceCount; simpl; [eauto|].
  destruct (optimizer_isLoop_returns (JS.trim raw)) as [l ->].
  destruct (0 <? _)%Z; simpl.
  - destruct (l && _); [eauto|]. destruct (_ && _); eauto.
  - destruct (_ && _); eauto.
Qed.

Lemma hasNestedLoop_returns lines i : exists b, hasNestedLoop this lines i = Value b.
Proof. apply hasNestedLoop_from_returns. Qed.

Lemma forEachLine_returns {A} (body : nat -> string -> comp (list A)) :
  (forall i raw, exists xs, body i raw = Value xs) ->
  forall lines i, exists ys, forEachLine body i lines = Value ys.
Proof.
  intros Hbody lines.
  induction lines as [|raw rest IH]; intros i; simpl; [eauto|].
  destruct (Hbody i raw) as [xs ->]. simpl.
  destruct (IH (S i)) as [ys ->]. simpl. eauto.
Qed.

Lemma generateAISuggestions_returns :
  exists suggestions, generateAISuggestions this = Value suggestions.
Proof.
  unfold generateAISuggestions.
  set (lines := JS.split_lines (code this)).
  assert (H1 : exists s, analyzeNestedLoops this lines = Value s).
  { apply forEachLine_returns. intros i raw. cbv beta zeta.
    destruct (optimizer_isLoop_returns (JS.trim raw)) as [l ->]. simpl.
    destruct l; simpl; [|eauto].
    destruct (hasNestedLoop_returns lines i) as [b ->]. simpl.
    destruct b; eauto. }
  assert (H2 : exists s, analyzeRecursionPatterns this lines = Value s).
  { apply forEachLine_returns. intros i raw. cbv beta zeta.
    destruct (isRecursiveFunction _); eauto. }
  assert (H3 : exists s, analyzeDataStructureUsage this lines = Value s).
  { apply forEachLine_returns. intros i raw. cbv beta zeta. eauto. }
  assert (H4 : exists s, analyzeSearchPatterns this lines = Value s).
  { apply forEachLine_returns. intros i raw. cbv beta zeta.
    unfold isLinearSearchInSortedArray.
    destruct (optimizer_isLoop_returns (nth i lines EmptyString)) as [l ->].
    destruct (JS.includes (nth i lines EmptyString) "=="); simpl; eauto. }
  assert (H5 : exists s, analyzeSortingPatterns this lines = Value s).
  { apply forEachLine_returns. intros i raw. cbv beta zeta.
    unfold isBubbleSort, isSelectionSort.
    destruct (hasNestedLoop_returns lines i) as [b ->].
    repeat match goal with
           | |- context [orElse ?c _] => destruct c; simpl
           | |- context [andThen ?c _] => destruct c; simpl
           end; eauto. }
  assert (H6 : exists s, analyzeStringOperations this lines = Value s).
  { apply forEachLine_returns. intros i raw. cbv beta zeta.
    unfold hasStringConcatenationInLoop.
    destruct (optimizer_isLoop_returns (nth i lines EmptyString)) as [l ->].
    simpl. eauto. }
  assert (H7 : exists s, analyzeMemoryOptimizations this lines = Value s).
  { apply forEachLine_returns. intros i raw. cbv beta zeta. eauto. }
  destruct H1 as [s1 ->], H2 as [s2 ->], H3 as [s3 ->], H4 as [s4 ->],
           H5 as [s5 ->], H6 as [s6 ->], H7 as [s7 ->].
  simpl. eauto.
Qed.

End OptimizerReturns.

(** [analyze] returns a result for every text and every language tag but the
    names of the members of [Object.prototype]; for those it throws. *)
Lemma analyze_returns code language :
  inherited language = false -> exists r, analyze code language = Value r.
Proof.
  intros Hi.
  assert (Hget : LoopPatterns.get (JS.toLowerCase language) <> Inherited).
  { unfold LoopPatterns.get. unfold inherited in Hi. rewrite Hi.
    repeat match goal with |- context [if ?c then _ else _] => destruct c end;
      discriminate. }
  unfold analyze, ComplexityDetector.analyze.
  destruct (analyzeLines_from_returns (ComplexityDetector.new code language) Hget 0
              (JS.split_lines code)) as [lbl Hl].
  unfold ComplexityDetector.analyzeLines. simpl ComplexityDetector.lines.
  rewrite Hl. simpl.
  destruct (detectPatterns_returns (ComplexityDetector.new code language) Hget)
    as [pats ->]. simpl.
  match goal with
  | |- context [AIOptimizer.generateAISuggestions ?o] =>
      destruct (generateAISuggestions_returns o) as [ai ->]
  end.
  - simpl. rewrite toLowerCase_idempotent. exact Hget.
  - simpl. eauto.
Qed.

Lemma analyze_throws code language :
  inherited language = true -> analyze code language = TypeError.
Proof.
  intros Hi.
  unfold analyze, ComplexityDetector.analyze, ComplexityDetector.analyzeLines.
  simpl ComplexityDetector.lines.
  destruct (JS.split_lines code) as [|line rest] eqn:E.
  - destruct code as [|c code]; simpl in E; [discriminate|].
    destruct (_ =? 10); [discriminate|].
    destruct (JS.split_lines code); discriminate.
  - simpl. unfold ComplexityDetector.getLineComplexity.
    change (1 <? ComplexityDetector.getNestedLoopDepth (JS.trim line)) with false.
    cbv iota. rewrite isLoop_inherited_tag by assumption. reflexivity.
Qed.

(** * Further properties of the code *)

(** ** Line records mirror the text *)

Lemma split_lines_nonempty s : JS.split_lines s <> [].
Proof.
  destruct s as [|c s]; simpl; [discriminate|].
  destruct (JS.code c =? 10); [discriminate|].
  destruct (JS.split_lines s); discriminate.
Qed.

Lemma code_10 c : (JS.code c =? 10) = true -> c = ascii_of_nat 10.
Proof.
  intros H. apply Nat.eqb_eq in H. unfold JS.code in H.
  rewrite <- (ascii_nat_embedding c), H. reflexivity.
Qed.

Lemma join_cons sep x y rest :
  JS.join sep (x :: y :: rest) = (x ++ sep ++ JS.join sep (y :: rest))%string.
Proof. reflexivity. Qed.

(** Splitting at the line breaks and joining with line breaks gives the text
    back. *)
Lemma join_split_lines s : JS.join JS.nl (JS.split_lines s) = s.
Proof.
  induction s as [|c s IH]; [reflexivity|].
  simpl JS.split_lines.
  destruct (JS.code c =? 10) eqn:E.
  - apply code_10 in E. subst c.
    destruct (JS.split_lines s) as [|l ls] eqn:Es.
    + now elim (split_lines_nonempty s).
    + rewrite join_cons, IH. reflexivity.
  - destruct (JS.split_lines s) as [|l ls] eqn:Es.
    + now elim (split_lines_nonempty s).
    + destruct ls as [|l' ls].
      * simpl in *. now rewrite IH.
      * rewrite join_cons. rewrite join_cons in IH. rewrite <- IH. reflexivity.
Qed.

Lemma analyzeLines_from_shape this index rest records :
  ComplexityDetector.analyzeLines_from this index rest = Value records ->
  map lc_code records = rest /\
  map lc_line records = seq (index + 1) (List.length rest).
Proof.
  revert index records.
  induction rest as [|line rest IH]; intros index records H.
  - injection H as <-. auto.
  - simpl in H.
    apply bind_Value in H. destruct H as [c [_ H]].
    apply bind_Value in H. destruct H as [tail [Htail H]].
    injection H as <-.
    destruct (IH _ _ Htail) as [E1 E2]. simpl.
    rewrite E1, E2. split; [reflexivity|].
    replace (S index + 1) with (S (index + 1)) by lia. reflexivity.
Qed.

Lemma line_records_shape code language r :
  analyze code language = Value r ->
  map lc_code (lineByLine r) = JS.split_lines code /\
  map lc_line (lineByLine r) = seq 1 (lineCount code) /\
  JS.join JS.nl (map lc_code (lineByLine r)) = code.
Proof.
  intros H. apply analyze_Value in H.
  destruct H as [lbl [pats [ai [pre [Hl [_ [_ ->]]]]]]]. simpl.
  apply analyzeLines_from_shape in Hl. destruct Hl as [E1 E2].
  simpl in E1, E2. rewrite E1. repeat split.
  - exact E2.
  - apply join_split_lines.
Qed.

(** X1: the line records of [analyze] are the lines of the text, in order and
    unchanged, numbered from 1; joined by line breaks they give the text
    back. *)
Theorem line_records_mirror_text code language r :
  analyze code language = Value r ->
  map lc_code (lineByLine r) = JS.split_lines code /\
  map lc_line (lineByLine r) = seq 1 (lineCount code) /\
  JS.join JS.nl (map lc_code (lineByLine r)) = code.
Proof. exact (line_records_shape code language r). Qed.

Lemma line_records_mirror_text_witness :
  exists r,
    analyze Scenarios.singleLoop "cpp" = Value r /\
    map lc_code (lineByLine r) = JS.split_lines Scenarios.singleLoop /\
    map lc_line (lineByLine r) = seq 1 (lineCount Scenarios.singleLoop) /\
    JS.join JS.nl (map lc_code (lineByLine r)) = Scenarios.singleLoop.
Proof.
  assert (E : exists r, analyze Scenarios.singleLoop "cpp" = Value r)
    by (eexists; vm_compute; reflexivity).
  destruct E as [r H]. exists r. split; [exact H|].
  exact (line_records_mirror_text _ _ _ H).
Defined.

(** ** The outcome of [analyze] by language tag *)

(** X2: [analyze] throws a [TypeError] exactly for the language tags that, in
    lower case, name a member of [Object.prototype] ([constructor],
    [__proto__]); for every other tag and every text it returns a result. *)
Theorem analyze_outcome_by_tag code language :
  if inherited language
  then analyze code language = TypeError
  else exists r, analyze code language = Value r.
Proof.
  destruct (inherited language) eqn:E.
  - now apply analyze_throws.
  - now apply analyze_returns.
Qed.

(** ** The score never rises *)

(** X3: one more pattern at the end of the list never raises the score. *)
Theorem score_never_rises ps p :
  (score (ComplexityDetector.calculateOverallComplexity (ps ++ [p]))
   <= score (ComplexityDetector.calculateOverallComplexity ps))%Z.
Proof.
  unfold ComplexityDetector.calculateOverallComplexity.
  rewrite fold_left_app. simpl.
  destruct (fold_left ComplexityDetector.scorePattern ps ("O(1)", 100%Z))
    as [cur sc].
  pose proof (scorePattern_score cur sc p) as H.
  destruct (ComplexityDetector.scorePattern (cur, sc) p) as [cur' sc'].
  simpl in *. lia.
Qed.

(** ** The language tag matters through the loop pattern only *)

Section DetectorTags.

Import ComplexityDetector.

Variables this that : t.
Hypothesis same_pattern :
  LoopPatterns.get (language this) = LoopPatterns.get (language that).
Hypothesis same_lines : lines this = lines that.

Lemma detector_isLoop_same line : isLoop this line = isLoop that line.
Proof. unfold isLoop. now rewrite same_pattern. Qed.

Lemma getLineComplexity_same line :
  getLineComplexity this line = getLineComplexity that line.
Proof. unfold getLineComplexity. now rewrite detector_isLoop_same. Qed.

Lemma analyzeLines_same : analyzeLines this = analyzeLines that.
Proof.
  unfold analyzeLines. rewrite same_lines.
  generalize (lines that) as rest. intros rest. generalize 0.
  induction rest as [|line rest IH]; intros index;
    cbn [analyzeLines_from]; [reflexivity|].
  now rewrite getLineComplexity_same, IH.
Qed.

Lemma scanNested_same rest currentLine startLine depth maxDepth braceCount :
  scanNested this rest currentLine startLine depth maxDepth braceCount =
  scanNested that rest currentLine startLine depth maxDepth braceCount.
Proof.
  revert currentLine depth maxDepth braceCount.
  induction rest as [|raw rest IH]; intros; simpl; [reflexivity|].
  rewrite detector_isLoop_same.
  destruct (isLoop that (JS.trim raw)) as [l| |]; simpl; try reflexivity.
  destruct (_ && (startLine <? currentLine)); [reflexivity | apply IH].
Qed.

Lemma analyzeNestedStructure_same i :
  analyzeNestedStructure this i = analyzeNestedStructure that i.
Proof.
  unfold analyzeNestedStructure. now rewrite same_lines, scanNested_same.
Qed.

Lemma detectPatterns_from_same fuel i found :
  detectPatterns_from this fuel i found = detectPatterns_from that fuel i found.
Proof.
  revert i found.
  induction fuel as [|fuel IH]; intros i found; simpl; [reflexivity|].
  rewrite same_lines, detector_isLoop_same.
  destruct (i <? List.length (lines that)); [|reflexivity].
  destruct (isLoop that _) as [l| |]; simpl; try reflexivity.
  rewrite analyzeNestedStructure_same.
  destruct (if l then analyzeNestedStructure that i else Value None)
    as [[p|]| |]; simpl; try reflexivity; apply IH.
Qed.

Lemma detectPatterns_same : detectPatterns this = detectPatterns that.
Proof.
  unfold detectPatterns. rewrite same_lines. apply detectPatterns_from_same.
Qed.

End DetectorTags.

Section OptimizerTags.

Import AIOptimizer.

Variables this that : t.
Hypothesis same_pattern :
  LoopPatterns.get (language this) = LoopPatterns.get (language that).
Hypothesis same_code : code this = code that.

Lemma optimizer_isLoop_same line : isLoop this line = isLoop that line.
Proof. unfold isLoop. now rewrite same_pattern. Qed.

Lemma optimizer_hasNestedLoop_from_same window i startIndex braceCount :
  hasNestedLoop_from this window i startIndex braceCount =
  hasNestedLoop_from that window i startIndex braceCount.
Proof.
  revert i braceCount.
  induction window as [|raw rest IH]; intros i braceCount; simpl; [reflexivity|].
  rewrite optimizer_isLoop_same.
  destruct (andThen _ _) as [[|]| |]; simpl; try reflexivity.
  destruct (_ && _); [reflexivity | apply IH].
Qed.

Lemma optimizer_hasNestedLoop_same lines startIndex :
  hasNestedLoop this lines startIndex = hasNestedLoop that lines startIndex.
Proof. apply optimizer_hasNestedLoop_from_same. Qed.

Lemma generateAISuggestions_same_pattern :
  generateAISuggestions this = generateAISuggestions that.
Proof.
  unfold generateAISuggestions. rewrite same_code.
  set (lines := JS.split_lines (code that)).
  assert (E1 : analyzeNestedLoops this lines = analyzeNestedLoops that lines).
  { apply forEachLine_ext. intros i raw. cbv beta zeta.
    now rewrite optimizer_isLoop_same, optimizer_hasNestedLoop_same. }
  assert (E4 : analyzeSearchPatterns this lines = analyzeSearchPatterns that lines).
  { apply forEachLine_ext. intros i raw. cbv beta zeta.
    unfold isLinearSearchInSortedArray. now rewrite optimizer_isLoop_same. }
  assert (E5 : analyzeSortingPatterns this lines = analyzeSortingPatterns that lines).
  { apply forEachLine_ext. intros i raw. cbv beta zeta.
    unfold isBubbleSort, isSelectionSort.
    now rewrite optimizer_hasNestedLoop_same. }
  assert (E6 : analyzeStringOperations this lines = analyzeStringOperations that lines).
  { apply forEachLine_ext. intros i raw. cbv beta zeta.
    unfold hasStringConcatenationInLoop. now rewrite optimizer_isLoop_same. }
  rewrite E1, E4, E5, E6. reflexivity.
Qed.

End OptimizerTags.

(** Two tags that select the same entry of [loopPatterns] give the same
    outcome on every text. *)
Lemma analyze_same_pattern code l1 l2 :
  LoopPatterns.get (JS.toLowerCase l1) = LoopPatterns.get (JS.toLowerCase l2) ->
  analyze code l1 = analyze code l2.
Proof.
  intros Hget. unfold analyze, ComplexityDetector.analyze.
  rewrite (analyzeLines_same (ComplexityDetector.new code l1)
             (ComplexityDetector.new code l2) Hget eq_refl).
  rewrite (detectPatterns_same (ComplexityDetector.new code l1)
             (ComplexityDetector.new code l2) Hget eq_refl).
  destruct (ComplexityDetector.analyzeLines _) as [lbl| |]; simpl; try reflexivity.
  destruct (ComplexityDetector.detectPatterns _) as [pats| |]; simpl; try reflexivity.
  match goal with
  | |- bind (AIOptimizer.generateAISuggestions ?a) _ =
       bind (AIOptimizer.generateAISuggestions ?b) _ =>
      rewrite (generateAISuggestions_same_pattern a b)
  end; [reflexivity | | reflexivity].
  simpl. now rewrite !toLowerCase_idempotent.
Qed.

(** X4: the tags [java] and [cpp] give the same outcome on every text, and a
    tag gives the same outcome as its lower-case form. *)
Theorem java_is_cpp_and_case_is_ignored :
  (forall code, analyze code "java" = analyze code "cpp") /\
  (forall code language,
     analyze code (JS.toLowerCase language) = analyze code language).
Proof.
  split.
  - intros code. now apply analyze_same_pattern.
  - intros code language. apply analyze_same_pattern.
    now rewrite toLowerCase_idempotent.
Qed.

(** X5: all the tags that are neither recognized nor the name of a member of
    [Object.prototype] give the same outcome on every text. *)
Theorem unrecognized_tags_agree code l1 l2 :
  recognized l1 = false -> inherited l1 = false ->
  recognized l2 = false -> inherited l2 = false ->
  analyze code l1 = analyze code l2.
Proof.
  intros R1 I1 R2 I2. apply analyze_same_pattern.
  now rewrite (get_unrecognized _ R1 I1), (get_unrecognized _ R2 I2).
Qed.

Lemma unrecognized_tags_agree_witness :
  recognized "javascript" = false /\ inherited "javascript" = false /\
  recognized "rust" = false /\ inherited "rust" = false /\
  analyze Scenarios.loopHeader "javascript" = analyze Scenarios.loopHeader "rust".
Proof.
  repeat (split; [reflexivity|]).
  apply (unrecognized_tags_agree Scenarios.loopHeader "javascript" "rust");
    reflexivity.
Defined.

(** ** Rendering a depth and reading it back *)

Lemma star_digits ds : forall prev rest caps k c,
  allDigits ds -> noDigitAhead rest ->
  k (lastChar prev ds) rest caps = Some c ->
  RegExp.rmatch (RegExp.Star RegExp.digit) prev (ds ++ rest)%string caps k = Some c.
Proof.
  induction ds as [|d ds IH]; intros prev rest caps k c Hd Hr Hk.
  - simpl in *. destruct rest as [|x rest]; simpl.
    + exact Hk.
    + simpl in Hr. rewrite Hr. exact Hk.
  - destruct Hd as [Hd Hds].
    change (RegExp.rmatch (RegExp.Star RegExp.digit) prev (String d ds ++ rest)%string caps k)
      with (match (if JS.is_digit d
                   then (if String.length (ds ++ rest)%string <? String.length (String d (ds ++ rest)%string)
                         then RegExp.rmatch (RegExp.Star RegExp.digit) (Some d) (ds ++ rest)%string caps k
                         else None)
                   else None) with
            | Some c => Some c
            | None => k prev (String d ds ++ rest)%string caps
            end).
    rewrite Hd.
    replace (String.length (ds ++ rest)%string <? String.length (String d (ds ++ rest)%string)) with true
      by (symmetry; apply Nat.ltb_lt; simpl; lia).
    rewrite (IH (Some d) rest caps k c Hds Hr Hk). reflexivity.
Qed.

Lemma take_app ds rest : RegExp.take (String.length ds) (ds ++ rest)%string = ds.
Proof.
  unfold RegExp.take. induction ds as [|c ds IH]; simpl.
  - destruct rest; reflexivity.
  - now rewrite IH.
Qed.

Lemma length_append a b : String.length (a ++ b)%string = String.length a + String.length b.
Proof. induction a; simpl; auto. Qed.

Lemma allDigits_string_of_uint u : allDigits (NilEmpty.string_of_uint u).
Proof. induction u; simpl; auto. Qed.

Lemma to_uint_normal d : Decimal.unorm (Nat.to_uint d) = Nat.to_uint d.
Proof.
  rewrite <- DecimalNat.Unsigned.to_of, DecimalNat.Unsigned.of_to. reflexivity.
Qed.

Lemma show_nat_nonempty d : exists c s, JS.show_nat d = String c s.
Proof.
  unfold JS.show_nat. rewrite <- to_uint_normal. unfold Decimal.unorm.
  destruct (Decimal.nzhead (Nat.to_uint d)); simpl; eauto.
Qed.

Lemma lu_N_nat l :
  DecimalPos.Unsigned.of_lu l = N.of_nat (DecimalNat.Unsigned.of_lu l).
Proof.
  induction l; cbn [DecimalPos.Unsigned.of_lu DecimalNat.Unsigned.of_lu];
    try rewrite IHl; lia.
Qed.

Lemma of_uint_N_nat u : N.of_uint u = N.of_nat (Nat.of_uint u).
Proof.
  unfold N.of_uint.
  rewrite DecimalPos.Unsigned.of_uint_alt, DecimalNat.Unsigned.of_uint_alt.
  apply lu_N_nat.
Qed.

Lemma N_to_uint_of_nat d : N.to_uint (N.of_nat d) = Nat.to_uint d.
Proof.
  rewrite <- (DecimalNat.Unsigned.of_to d) at 1.
  rewrite <- of_uint_N_nat, DecimalN.Unsigned.to_of.
  apply to_uint_normal.
Qed.

Lemma show_N_of_nat d : JS.show_N (N.of_nat d) = JS.show_nat d.
Proof. unfold JS.show_N, JS.show_nat. now rewrite N_to_uint_of_nat. Qed.

Lemma parse_digits_of_uint u acc :
  N.to_nat (JS.parse_digits acc (NilEmpty.string_of_uint u)) =
  Nat.of_uint_acc u (N.to_nat acc).
Proof.
  revert acc.
  induction u; intros acc; simpl; [reflexivity| ..];
    rewrite IHu, Nat.tail_mul_spec; f_equal; lia.
Qed.

Lemma parseInt_show_nat d : JS.parseInt (JS.show_nat d) = N.of_nat d.
Proof.
  unfold JS.parseInt, JS.show_nat.
  rewrite <- (DecimalNat.Unsigned.of_to d) at 2.
  rewrite <- (N2Nat.id (JS.parse_digits 0 _)). f_equal.
  apply parse_digits_of_uint.
Qed.

Lemma exec_exponentPattern d :
  RegExp.exec ComplexityDetector.exponentPattern ("O(n^" ++ JS.show_nat d ++ ")")%string
  = Some [(1, JS.show_nat d)].
Proof.
  destruct (show_nat_nonempty d) as [c [s E]].
  pose proof (allDigits_string_of_uint (Nat.to_uint d)) as Hd.
  fold (JS.show_nat d) in Hd. rewrite E in *. destruct Hd as [Hc Hs].
  unfold RegExp.exec, ComplexityDetector.exponentPattern, RegExp.Seq, RegExp.Plus.
  cbn [fold_right].
  change ("O(n^" ++ String c s ++ ")")%string
    with (String "O" (String "(" (String "n" (String "^" (String c (s ++ ")")))))).
  remember (RegExp.Star RegExp.digit) as star eqn:Estar.
  cbn [RegExp.search RegExp.rmatch RegExp.Chr RegExp.digit].
  change (Ascii.eqb "n" "O") with false. change (Ascii.eqb "n" "(") with false.
  change (Ascii.eqb "n" "n") with true. change (Ascii.eqb "^" "^") with true.
  cbv iota. rewrite Hc. subst star.
  erewrite star_digits; [reflexivity | exact Hs | reflexivity |].
  unfold RegExp.accept. do 3 f_equal.
  replace (String.length (String c (s ++ ")")) - String.length ")")
    with (String.length (String c s))
    by (simpl; rewrite length_append; simpl; lia).
  apply (take_app (String c s) ")").
Qed.

Lemma exponentOf_rendered d :
  ComplexityDetector.exponentOf ("O(n^" ++ JS.show_nat d ++ ")") = N.of_nat d.
Proof.
  unfold ComplexityDetector.exponentOf. rewrite exec_exponentPattern.
  simpl RegExp.group.
  destruct (show_nat_nonempty d) as [c [s E]].
  rewrite E. simpl RegExp.orDefault. rewrite <- E. apply parseInt_show_nat.
Qed.

(** ** How the patterns are built *)

Section PatternsBuilt.

Import ComplexityDetector.

Variable this : t.

Lemma analyzeNestedStructure_built i p :
  i < List.length (lines this) ->
  analyzeNestedStructure this i = Value (Some p) ->
  exists d last,
    2 <= d /\ i <= last <= List.length (lines this) /\ p = nestedPattern i last d.
Proof.
  unfold analyzeNestedStructure. intros Hi H.
  apply bind_Value in H. destruct H as [[last deepest] [Hscan H]].
  apply scanNested_range in Hscan. rewrite length_skipn in Hscan.
  destruct (1 <? deepest) eqn:E; [|discriminate].
  apply Nat.ltb_lt in E. injection H as <-.
  exists deepest, last. repeat split; lia.
Qed.

Lemma StronglySorted_snoc {A} (R : A -> A -> Prop) l x :
  StronglySorted R l -> Forall (fun y => R y x) l -> StronglySorted R (l ++ [x]).
Proof.
  induction 1 as [|y l Hl IH Hy]; intros Hx; simpl.
  - repeat constructor.
  - inversion Hx; subst. constructor; [now apply IH|].
    apply Forall_app. split; [assumption | now repeat constructor].
Qed.

(** What the loop of [detectPatterns] keeps true of the patterns found so
    far, at index [i]. *)
Lemma detectPatterns_from_built fuel i found ps :
  detectPatterns_from this fuel i found = Value ps ->
  Forall (builtAt this) found ->
  StronglySorted endsBefore found ->
  Forall (fun p => endLine p <= i) found ->
  Forall (builtAt this) ps /\ StronglySorted endsBefore ps.
Proof.
  revert i found.
  induction fuel as [|fuel IH]; intros i found H Hb Hs He; simpl in H;
    [discriminate|].
  destruct (i <? List.length (lines this)) eqn:Hi;
    [|injection H as <-; now split].
  apply Nat.ltb_lt in Hi.
  apply bind_Value in H. destruct H as [l [Hl H]].
  apply bind_Value in H. destruct H as [nested [Hn H]].
  destruct nested as [p|].
  - destruct l; [|discriminate].
    destruct (analyzeNestedStructure_built i p Hi Hn) as [d [last [Hd [Hlast ->]]]].
    apply IH in H; trivial.
    + apply Forall_app. split; [assumption|]. constructor; [|constructor].
      exists i. split; [assumption|]. right. split; [assumption|].
      exists d, last. auto.
    + apply StronglySorted_snoc; [assumption|].
      eapply Forall_impl; [|exact He]. unfold endsBefore. simpl. intros; lia.
    + apply Forall_app. split.
      * eapply Forall_impl; [|exact He]. simpl. intros; lia.
      * repeat constructor.
  - destruct (isRecursiveCall _) eqn:Hr.
    + apply IH in H; trivial.
      * apply Forall_app. split; [assumption|]. constructor; [|constructor].
        exists i. split; [assumption|]. left. now split.
      * apply StronglySorted_snoc; [assumption|].
        eapply Forall_impl; [|exact He]. unfold endsBefore. simpl. intros; lia.
      * apply Forall_app. split.
        -- eapply Forall_impl; [|exact He]. simpl. intros; lia.
        -- repeat constructor.
    + apply IH in H; trivial.
      eapply Forall_impl; [|exact He]. simpl. intros; lia.
Qed.

Lemma detectPatterns_built ps :
  detectPatterns this = Value ps ->
  Forall (builtAt this) ps /\ StronglySorted endsBefore ps.
Proof.
  intros H. eapply detectPatterns_from_built; [exact H | constructor ..].
Qed.

End PatternsBuilt.

Lemma analyze_patterns_built code language r :
  analyze code language = Value r ->
  Forall (builtAt (ComplexityDetector.new code language)) (patterns r) /\
  StronglySorted endsBefore (patterns r).
Proof.
  intros H. apply analyze_Value in H.
  destruct H as [lbl [pats [ai [pre [_ [Hp [_ ->]]]]]]]. simpl.
  now apply detectPatterns_built.
Qed.

(** X6: the patterns of [analyze] lie one after the other without overlap:
    each pattern ends on a line before the line any later pattern starts on,
    and no pattern ends before it starts. *)
Theorem patterns_do_not_overlap code language r :
  analyze code language = Value r ->
  StronglySorted endsBefore (patterns r) /\
  Forall (fun p => startLine p <= endLine p) (patterns r).
Proof.
  intros H. destruct (analyze_patterns_built _ _ _ H) as [Hb Hs].
  split; [assumption|].
  eapply Forall_impl; [|exact Hb].
  intros p [i [_ [[_ ->]|[_ [d [last [_ [Hl ->]]]]]]]]; simpl; lia.
Qed.

Lemma patterns_do_not_overlap_witness :
  exists r,
    analyze Scenarios.fibonacciPython "python" = Value r /\
    StronglySorted endsBefore (patterns r).
Proof.
  assert (E : exists r, analyze Scenarios.fibonacciPython "python" = Value r)
    by (eexists; vm_compute; reflexivity).
  destruct E as [r H]. exists r. split; [exact H|].
  exact (proj1 (patterns_do_not_overlap _ _ _ H)).
Defined.

(** X7: every pattern of [analyze] is built at a line of the text: it is
    either the one-line recursion pattern (['O(2^n)'], impact high) of a line
    whose trimmed text matches the recursive-call heuristic, or a nested
    pattern that starts on a loop header, has depth [d >= 2], label
    [O(n^d)], and impact high exactly when [d > 2]; no pattern of kind
    [loop] or [algorithm] is ever produced. *)
Theorem every_pattern_is_built_at_a_line code language r p :
  analyze code language = Value r ->
  In p (patterns r) ->
  builtAt (ComplexityDetector.new code language) p /\
  (p_type p = PRecursion \/ p_type p = PNested).
Proof.
  intros H Hin. destruct (analyze_patterns_built _ _ _ H) as [Hb _].
  rewrite Forall_forall in Hb. specialize (Hb p Hin). split; [assumption|].
  destruct Hb as [i [_ [[_ ->]|[_ [d [last [_ [_ ->]]]]]]]]; auto.
Qed.

Lemma every_pattern_is_built_at_a_line_witness :
  exists r p,
    analyze Scenarios.nestedClosedTogether "cpp" = Value r /\
    In p (patterns r) /\
    builtAt (ComplexityDetector.new Scenarios.nestedClosedTogether "cpp") p.
Proof.
  assert (E : exists r,
             analyze Scenarios.nestedClosedTogether "cpp" = Value r /\
             exists p, In p (patterns r)).
  { eexists. split; [vm_compute; reflexivity|]. eexists. left. reflexivity. }
  destruct E as [r [H [p Hin]]]. exists r, p.
  split; [exact H|]. split; [exact Hin|].
  exact (proj1 (every_pattern_is_built_at_a_line _ _ _ _ H Hin)).
Defined.

(** ** Scoring the patterns [detectPatterns] builds *)

Lemma parse_digits_app ds rest acc :
  allDigits ds -> noDigitAhead rest ->
  JS.parse_digits acc (ds ++ rest) = JS.parse_digits acc ds.
Proof.
  revert acc.
  induction ds as [|c ds IH]; intros acc Hd Hr; cbn [append JS.parse_digits].
  - destruct rest as [|x rest]; [reflexivity|].
    cbn [JS.parse_digits]. simpl in Hr. now rewrite Hr.
  - destruct Hd as [Hc Hd]. rewrite Hc. now apply IH.
Qed.

Lemma penalty_recursionPattern i :
  penalty (ComplexityDetector.recursionPattern i) = 40%Z.
Proof. reflexivity. Qed.

Lemma penalty_nestedPattern i last d :
  penalty (nestedPattern i last d) = (20 * Z.of_nat d)%Z.
Proof.
  unfold penalty, nestedPattern. cbn [p_type p_complexity].
  change (depthOfLabel ("O(n^" ++ JS.show_nat d ++ ")"))
    with (JS.parse_digits 0 (JS.show_nat d ++ ")")).
  rewrite parse_digits_app;
    [|apply allDigits_string_of_uint | reflexivity].
  fold (JS.parseInt (JS.show_nat d)). rewrite parseInt_show_nat. lia.
Qed.

Lemma scorePattern_recursionPattern cur sc i :
  ComplexityDetector.scorePattern (cur, sc) (ComplexityDetector.recursionPattern i)
  = ("O(2^n)", (sc - 40)%Z).
Proof. reflexivity. Qed.

Lemma scorePattern_nestedPattern cur sc i last d :
  ComplexityDetector.scorePattern (cur, sc) (nestedPattern i last d)
  = (p_complexity (nestedPattern i last d), (sc - 20 * Z.of_nat d)%Z).
Proof.
  unfold ComplexityDetector.scorePattern, nestedPattern.
  cbn [p_complexity].
  change (JS.includes ("O(n^" ++ JS.show_nat d ++ ")") "n^") with true.
  cbv iota. rewrite exponentOf_rendered, show_N_of_nat.
  f_equal. lia.
Qed.

Lemma scorePattern_built this cur sc p :
  builtAt this p ->
  ComplexityDetector.scorePattern (cur, sc) p = (p_complexity p, (sc - penalty p)%Z)
  /\ (40 <= penalty p)%Z.
Proof.
  intros [i [_ [[_ ->]|[_ [d [last [Hd [_ ->]]]]]]]].
  - rewrite scorePattern_recursionPattern, penalty_recursionPattern.
    split; [reflexivity | lia].
  - rewrite scorePattern_nestedPattern, penalty_nestedPattern.
    split; [reflexivity | lia].
Qed.

Lemma last_cons_default {A} (x d : A) l : last (x :: l) d = last l x.
Proof.
  revert x d. induction l as [|y l IH]; intros x d; [reflexivity|].
  change (last (x :: y :: l) d) with (last (y :: l) d).
  now rewrite !IH.
Qed.

Lemma fold_scorePattern_built this ps cur sc :
  Forall (builtAt this) ps ->
  fold_left ComplexityDetector.scorePattern ps (cur, sc)
  = (last (map p_complexity ps) cur, (sc - totalPenalty ps)%Z).
Proof.
  revert cur sc. induction ps as [|p ps IH]; intros cur sc Hb.
  - simpl. f_equal. unfold totalPenalty. simpl. lia.
  - inversion Hb as [|? ? Hp Hps]; subst. cbn [fold_left].
    destruct (scorePattern_built this cur sc p Hp) as [-> _].
    rewrite (IH _ _ Hps). unfold totalPenalty. cbn [map fold_right].
    f_equal; [|lia].
    symmetry. apply last_cons_default.
Qed.

Lemma totalPenalty_built this ps :
  Forall (builtAt this) ps ->
  (40 * Z.of_nat (List.length ps) <= totalPenalty ps)%Z.
Proof.
  induction 1 as [|p ps Hp _ IH]; unfold totalPenalty in *;
    cbn [map fold_right List.length]; [lia|].
  pose proof (proj2 (scorePattern_built this EmptyString 0%Z p Hp)). lia.
Qed.

(** The overall complexity of a successful [analyze], read off its
    patterns. *)
Lemma analyze_overall code language r :
  analyze code language = Value r ->
  time (overall r) = last (map p_complexity (patterns r)) "O(1)" /\
  score (overall r) = Z.max 0 (100 - totalPenalty (patterns r)) /\
  (40 * Z.of_nat (List.length (patterns r)) <= totalPenalty (patterns r))%Z /\
  space (overall r) = "O(1)".
Proof.
  intros H. destruct (analyze_patterns_built _ _ _ H) as [Hb _].
  apply analyze_Value in H.
  destruct H as [lbl [pats [ai [pre [_ [_ [_ ->]]]]]]]. simpl in *.
  unfold ComplexityDetector.calculateOverallComplexity.
  rewrite (fold_scorePattern_built _ _ _ _ Hb). simpl.
  repeat split. eapply totalPenalty_built; eassumption.
Qed.

(** X8: the overall time of [analyze] is the complexity label of the last
    pattern it detected, and ['O(1)'] when it detected none. *)
Theorem overall_time_is_last_pattern_label code language r :
  analyze code language = Value r ->
  time (overall r) = last (map p_complexity (patterns r)) "O(1)".
Proof. intros H. exact (proj1 (analyze_overall _ _ _ H)). Qed.

Lemma overall_time_is_last_pattern_label_witness :
  exists r,
    analyze Scenarios.nestedClosedTogether "cpp" = Value r /\
    time (overall r) = last (map p_complexity (patterns r)) "O(1)".
Proof.
  assert (E : exists r, analyze Scenarios.nestedClosedTogether "cpp" = Value r)
    by (eexists; vm_compute; reflexivity).
  destruct E as [r H]. exists r. split; [exact H|].
  exact (overall_time_is_last_pattern_label _ _ _ H).
Defined.

(** X9: the score of [analyze] is 100 minus 40 for every recursion pattern
    and minus 20 times the depth for every nested pattern, and 0 when that is
    negative. *)
Theorem score_is_100_minus_penalties code language r :
  analyze code language = Value r ->
  score (overall r) = Z.max 0 (100 - totalPenalty (patterns r)) /\
  (forall i, penalty (ComplexityDetector.recursionPattern i) = 40%Z) /\
  (forall i last d, penalty (nestedPattern i last d) = (20 * Z.of_nat d)%Z).
Proof.
  intros H. split; [exact (proj1 (proj2 (analyze_overall _ _ _ H)))|].
  split; [exact penalty_recursionPattern | exact penalty_nestedPattern].
Qed.

Lemma score_is_100_minus_penalties_witness :
  exists r,
    analyze Scenarios.fibonacciPython "python" = Value r /\
    score (overall r) = Z.max 0 (100 - totalPenalty (patterns r)).
Proof.
  assert (E : exists r, analyze Scenarios.fibonacciPython "python" = Value r)
    by (eexists; vm_compute; reflexivity).
  destruct E as [r H]. exists r. split; [exact H|].
  exact (proj1 (score_is_100_minus_penalties _ _ _ H)).
Defined.

(** X10: the score of [analyze] is 100 when no pattern is detected and at most
    60 otherwise, so the score card is green exactly when no pattern is
    detected. *)
Theorem score_is_100_or_at_most_60 code language r :
  analyze code language = Value r ->
  (patterns r = [] -> score (overall r) = 100%Z) /\
  (patterns r <> [] -> (score (overall r) <= 60)%Z) /\
  (ComplexityVisualization.getScoreColor (score (overall r))
     = "text-green-600 bg-green-50" <-> patterns r = []).
Proof.
  intros H. destruct (analyze_overall _ _ _ H) as [_ [Hs [Hp _]]].
  rewrite Hs. clear Hs.
  assert (Hnil : patterns r = [] ->
                 Z.max 0 (100 - totalPenalty (patterns r)) = 100%Z)
    by (intros ->; reflexivity).
  assert (Hcons : patterns r <> [] ->
                  (Z.max 0 (100 - totalPenalty (patterns r)) <= 60)%Z).
  { intros Hne. destruct (patterns r) as [|p ps]; [now elim Hne|].
    simpl List.length in Hp. lia. }
  split; [assumption|]. split; [assumption|].
  destruct (patterns r) as [|p ps] eqn:E.
  - rewrite Hnil by reflexivity. split; reflexivity.
  - assert (Hle : (Z.max 0 (100 - totalPenalty (p :: ps)) <= 60)%Z)
      by (apply Hcons; discriminate).
    unfold ComplexityVisualization.getScoreColor.
    destruct (80 <=? _)%Z eqn:E80; [apply Z.leb_le in E80; lia|].
    split; [|discriminate].
    repeat match goal with |- context [if ?c then _ else _] => destruct c end;
      discriminate.
Qed.

Lemma score_is_100_or_at_most_60_witness :
  exists r,
    analyze Scenarios.fibonacciPython "python" = Value r /\
    (patterns r <> [] -> (score (overall r) <= 60)%Z).
Proof.
  assert (E : exists r, analyze Scenarios.fibonacciPython "python" = Value r)
    by (eexists; vm_compute; reflexivity).
  destruct E as [r H]. exists r. split; [exact H|].
  exact (proj1 (proj2 (score_is_100_or_at_most_60 _ _ _ H))).
Defined.

(** ** The overall time label *)

Lemma last_label_built this ps :
  Forall (builtAt this) ps ->
  let label := last (map p_complexity ps) "O(1)" in
  label = "O(1)" \/ label = "O(2^n)" \/
  exists d, 2 <= d /\ label = ("O(n^" ++ JS.show_nat d ++ ")")%string.
Proof.
  intros Hb. cbv zeta.
  destruct ps as [|p0 ps0] using rev_ind; [now left|]. clear IHps0.
  rewrite map_app. simpl map. rewrite last_last.
  apply Forall_app in Hb. destruct Hb as [_ Hb]. inversion Hb as [|? ? Hp _]; subst.
  destruct Hp as [i [_ [[_ ->]|[_ [d [l [Hd [_ ->]]]]]]]].
  - right. now left.
  - right. right. exists d. now split.
Qed.

(** X11: the overall time of [analyze] is ['O(1)'], ['O(2^n)'] or [O(n^d)]
    with [d >= 2]: it is never ['O(n)'] nor ['O(n log n)'], whatever the
    text.  The reference guide marks an entry as current exactly when the
    time is ['O(1)'] or ['O(2^n)']: its quadratic entry is spelled with a
    superscript and never equals a label [O(n^d)]. *)
Theorem overall_time_is_never_linear code language r :
  analyze code language = Value r ->
  (time (overall r) = "O(1)" \/ time (overall r) = "O(2^n)" \/
   exists d, 2 <= d /\ time (overall r) = ("O(n^" ++ JS.show_nat d ++ ")")%string) /\
  time (overall r) <> "O(n)" /\
  time (overall r) <> "O(n log n)" /\
  (ComplexityVisualization.currentLevels r <> [] <->
   time (overall r) = "O(1)" \/ time (overall r) = "O(2^n)").
Proof.
  intros H. destruct (analyze_patterns_built _ _ _ H) as [Hb _].
  pose proof (proj1 (analyze_overall _ _ _ H)) as Ht.
  pose proof (last_label_built _ _ Hb) as Hl. cbv zeta in Hl. rewrite <- Ht in Hl.
  split; [exact Hl|].
  unfold ComplexityVisualization.currentLevels.
  destruct Hl as [E|[E|[d [Hd E]]]]; rewrite E.
  - repeat split; try discriminate; auto.
  - repeat split; try discriminate; auto.
  - repeat split; try discriminate.
    + intros Hne. now elim Hne.
    + intros [Habs|Habs]; discriminate Habs.
Qed.

Lemma overall_time_is_never_linear_witness :
  exists r,
    analyze Scenarios.singleLoop "cpp" = Value r /\
    time (overall r) <> "O(n)".
Proof.
  assert (E : exists r, analyze Scenarios.singleLoop "cpp" = Value r)
    by (eexists; vm_compute; reflexivity).
  destruct E as [r H]. exists r. split; [exact H|].
  exact (proj1 (proj2 (overall_time_is_never_linear _ _ _ H))).
Defined.

(** ** Texts without a loop header *)

Section LoopFree.

Import ComplexityDetector.

Variable this : t.

Lemma detectPatterns_from_loop_free rest : forall fuel before found,
  lines this = before ++ rest ->
  List.length rest < fuel ->
  (forall line, In line rest -> isLoop this (JS.trim line) = Value false) ->
  detectPatterns_from this fuel (List.length before) found
  = Value (found ++ recursionPatternsFrom (List.length before) rest).
Proof.
  induction rest as [|line rest IH]; intros fuel before found Hlines Hfuel Hloop;
    (destruct fuel as [|fuel]; [simpl in Hfuel; lia|]); cbn [detectPatterns_from].
  - rewrite Hlines, app_nil_r, Nat.ltb_irrefl. simpl. now rewrite app_nil_r.
  - replace (List.length before <? List.length (lines this)) with true
      by (symmetry; apply Nat.ltb_lt; rewrite Hlines, length_app; simpl; lia).
    rewrite Hlines, nth_middle.
    rewrite (Hloop line) by now left. cbn [bind].
    replace (List.length before + 1) with (List.length (before ++ [line]))
      by (rewrite length_app; reflexivity).
    rewrite (IH fuel (before ++ [line]));
      [| rewrite Hlines, <- app_assoc; reflexivity
       | simpl in Hfuel; lia
       | intros l Hl; apply Hloop; now right ].
    cbn [recursionPatternsFrom].
    replace (S (List.length before)) with (List.length (before ++ [line]))
      by (rewrite length_app; simpl; lia).
    destruct (isRecursiveCall (JS.trim line)); simpl.
    + now rewrite <- app_assoc.
    + reflexivity.
Qed.

Lemma detectPatterns_loop_free :
  (forall line, In line (lines this) -> isLoop this (JS.trim line) = Value false) ->
  detectPatterns this = Value (recursionPatternsFrom 0 (lines this)).
Proof.
  intros Hloop. unfold detectPatterns.
  apply (detectPatterns_from_loop_free (lines this) _ [] []); auto.
Qed.

End LoopFree.

Lemma recursionPatternsFrom_labels i rest :
  Forall (fun p => p_complexity p = "O(2^n)" /\ penalty p = 40%Z)
         (recursionPatternsFrom i rest).
Proof.
  revert i. induction rest as [|line rest IH]; intros i; simpl; [constructor|].
  destruct (ComplexityDetector.isRecursiveCall _); simpl; [constructor|]; auto.
Qed.

Lemma recursion_only_overall ps :
  Forall (fun p => p_complexity p = "O(2^n)" /\ penalty p = 40%Z) ps ->
  last (map p_complexity ps) "O(1)" = match ps with [] => "O(1)" | _ => "O(2^n)" end /\
  totalPenalty ps = (40 * Z.of_nat (List.length ps))%Z.
Proof.
  induction 1 as [|p ps [Hc Hp] Hps [IH1 IH2]]; [split; reflexivity|].
  split.
  - cbn [map]. rewrite last_cons_default, Hc.
    destruct ps as [|q ps]; [reflexivity|].
    inversion Hps as [|? ? [Hq _] _]; subst.
    cbn [map]. rewrite last_cons_default, Hq.
    cbn [map] in IH1. rewrite last_cons_default, Hq in IH1. exact IH1.
  - unfold totalPenalty in *. cbn [map fold_right List.length].
    rewrite IH2, Hp. lia.
Qed.

(** X12: when no line of the text is a loop header under the given tag (as
    for every unrecognized tag), [analyze] detects exactly the one-line
    recursion patterns of the lines that match the recursive-call heuristic,
    in order; the score is 100 minus 40 per such line (not below 0) and the
    time is ['O(2^n)'] as soon as there is one. *)
Theorem loop_free_text_has_recursion_patterns_only code language :
  (forall line, In line (JS.split_lines code) ->
     ComplexityDetector.isLoop (ComplexityDetector.new code language) (JS.trim line)
     = Value false) ->
  exists r,
    analyze code language = Value r /\
    patterns r = recursionPatternsFrom 0 (JS.split_lines code) /\
    score (overall r) = Z.max 0 (100 - 40 * Z.of_nat (List.length (patterns r))) /\
    time (overall r) = match patterns r with [] => "O(1)" | _ => "O(2^n)" end.
Proof.
  intros Hloop.
  assert (Hi : inherited language = false).
  { destruct (inherited language) eqn:E; [|reflexivity].
    destruct (JS.split_lines code) as [|line rest] eqn:El;
      [now elim (split_lines_nonempty code)|].
    specialize (Hloop line (or_introl eq_refl)).
    rewrite isLoop_inherited_tag in Hloop by assumption. discriminate. }
  destruct (analyze_returns code language Hi) as [r H].
  exists r. split; [assumption|].
  destruct (analyze_overall _ _ _ H) as [Ht [Hs _]].
  apply analyze_Value in H.
  destruct H as [lbl [pats [ai [pre [_ [Hp [_ ->]]]]]]]. simpl in *.
  rewrite detectPatterns_loop_free in Hp by exact Hloop.
  injection Hp as <-. simpl ComplexityDetector.lines in *.
  destruct (recursion_only_overall _
              (recursionPatternsFrom_labels 0 (JS.split_lines code))) as [E1 E2].
  rewrite Ht, Hs, E1, E2. auto.
Qed.

Lemma loop_free_text_has_recursion_patterns_only_witness :
  exists r,
    analyze Scenarios.fibonacciPython "javascript" = Value r /\
    patterns r = recursionPatternsFrom 0 (JS.split_lines Scenarios.fibonacciPython).
Proof.
  destruct (loop_free_text_has_recursion_patterns_only
              Scenarios.fibonacciPython "javascript") as [r [H [Hp _]]].
  - intros line Hin. vm_compute in Hin.
    repeat (destruct Hin as [<-|Hin]; [reflexivity|]). contradiction.
  - exists r. split; assumption.
Defined.

(** ** What the recognizers of the Optimizer make *)

Lemma forEachLine_made {A} (P : nat -> A -> Prop)
    (body : nat -> string -> comp (list A)) :
  (forall i raw xs, body i raw = Value xs -> Forall (P (i + 1)) xs) ->
  forall lines i out,
    forEachLine body i lines = Value out ->
    Forall (fun x => exists n, i + 1 <= n <= i + List.length lines /\ P n x) out.
Proof.
  intros Hbody lines.
  induction lines as [|raw rest IH]; intros i out H; simpl in H.
  - injection H as <-. constructor.
  - apply bind_Value in H. destruct H as [xs [Hxs H]].
    apply bind_Value in H. destruct H as [ys [Hys H]].
    injection H as <-. apply Forall_app. split.
    + eapply Forall_impl; [|exact (Hbody _ _ _ Hxs)].
      intros x Hx. exists (i + 1). simpl. split; [lia | assumption].
    + eapply Forall_impl; [|exact (IH _ _ Hys)].
      intros x [n [Hn Hx]]. exists n. simpl. split; [lia | assumption].
Qed.

Lemma when_made n c s :
  optimizerMade n s -> Forall (optimizerMade n) (AIOptimizer.when c s).
Proof. intros H. destruct c; simpl; auto. Qed.

Ltac made_by_when :=
  repeat (apply Forall_app; split);
  try (apply when_made; unfold optimizerMade; cbn [s_line title example];
       split; [reflexivity | split; [simpl; tauto | discriminate]]);
  try constructor.

Section OptimizerMade.

Import AIOptimizer.

Variable this : t.

Lemma analyzeNestedLoops_made lines out :
  analyzeNestedLoops this lines = Value out ->
  Forall (fun s => exists n, 1 <= n <= List.length lines /\ optimizerMade n s) out.
Proof.
  intros H. apply (forEachLine_made optimizerMade) in H; [exact H|].
  intros i raw xs Hxs. cbv beta zeta in Hxs.
  apply bind_Value in Hxs. destruct Hxs as [l [_ Hxs]].
  apply bind_Value in Hxs. destruct Hxs as [nested [_ Hxs]].
  destruct nested; injection Hxs as <-; made_by_when.
Qed.

Lemma analyzeRecursionPatterns_made lines out :
  analyzeRecursionPatterns this lines = Value out ->
  Forall (fun s => exists n, 1 <= n <= List.length lines /\ optimizerMade n s) out.
Proof.
  intros H. apply (forEachLine_made optimizerMade) in H; [exact H|].
  intros i raw xs Hxs. cbv beta zeta in Hxs.
  destruct (isRecursiveFunction _); injection Hxs as <-; made_by_when.
Qed.

Lemma analyzeDataStructureUsage_made lines out :
  analyzeDataStructureUsage this lines = Value out ->
  Forall (fun s => exists n, 1 <= n <= List.length lines /\ optimizerMade n s) out.
Proof.
  intros H. apply (forEachLine_made optimizerMade) in H; [exact H|].
  intros i raw xs Hxs. cbv beta zeta in Hxs.
  injection Hxs as <-; made_by_when.
Qed.

Lemma analyzeSearchPatterns_made lines out :
  analyzeSearchPatterns this lines = Value out ->
  Forall (fun s => exists n, 1 <= n <= List.length lines /\ optimizerMade n s) out.
Proof.
  intros H. apply (forEachLine_made optimizerMade) in H; [exact H|].
  intros i raw xs Hxs. cbv beta zeta in Hxs.
  apply bind_Value in Hxs. destruct Hxs as [linear [_ Hxs]].
  injection Hxs as <-; made_by_when.
Qed.

Lemma analyzeSortingPatterns_made lines out :
  analyzeSortingPatterns this lines = Value out ->
  Forall (fun s => exists n, 1 <= n <= List.length lines /\ optimizerMade n s) out.
Proof.
  intros H. apply (forEachLine_made optimizerMade) in H; [exact H|].
  intros i raw xs Hxs. cbv beta zeta in Hxs.
  apply bind_Value in Hxs. destruct Hxs as [bubble [_ Hxs]].
  apply bind_Value in Hxs. destruct Hxs as [selection [_ Hxs]].
  injection Hxs as <-; made_by_when.
Qed.

Lemma analyzeStringOperations_made lines out :
  analyzeStringOperations this lines = Value out ->
  Forall (fun s => exists n, 1 <= n <= List.length lines /\ optimizerMade n s) out.
Proof.
  intros H. apply (forEachLine_made optimizerMade) in H; [exact H|].
  intros i raw xs Hxs. cbv beta zeta in Hxs.
  apply bind_Value in Hxs. destruct Hxs as [concatenation [_ Hxs]].
  injection Hxs as <-; made_by_when.
Qed.

Lemma analyzeMemoryOptimizations_made lines out :
  analyzeMemoryOptimizations this lines = Value out ->
  Forall (fun s => exists n, 1 <= n <= List.length lines /\ optimizerMade n s) out.
Proof.
  intros H. apply (forEachLine_made optimizerMade) in H; [exact H|].
  intros i raw xs Hxs. cbv beta zeta in Hxs.
  injection Hxs as <-; made_by_when.
Qed.

Lemma generateAISuggestions_made out :
  generateAISuggestions this = Value out ->
  Forall (fun s => exists n,
            1 <= n <= List.length (JS.split_lines (code this)) /\
            optimizerMade n s) out.
Proof.
  unfold generateAISuggestions. intros H.
  apply bind_Value in H. destruct H as [s1 [H1 H]].
  apply bind_Value in H. destruct H as [s2 [H2 H]].
  apply bind_Value in H. destruct H as [s3 [H3 H]].
  apply bind_Value in H. destruct H as [s4 [H4 H]].
  apply bind_Value in H. destruct H as [s5 [H5 H]].
  apply bind_Value in H. destruct H as [s6 [H6 H]].
  apply bind_Value in H. destruct H as [s7 [H7 H]].
  injection H as <-.
  repeat (apply Forall_app; split);
    eauto using analyzeNestedLoops_made, analyzeRecursionPatterns_made,
      analyzeDataStructureUsage_made, analyzeSearchPatterns_made,
      analyzeSortingPatterns_made, analyzeStringOperations_made,
      analyzeMemoryOptimizations_made.
Qed.

End OptimizerMade.

(** ** What [generateSuggestions] makes *)

Lemma fold_left_Forall {A B} (P : A -> Prop) (step : list A -> B -> list A) l :
  (forall acc x, In x l -> Forall P acc -> Forall P (step acc x)) ->
  forall acc, Forall P acc -> Forall P (fold_left step l acc).
Proof.
  induction l as [|x l IH]; intros Hstep acc Hacc; simpl; [assumption|].
  apply IH.
  - intros acc' y Hy. apply Hstep. now right.
  - apply Hstep; [now left | assumption].
Qed.

Lemma generateSuggestions_made la ps :
  Forall (detectorMade la ps) (ComplexityDetector.generateSuggestions la ps).
Proof.
  unfold ComplexityDetector.generateSuggestions.
  apply fold_left_Forall.
  - intros acc l Hl Hacc.
    destruct (_ && _) eqn:E; [|assumption].
    apply Forall_app. split; [assumption|]. constructor; [|constructor].
    right. right. exists l. apply andb_true_iff in E. destruct E as [E _].
    destruct (lc_severity l); try discriminate. auto.
  - apply fold_left_Forall; [|constructor].
    intros acc p Hp Hacc.
    assert (Hfirst : Forall (detectorMade la ps)
              (if ComplexityDetector.PatternType_eqb (p_type p) PNested &&
                  Level_eqb (impact p) high
               then acc ++ [ComplexityDetector.nestedSuggestion p] else acc)).
    { destruct (_ && _) eqn:E; [|assumption].
      apply Forall_app. split; [assumption|]. constructor; [|constructor].
      left. exists p. apply andb_true_iff in E. destruct E as [E1 E2].
      destruct (p_type p); try discriminate.
      destruct (impact p); try discriminate. auto. }
    destruct (ComplexityDetector.PatternType_eqb (p_type p) PRecursion) eqn:E;
      [|assumption].
    apply Forall_app. split; [assumption|]. constructor; [|constructor].
    right. left. exists p. destruct (p_type p); try discriminate. auto.
Qed.

Lemma fold_left_grows {A B} (step : list A -> B -> list A) l :
  (forall acc x, incl acc (step acc x)) ->
  forall acc, incl acc (fold_left step l acc).
Proof.
  intros Hstep. induction l as [|x l IH]; intros acc; simpl.
  - apply incl_refl.
  - eapply incl_tran; [apply Hstep | apply IH].
Qed.

(** After the second loop of [generateSuggestions] every line record of
    severity [high] has a suggestion on its line. *)
Lemma high_lines_covered la : forall acc l,
  In l la -> lc_severity l = high ->
  exists s,
    In s (fold_left
            (fun suggestions line =>
               if Level_eqb (lc_severity line) high &&
                  negb (JS.some (fun s => s_line s =? lc_line line) suggestions)
               then suggestions ++ [ComplexityDetector.simplifySuggestion line]
               else suggestions) la acc) /\
    s_line s = lc_line l.
Proof.
  induction la as [|x la IH]; intros acc l Hin Hhigh; [contradiction|].
  simpl fold_left. destruct Hin as [->|Hin]; [|now apply IH].
  rewrite Hhigh. cbn [Level_eqb andb].
  match goal with
  | |- exists s, In s (fold_left ?f la ?a) /\ _ =>
      assert (Hgrow : incl a (fold_left f la a))
  end.
  { apply fold_left_grows. intros a y.
    destruct (_ && _); [apply incl_appl|]; apply incl_refl. }
  destruct (JS.some _ acc) eqn:E; cbn [negb] in *.
  - apply existsb_exists in E. destruct E as [s [Hs E]].
    apply Nat.eqb_eq in E. exists s. split; [now apply Hgrow | assumption].
  - exists (ComplexityDetector.simplifySuggestion l).
    split; [|reflexivity]. apply Hgrow, in_or_app. right. now left.
Qed.

(** Membership in the merged list, traced back to the list before the merge:
    what is kept was there, and what was there is kept under its (line,
    title) pair. *)
Lemma deduplicateSuggestions_In l s :
  In s (ComplexityDetector.deduplicateSuggestions l) -> In s l.
Proof.
  unfold ComplexityDetector.deduplicateSuggestions. intros H.
  apply (Permutation_in _ (sort_perm _)) in H.
  now apply filterSeen_In in H.
Qed.

Lemma deduplicateSuggestions_keeps l s :
  In s l ->
  exists s', In s' (ComplexityDetector.deduplicateSuggestions l) /\
             identity s' = identity s.
Proof.
  intros H. destruct (filterSeen_complete [] l s H) as [s' [H1 H2]]; [auto|].
  exists s'. split.
  - unfold ComplexityDetector.deduplicateSuggestions.
    apply (Permutation_in _ (Permutation_sym (sort_perm _))). assumption.
  - now apply key_identity.
Qed.

(** X13: every line record of severity [high] has at least one suggestion on
    its line in the list [analyze] returns. *)
Theorem high_severity_lines_get_a_suggestion code language r l :
  analyze code language = Value r ->
  In l (lineByLine r) ->
  lc_severity l = high ->
  exists s, In s (suggestions r) /\ s_line s = lc_line l.
Proof.
  intros H Hin Hhigh. apply analyze_Value in H.
  destruct H as [lbl [pats [ai [pre [_ [_ [_ ->]]]]]]]. simpl in *.
  destruct (high_lines_covered lbl
              (fold_left
                 (fun suggestions pattern =>
                    let suggestions :=
                      if ComplexityDetector.PatternType_eqb (p_type pattern) PNested &&
                         Level_eqb (impact pattern) high
                      then suggestions ++ [ComplexityDetector.nestedSuggestion pattern]
                      else suggestions in
                    if ComplexityDetector.PatternType_eqb (p_type pattern) PRecursion
                    then suggestions ++ [ComplexityDetector.recursionSuggestion pattern]
                    else suggestions) pats [])
              l Hin Hhigh) as [s [Hs Hline]].
  destruct (deduplicateSuggestions_keeps
              (ComplexityDetector.generateSuggestions lbl pats ++ ai) s)
    as [s' [Hs' Hid]].
  { apply in_or_app. left. exact Hs. }
  exists s'. split; [assumption|].
  unfold identity in Hid. injection Hid as -> _. assumption.
Qed.

Lemma high_severity_lines_get_a_suggestion_witness :
  exists r l s,
    analyze Scenarios.fibonacciPython "python" = Value r /\
    In l (lineByLine r) /\ lc_severity l = high /\
    In s (suggestions r) /\ s_line s = lc_line l.
Proof.
  assert (E : exists r,
             analyze Scenarios.fibonacciPython "python" = Value r /\
             exists l, In l (lineByLine r) /\ lc_severity l = high).
  { eexists. split; [vm_compute; reflexivity|].
    eexists. split; [left; reflexivity | reflexivity]. }
  destruct E as [r [H [l [Hin Hhigh]]]].
  destruct (high_severity_lines_get_a_suggestion _ _ _ _ H Hin Hhigh)
    as [s [Hs Hl]].
  exists r, l, s. auto.
Defined.

(** ** Where the suggestions of [analyze] come from *)

Lemma optimizerTitles_not_detector t :
  In t optimizerTitles ->
  t <> "Reduce nested loop complexity" /\
  t <> "Optimize recursion" /\
  t <> "Simplify complex operation".
Proof.
  intros H. simpl in H.
  repeat (destruct H as [<-|H]; [repeat split; discriminate|]).
  contradiction.
Qed.

(** Every suggestion of a successful [analyze] was made by the Detector from
    its patterns and line records, or by the Optimizer for a line of the
    text. *)
Lemma analyze_suggestion_made code language r s :
  analyze code language = Value r ->
  In s (suggestions r) ->
  detectorMade (lineByLine r) (patterns r) s \/
  exists n, 1 <= n <= lineCount code /\ optimizerMade n s.
Proof.
  intros H Hin. apply analyze_Value in H.
  destruct H as [lbl [pats [ai [pre [_ [_ [Ha ->]]]]]]]. simpl in *.
  apply deduplicateSuggestions_In in Hin. apply in_app_or in Hin.
  destruct Hin as [Hin|Hin].
  - left. pose proof (generateSuggestions_made lbl pats) as Hm.
    rewrite Forall_forall in Hm. now apply Hm.
  - right. apply generateAISuggestions_made in Ha.
    rewrite Forall_forall in Ha. exact (Ha s Hin).
Qed.

Lemma built_line this p :
  builtAt this p ->
  1 <= startLine p <= List.length (ComplexityDetector.lines this).
Proof.
  intros [i [Hi [[_ ->]|[_ [d [last [_ [_ ->]]]]]]]]; simpl; lia.
Qed.

(** X14: the suggestions [analyze] returns all point at a line of the text,
    and the only ones without an example are those titled 'Simplify complex
    operation'. *)
Theorem suggestions_point_at_lines_of_the_text code language r s :
  analyze code language = Value r ->
  In s (suggestions r) ->
  1 <= s_line s <= lineCount code /\
  (example s = None <-> title s = "Simplify complex operation").
Proof.
  intros H Hin.
  destruct (analyze_suggestion_made _ _ _ _ H Hin) as [Hd|[n [Hn [Hl [Ht He]]]]].
  - destruct (analyze_patterns_built _ _ _ H) as [Hb _].
    rewrite Forall_forall in Hb.
    destruct Hd as [[p [Hp [_ [_ ->]]]]|[[p [Hp [_ ->]]]|[l [Hl [_ ->]]]]].
    + split; [exact (built_line _ _ (Hb p Hp))|].
      split; discriminate.
    + split; [exact (built_line _ _ (Hb p Hp))|].
      split; discriminate.
    + split; [|split; reflexivity].
      pose proof (proj1 (proj2 (line_records_shape _ _ _ H))) as Hlines.
      apply (in_map lc_line) in Hl. rewrite Hlines in Hl.
      apply in_seq in Hl. simpl. lia.
  - rewrite Hl. split; [assumption|].
    destruct (optimizerTitles_not_detector _ Ht) as [_ [_ Hne]].
    split; intros E; [now elim He | now elim Hne].
Qed.

Lemma suggestions_point_at_lines_of_the_text_witness :
  exists r s,
    analyze Scenarios.fibonacciPython "python" = Value r /\
    In s (suggestions r) /\
    1 <= s_line s <= lineCount Scenarios.fibonacciPython.
Proof.
  assert (E : exists r,
             analyze Scenarios.fibonacciPython "python" = Value r /\
             exists s, In s (suggestions r)).
  { eexists. split; [vm_compute; reflexivity|]. eexists. left. reflexivity. }
  destruct E as [r [H [s Hin]]]. exists r, s.
  split; [exact H|]. split; [exact Hin|].
  exact (proj1 (suggestions_point_at_lines_of_the_text _ _ _ _ H Hin)).
Defined.

Lemma nestedSuggestion_generated la ps p :
  In p ps -> p_type p = PNested -> impact p = high ->
  In (ComplexityDetector.nestedSuggestion p)
     (ComplexityDetector.generateSuggestions la ps).
Proof.
  intros Hin Ht Hi. unfold ComplexityDetector.generateSuggestions.
  match goal with
  | |- In _ (fold_left ?f la ?a) => apply (fold_left_grows f la)
  end.
  { intros acc l. destruct (_ && _); [apply incl_appl|]; apply incl_refl. }
  match goal with
  | |- In _ (fold_left ?f ps _) => set (step := f)
  end.
  assert (Hgrow : forall acc q, incl acc (step acc q)).
  { intros acc q. unfold step.
    destruct (_ && _), (ComplexityDetector.PatternType_eqb (p_type q) PRecursion);
      repeat apply incl_appl; apply incl_refl. }
  generalize (@nil Suggestion) as acc.
  induction ps as [|q ps IH]; intros acc; [contradiction|].
  cbn [fold_left]. destruct Hin as [->|Hin]; [|now apply IH].
  apply (fold_left_grows step ps Hgrow).
  unfold step. rewrite Ht, Hi.
  cbn [ComplexityDetector.PatternType_eqb Level_eqb andb].
  apply in_or_app. right. now left.
Qed.



(** ** The generic suggestion stands alone on its line *)

Lemma fold_left_invariant {A B} (I : A -> Prop) (step : A -> B -> A) l :
  (forall acc x, I acc -> I (step acc x)) ->
  forall acc, I acc -> I (fold_left step l acc).
Proof.
  intros Hstep. induction l as [|x l IH]; intros acc Hacc; simpl; auto.
Qed.

Lemma app_tail_split {A} (acc : list A) g l1 s l2 :
  acc ++ [g] = l1 ++ s :: l2 ->
  (l2 = [] /\ acc = l1 /\ g = s) \/
  (exists l2', l2 = l2' ++ [g] /\ acc = l1 ++ s :: l2').
Proof.
  destruct l2 as [|y l2 _] using rev_ind; intros H.
  - apply app_inj_tail in H. left. tauto.
  - rewrite app_comm_cons, app_assoc in H. apply app_inj_tail in H.
    destruct H as [-> ->]. right. now exists l2.
Qed.

(** X16: in the list [generateSuggestions] builds, a suggestion titled
    'Simplify complex operation' is the only suggestion on its line: no
    suggestion at another position of the list, before it or after it, has
    its line.  So a line that already has a suggestion never gets the
    generic one, and no line gets it twice. *)
Theorem generic_suggestion_is_alone_on_its_line la ps l1 s l2 :
  ComplexityDetector.generateSuggestions la ps = l1 ++ s :: l2 ->
  title s = "Simplify complex operation" ->
  Forall (fun s' => s_line s' <> s_line s) (l1 ++ l2).
Proof.
  unfold ComplexityDetector.generateSuggestions.
  match goal with
  | |- fold_left ?f la ?a = _ -> _ => set (step := f); set (start := a)
  end.
  revert l1 s l2.
  apply (fold_left_invariant
           (fun acc => forall l1 s l2,
              acc = l1 ++ s :: l2 ->
              title s = "Simplify complex operation" ->
              Forall (fun s' => s_line s' <> s_line s) (l1 ++ l2))).
  - intros acc l Hacc l1 s l2. unfold step.
    destruct (_ && _) eqn:E; [|apply Hacc].
    apply andb_true_iff in E. destruct E as [_ E].
    apply negb_true_iff in E.
    assert (Hfree : forall x, In x acc -> s_line x <> lc_line l).
    { intros x Hx Heq.
      assert (Hex : JS.some (fun x => s_line x =? lc_line l) acc = true).
      { apply existsb_exists. exists x. split; [assumption|].
        now apply Nat.eqb_eq. }
      rewrite Hex in E. discriminate. }
    intros Hsplit Ht.
    destruct (app_tail_split _ _ _ _ _ Hsplit) as [[-> [<- <-]]|[l2' [-> Hacc']]].
    + rewrite app_nil_r. apply Forall_forall. intros x Hx. exact (Hfree x Hx).
    + rewrite app_assoc. apply Forall_app. split.
      * exact (Hacc l1 s l2' Hacc' Ht).
      * constructor; [|constructor]. cbn [ComplexityDetector.simplifySuggestion s_line].
        intros Heq. apply (Hfree s); [|now symmetry].
        rewrite Hacc'. apply in_or_app. right. now left.
  - assert (Hstart : Forall (fun s => title s <> "Simplify complex operation") start).
    { unfold start. apply fold_left_Forall; [|constructor].
      intros acc p _ Hacc.
      destruct (_ && _), (ComplexityDetector.PatternType_eqb (p_type p) PRecursion);
        repeat (apply Forall_app; split); trivial;
        repeat constructor; discriminate. }
    intros l1 s l2 Hsplit Ht. rewrite Forall_forall in Hstart.
    elim (Hstart s); [|exact Ht].
    rewrite Hsplit. apply in_or_app. right. now left.
Qed.

Lemma generic_suggestion_is_alone_on_its_line_witness :
  let la := [highRecord "f(n-1)"; highRecord "g(n-2)"] in
  let ps := [ComplexityDetector.recursionPattern 1] in
  let s := ComplexityDetector.simplifySuggestion (highRecord "f(n-1)") in
  let r := ComplexityDetector.recursionSuggestion
             (ComplexityDetector.recursionPattern 1) in
  ComplexityDetector.generateSuggestions la ps = [r] ++ s :: [] /\
  title s = "Simplify complex operation" /\
  Forall (fun s' => s_line s' <> s_line s) ([r] ++ []).
Proof.
  intros la ps s r.
  assert (E : ComplexityDetector.generateSuggestions la ps = [r] ++ s :: [])
    by reflexivity.
  split; [exact E|]. split; [reflexivity|].
  exact (generic_suggestion_is_alone_on_its_line la ps [r] s [] E eq_refl).
Defined.

(** ** Merging twice changes nothing *)

Section Idempotence.

Import ComplexityDetector.

Lemma filterSeen_unique seen l :
  NoDup (map key l) ->
  (forall s, In s l -> ~ In (key s) seen) ->
  filterSeen seen l = l.
Proof.
  revert seen. induction l as [|x l IH]; intros seen Hnd Hseen; [reflexivity|].
  simpl. inversion Hnd as [|? ? Hx Hl]; subst.
  destruct (has seen (key x)) eqn:E.
  - apply has_In in E. now elim (Hseen x (or_introl eq_refl)).
  - f_equal. apply IH; [assumption|].
    intros s Hs [Hk|Hk].
    + apply Hx. rewrite Hk. now apply in_map.
    + apply (Hseen s); [now right | assumption].
Qed.

Lemma insertSorted_first x l :
  HdRel before x l -> insertSorted byPriority x l = x :: l.
Proof.
  intros H. destruct l as [|y l]; [reflexivity|]. simpl.
  inversion H as [|? ? Hxy]; subst.
  apply byPriority_before in Hxy. now rewrite Hxy.
Qed.

Lemma sort_of_sorted l : Sorted before l -> sort byPriority l = l.
Proof.
  induction 1 as [|x l Hl IH Hx]; [reflexivity|].
  simpl. rewrite IH. now apply insertSorted_first.
Qed.

Lemma deduplicateSuggestions_fixed l :
  NoDup (map key l) -> Sorted before l -> deduplicateSuggestions l = l.
Proof.
  intros Hnd Hs. unfold deduplicateSuggestions.
  rewrite filterSeen_unique; [now apply sort_of_sorted | assumption | auto].
Qed.

Lemma deduplicateSuggestions_normal l :
  NoDup (map key (deduplicateSuggestions l)) /\
  Sorted before (deduplicateSuggestions l).
Proof.
  unfold deduplicateSuggestions. split; [|apply sort_sorted].
  apply (Permutation_NoDup (l := map key (filterSeen [] l))).
  - apply Permutation_map. symmetry. apply sort_perm.
  - apply filterSeen_NoDup.
Qed.

End Idempotence.

(** X17: merging is idempotent: deduplicating and sorting an already merged
    list of suggestions gives the same list. *)
Theorem deduplicateSuggestions_idempotent l :
  ComplexityDetector.deduplicateSuggestions
    (ComplexityDetector.deduplicateSuggestions l)
  = ComplexityDetector.deduplicateSuggestions l.
Proof.
  destruct (deduplicateSuggestions_normal l) as [Hnd Hs].
  now apply deduplicateSuggestions_fixed.
Qed.

(** ** The suggestion panel *)

Section Panel.

Import ImprovementSuggestions.

Lemma Suggestion_eqb_refl s : Suggestion_eqb s s = true.
Proof.
  unfold Suggestion_eqb.
  rewrite Nat.eqb_refl, !String.eqb_refl.
  destruct (s_type s), (example s), (priority s); simpl;
    rewrite ?String.eqb_refl; reflexivity.
Qed.

Lemma Suggestion_eqb_title a b : Suggestion_eqb a b = true -> title a = title b.
Proof.
  unfold Suggestion_eqb. intros H.
  repeat (apply andb_true_iff in H; destruct H as [H ?]).
  now apply String.eqb_eq.
Qed.

Lemma basicSuggestions_by_title l :
  basicSuggestions l = filter (fun s => negb (isAiTitle s)) (sortedSuggestions l).
Proof.
  unfold basicSuggestions, aiSuggestions.
  apply filter_ext_in. intros s Hs. f_equal.
  destruct (isAiTitle s) eqn:E.
  - apply existsb_exists. exists s. split; [|apply Suggestion_eqb_refl].
    apply filter_In. now split.
  - apply not_true_is_false. intros H.
    apply existsb_exists in H. destruct H as [x [Hx Heq]].
    apply filter_In in Hx. destruct Hx as [_ Hx].
    apply Suggestion_eqb_title in Heq.
    unfold isAiTitle in *. rewrite Heq, Hx in E. discriminate.
Qed.

End Panel.

(** X18: shown in the suggestion panel, the list [analyze] returns is left in
    its order by the panel's own sort; the panel's second group holds exactly
    the suggestions whose title has none of the panel's key words; and its
    first, 'AI' group holds suggestions of the Optimizer only: a suggestion
    of the Detector is never shown there. *)
Theorem panel_groups code language r :
  analyze code language = Value r ->
  ImprovementSuggestions.sortedSuggestions (suggestions r) = suggestions r /\
  ImprovementSuggestions.basicSuggestions (suggestions r)
    = filter (fun s => negb (ImprovementSuggestions.isAiTitle s)) (suggestions r) /\
  (forall s, In s (ImprovementSuggestions.aiSuggestions (suggestions r)) ->
             In (title s) optimizerTitles).
Proof.
  intros H.
  assert (Hsorted : ImprovementSuggestions.sortedSuggestions (suggestions r)
                    = suggestions r).
  { destruct (analyze_suggestions _ _ _ H) as [basic [ai [a [_ [_ ->]]]]].
    apply sort_of_sorted. apply deduplicateSuggestions_normal. }
  split; [assumption|]. split.
  - now rewrite basicSuggestions_by_title, Hsorted.
  - intros s Hs. unfold ImprovementSuggestions.aiSuggestions in Hs.
    rewrite Hsorted in Hs. apply filter_In in Hs. destruct Hs as [Hin Hai].
    destruct (analyze_suggestion_made _ _ _ _ H Hin) as [Hd|[n [_ [_ [Ht _]]]]];
      [|assumption].
    destruct Hd as [[p [_ [_ [_ ->]]]]|[[p [_ [_ ->]]]|[l [_ [_ ->]]]]];
      discriminate Hai.
Qed.

Lemma panel_groups_witness :
  exists r,
    analyze Scenarios.fibonacciPython "python" = Value r /\
    ImprovementSuggestions.sortedSuggestions (suggestions r) = suggestions r.
Proof.
  assert (E : exists r, analyze Scenarios.fibonacciPython "python" = Value r)
    by (eexists; vm_compute; reflexivity).
  destruct E as [r H]. exists r. split; [exact H|].
  exact (proj1 (panel_groups _ _ _ H)).
Defined.

(** ** The educational content *)

Section Education.

Import ComplexityDetector.

Lemma add_In x c l : In x (add c l) <-> x = c \/ In x l.
Proof.
  unfold add. destruct (existsb (String.eqb c) l) eqn:E.
  - split; [auto|]. intros [->|H]; [|assumption].
    apply existsb_exists in E. destruct E as [y [Hy E]].
    apply String.eqb_eq in E. now subst.
  - rewrite in_app_iff. simpl.
    split; [intros [H|[H|[]]]; auto | intros [H|H]; auto].
Qed.

Lemma add_NoDup c l : NoDup l -> NoDup (add c l).
Proof.
  intros H. unfold add. destruct (existsb (String.eqb c) l) eqn:E; [assumption|].
  apply NoDup_app; [assumption | repeat constructor; auto |].
  intros x Hx [<-|[]].
  assert (Hex : existsb (String.eqb c) l = true)
    by (apply existsb_exists; exists c; split; [assumption | apply String.eqb_refl]).
  rewrite Hex in E. discriminate.
Qed.

Lemma assign_keys k v obj : map fst (assign k v obj) = add k (map fst obj).
Proof.
  unfold add. induction obj as [|[k' v'] obj IH]; [reflexivity|].
  simpl. destruct (String.eqb k k') eqn:E.
  - apply String.eqb_eq in E. now subst.
  - simpl. rewrite IH. now destruct (existsb (String.eqb k) (map fst obj)).
Qed.

Lemma lookup_key k obj : In k (map fst obj) -> lookup k obj <> None.
Proof.
  induction obj as [|[k' v] obj IH]; simpl; [contradiction|].
  intros [->|H].
  - now rewrite String.eqb_refl.
  - destruct (String.eqb k k'); [discriminate | now apply IH].
Qed.

Lemma learn_concepts c x y e :
  concepts (learn c x y e) = add c (concepts e) /\
  (map fst (explanations e) = concepts e ->
   map fst (explanations (learn c x y e)) = concepts (learn c x y e)) /\
  (map fst (examples e) = concepts e ->
   map fst (examples (learn c x y e)) = concepts (learn c x y e)).
Proof.
  unfold learn; simpl. rewrite !assign_keys.
  repeat split; intros ->; reflexivity.
Qed.

Lemma learn_coherent c x y e :
  c = "Nested Loops" \/ c = "Recursion" ->
  coherent e -> coherent (learn c x y e).
Proof.
  intros Hc [Hnd [Hx [Hy Hall]]].
  destruct (learn_concepts c x y e) as [Ec [Ex Ey]].
  repeat split; auto.
  - rewrite Ec. now apply add_NoDup.
  - rewrite Ec. apply Forall_forall. intros z Hz.
    apply add_In in Hz. rewrite Forall_forall in Hall.
    destruct Hz as [->|Hz]; auto.
Qed.

(** The content after the loop over the patterns [ps], started from [e]. *)
Lemma education_loop ps : forall e,
  coherent e ->
  let e' :=
    fold_left
      (fun e pattern =>
         match p_type pattern with
         | PNested =>
             learn "Nested Loops"
               ("Nested loops multiply time complexity. Two nested loops over n elements result in O(n" ++ JS.sup2 ++ ") complexity.")
               (JS.join JS.nl
                  [ "for (int i = 0; i < n; i++) {";
                    "  for (int j = 0; j < n; j++) {";
                    ("    // O(n" ++ JS.sup2 ++ ") operation")%string;
                    "  }";
                    "}" ])
               e
         | PRecursion =>
             learn "Recursion"
               "Recursive functions call themselves. Without optimization, they can have exponential complexity."
               (JS.join JS.nl
                  [ "int fibonacci(int n) {";
                    "  if (n <= 1) return n;";
                    "  return fibonacci(n-1) + fibonacci(n-2); // O(2^n)";
                    "}" ])
               e
         | _ => e
         end) ps e in
  coherent e' /\
  (In "Nested Loops" (concepts e') <->
   In "Nested Loops" (concepts e) \/ exists p, In p ps /\ p_type p = PNested) /\
  (In "Recursion" (concepts e') <->
   In "Recursion" (concepts e) \/ exists p, In p ps /\ p_type p = PRecursion).
Proof.
  induction ps as [|p ps IH]; intros e He; cbv zeta; cbn [fold_left].
  - split; [assumption|]. split; split; auto; intros [H|[p [[] _]]]; assumption.
  - match goal with
    | |- coherent (fold_left _ ps ?e1) /\ _ =>
        assert (He1 : coherent e1 /\
                  (In "Nested Loops" (concepts e1) <->
                   In "Nested Loops" (concepts e) \/ p_type p = PNested) /\
                  (In "Recursion" (concepts e1) <->
                   In "Recursion" (concepts e) \/ p_type p = PRecursion));
        [|destruct (IH e1 (proj1 He1)) as [Hc [Hn Hr]]]
    end.
    { destruct (p_type p).
      - split; [assumption|]. split; split; auto; intros [H|H]; auto; discriminate.
      - split; [apply learn_coherent; auto|].
        destruct (learn_concepts "Recursion"
                    "Recursive functions call themselves. Without optimization, they can have exponential complexity."
                    (JS.join JS.nl
                       [ "int fibonacci(int n) {";
                         "  if (n <= 1) return n;";
                         "  return fibonacci(n-1) + fibonacci(n-2); // O(2^n)";
                         "}" ]) e) as [-> _].
        rewrite !add_In. repeat split; intros [H|H]; try discriminate; auto.
      - split; [apply learn_coherent; auto|].
        destruct (learn_concepts "Nested Loops"
                    ("Nested loops multiply time complexity. Two nested loops over n elements result in O(n" ++ JS.sup2 ++ ") complexity.")
                    (JS.join JS.nl
                       [ "for (int i = 0; i < n; i++) {";
                         "  for (int j = 0; j < n; j++) {";
                         ("    // O(n" ++ JS.sup2 ++ ") operation")%string;
                         "  }";
                         "}" ]) e) as [-> _].
        rewrite !add_In. repeat split; intros [H|H]; try discriminate; auto.
      - split; [assumption|]. split; split; auto; intros [H|H]; auto; discriminate. }
    cbv zeta in Hc, Hn, Hr. destruct He1 as [_ [Hn1 Hr1]].
    split; [assumption|]. split.
    + rewrite Hn, Hn1. split.
      * intros [[H|H]|[q [Hq Ht]]].
        -- now left.
        -- right. exists p. split; [now left | assumption].
        -- right. exists q. split; [now right | assumption].
      * intros [H|[q [[<-|Hq] Ht]]].
        -- left. now left.
        -- left. now right.
        -- right. exists q. now split.
    + rewrite Hr, Hr1. split.
      * intros [[H|H]|[q [Hq Ht]]].
        -- now left.
        -- right. exists p. split; [now left | assumption].
        -- right. exists q. split; [now right | assumption].
      * intros [H|[q [[<-|Hq] Ht]]].
        -- left. now left.
        -- left. now right.
        -- right. exists q. now split.
Qed.

End Education.

(** X19: the educational content lists distinct concepts, the last of which
    is always 'Big O Notation'; every listed concept has an explanation and
    an example; 'Nested Loops' is listed exactly when some pattern is nested
    and 'Recursion' exactly when some pattern is a recursion. *)
Theorem educational_content_is_coherent ps :
  let e := ComplexityDetector.generateEducationalContent ps in
  NoDup (concepts e) /\
  last (concepts e) EmptyString = "Big O Notation" /\
  (forall c, In c (concepts e) ->
             lookup c (explanations e) <> None /\ lookup c (examples e) <> None) /\
  (In "Nested Loops" (concepts e) <-> exists p, In p ps /\ p_type p = PNested) /\
  (In "Recursion" (concepts e) <-> exists p, In p ps /\ p_type p = PRecursion).
Proof.
  cbv zeta. unfold ComplexityDetector.generateEducationalContent.
  match goal with
  | |- context [ComplexityDetector.learn _ _ _ (fold_left ?f ps ?e0)] =>
      destruct (education_loop ps e0) as [Hc [Hn Hr]]
  end.
  { repeat split; simpl; constructor. }
  cbv zeta in Hc, Hn, Hr.
  match goal with
  | |- context [ComplexityDetector.learn ?c ?x ?y ?e1] =>
      set (seen := e1) in *;
      destruct (learn_concepts c x y seen) as [Ec [Ex Ey]]
  end.
  destruct Hc as [Hnd [Hx [Hy Hall]]].
  assert (Hfresh : existsb (String.eqb "Big O Notation") (concepts seen) = false).
  { apply not_true_is_false. intros H. apply existsb_exists in H.
    destruct H as [c [Hin E]]. apply String.eqb_eq in E. subst c.
    rewrite Forall_forall in Hall. destruct (Hall _ Hin); discriminate. }
  rewrite Ec. split; [now apply add_NoDup|]. split.
  { unfold ComplexityDetector.add. rewrite Hfresh. apply last_last. }
  split.
  { intros c Hc. split; apply lookup_key.
    - rewrite Ex, Ec; assumption.
    - rewrite Ey, Ec; assumption. }
  rewrite !add_In, Hn, Hr. simpl.
  split; split; try (intros [H|[H|H]]; [discriminate | contradiction | assumption]);
    intros H; right; right; assumption.
Qed.

(** ** The examples of the recursion suggestions *)

Lemma startsWith_app f t : JS.startsWith f (f ++ t) = true.
Proof.
  induction f as [|c f IH]; [reflexivity|]. simpl.
  now rewrite Ascii.eqb_refl, IH.
Qed.

Lemma includes_here f t : JS.includes (f ++ t) f = true.
Proof.
  destruct f as [|c f]; [destruct t; reflexivity|].
  simpl. rewrite Ascii.eqb_refl, startsWith_app. reflexivity.
Qed.

Lemma includes_skip c s f : JS.includes s f = true -> JS.includes (String c s) f = true.
Proof. intros H. simpl. rewrite H. apply orb_true_r. Qed.

Lemma startsWith_app_l f a b :
  JS.startsWith f a = true -> JS.startsWith f (a ++ b) = true.
Proof.
  revert a. induction f as [|c f IH]; intros a H; [reflexivity|].
  destruct a as [|x a]; [discriminate|]. simpl in *.
  apply andb_true_iff in H. destruct H as [-> H]. now apply IH.
Qed.

Lemma includes_app_l a b f :
  JS.includes a f = true -> JS.includes (a ++ b) f = true.
Proof.
  induction a as [|c a IH]; intros H.
  - simpl in H. rewrite orb_false_r in H.
    destruct f; [destruct b; reflexivity | discriminate].
  - cbn [JS.includes] in H. apply orb_true_iff in H.
    change (String c a ++ b)%string with (String c (a ++ b)).
    cbn [JS.includes]. apply orb_true_iff. destruct H as [H|H].
    + left. now apply (startsWith_app_l f (String c a) b).
    + right. now apply IH.
Qed.

Ltac find_name :=
  repeat first
    [ apply includes_here
    | apply includes_app_l; apply includes_here
    | apply includes_skip ].

Lemma orDefault_nonempty a b : b <> EmptyString -> RegExp.orDefault a b <> EmptyString.
Proof. intros Hb. destruct a as [[|c s]|]; simpl; auto. discriminate. Qed.

(** X20: the name [extractFunctionName] takes from a line is never empty (it
    falls back to [function]), and the examples of the memoization and the
    tail-recursion suggestions contain that name. *)
Theorem recursion_examples_mention_the_name line :
  let name := AIOptimizer.extractFunctionName line in
  name <> EmptyString /\
  JS.includes (AIOptimizer.getMemoizationExample name) name = true /\
  JS.includes (AIOptimizer.getTailRecursionExample name) name = true.
Proof.
  cbv zeta. split; [|split].
  - unfold AIOptimizer.extractFunctionName.
    destruct (RegExp.exec _ line); [|discriminate].
    apply orDefault_nonempty, orDefault_nonempty. discriminate.
  - generalize (AIOptimizer.extractFunctionName line) as name. intros name.
    unfold AIOptimizer.getMemoizationExample.
    cbn [JS.join JS.nl append]. find_name.
  - generalize (AIOptimizer.extractFunctionName line) as name. intros name.
    unfold AIOptimizer.getTailRecursionExample.
    cbn [JS.join JS.nl append]. find_name.
Qed.

(** ** The language detector *)

Section Detector.

Import LanguageDetector.

Lemma supported_ids lang :
  In lang SUPPORTED_LANGUAGES -> In (id lang) ["cpp"; "java"; "python"].
Proof.
  unfold SUPPORTED_LANGUAGES. simpl.
  intros [<-|[<-|[<-|[]]]]; simpl; auto.
Qed.

Lemma analyze_returns_for_supported code l :
  In l ["cpp"; "java"; "python"] ->
  (exists info, getLanguageInfo l = Some info /\ id info = l) /\
  exists r, analyze code l = Value r.
Proof.
  simpl. intros [<-|[<-|[<-|[]]]];
    (split; [eexists; split; reflexivity | now apply analyze_returns]).
Qed.

(** The scores of the three languages, in the order of the catalog. *)
Lemma computeScores_catalog code :
  exists c j p,
    SUPPORTED_LANGUAGES = [c; j; p] /\
    computeScores code =
      [ ("cpp", keywordScore c code); ("java", keywordScore j code);
        ("python", keywordScore p code) ].
Proof.
  unfold SUPPORTED_LANGUAGES, computeScores.
  eexists. eexists. eexists. split; reflexivity.
Qed.

(** What [detectLanguage] answers when no extension decides. *)
Lemma detect_by_score code :
  exists c j p,
    SUPPORTED_LANGUAGES = [c; j; p] /\
    id c = "cpp" /\ id j = "java" /\ id p = "python" /\
    (detectedLang <-
       reduce (fun a b =>
                 if getScore b (computeScores code) <? getScore a (computeScores code)
                 then a else b)
              (map fst (computeScores code)) ;;
     Value (if 0 <? getScore detectedLang (computeScores code)
            then detectedLang else "cpp"))
    = Value
        (let first := if keywordScore j code <? keywordScore c code then c else j in
         let best := if keywordScore p code <? keywordScore first code
                     then first else p in
         if 0 <? keywordScore best code then id best else "cpp").
Proof.
  destruct (computeScores_catalog code) as [c [j [p [E ->]]]].
  exists c, j, p. split; [assumption|].
  assert (Hc : id c = "cpp")
    by (unfold SUPPORTED_LANGUAGES in E; now injection E as <- <- <-).
  assert (Hj : id j = "java")
    by (unfold SUPPORTED_LANGUAGES in E; now injection E as <- <- <-).
  assert (Hp : id p = "python")
    by (unfold SUPPORTED_LANGUAGES in E; now injection E as <- <- <-).
  repeat (split; [assumption|]).
  cbn [map fst reduce fold_left bind getScore String.eqb Ascii.eqb Bool.eqb].
  cbv zeta.
  destruct (keywordScore j code <? keywordScore c code);
    cbn [getScore String.eqb Ascii.eqb Bool.eqb];
    destruct (keywordScore p code <? _);
    cbn [getScore String.eqb Ascii.eqb Bool.eqb];
    rewrite ?Hc, ?Hj, ?Hp; reflexivity.
Qed.

Lemma detectLanguage_no_filename code :
  detectLanguage code None =
  (detectedLang <-
     reduce (fun a b =>
               if getScore b (computeScores code) <? getScore a (computeScores code)
               then a else b)
            (map fst (computeScores code)) ;;
   Value (if 0 <? getScore detectedLang (computeScores code)
          then detectedLang else "cpp")).
Proof. reflexivity. Qed.

End Detector.

(** X21: [detectLanguage] always answers one of [cpp], [java] and [python],
    whatever the text and the file name; [getLanguageInfo] knows the answer,
    and [analyze] called with it returns a result (it never throws). *)
Theorem detected_language_is_supported code filename :
  exists l,
    LanguageDetector.detectLanguage code filename = Value l /\
    In l ["cpp"; "java"; "python"] /\
    (exists info, LanguageDetector.getLanguageInfo l = Some info /\
                  LanguageDetector.id info = l) /\
    exists r, analyze code l = Value r.
Proof.
  assert (Hl : exists l,
             LanguageDetector.detectLanguage code filename = Value l /\
             In l ["cpp"; "java"; "python"]).
  { unfold LanguageDetector.detectLanguage.
    match goal with
    | |- exists l, match ?e with _ => _ end = _ /\ _ => destruct e as [lang|] eqn:E
    end.
    - exists (LanguageDetector.id lang). split; [reflexivity|].
      apply supported_ids.
      destruct filename as [[|c f]|]; try discriminate.
      now apply find_some in E.
    - destruct (detect_by_score code) as [c [j [p [Hs [Hc [Hj [Hp ->]]]]]]].
      eexists. split; [reflexivity|]. cbv zeta.
      repeat match goal with |- context [if ?b then _ else _] => destruct b end;
        rewrite ?Hc, ?Hj, ?Hp; simpl; auto. }
  destruct Hl as [l [Hd Hin]]. exists l.
  split; [assumption|]. split; [assumption|].
  now apply analyze_returns_for_supported.
Qed.

(** X22: without a file name, [detectLanguage] answers a language whose
    keywords match the text at least as often as those of every supported
    language, and [cpp] when no keyword matches at all. *)
Theorem detected_language_has_a_top_score code l :
  LanguageDetector.detectLanguage code None = Value l ->
  exists info,
    LanguageDetector.getLanguageInfo l = Some info /\
    (forall lang, In lang LanguageDetector.SUPPORTED_LANGUAGES ->
       LanguageDetector.keywordScore lang code
       <= LanguageDetector.keywordScore info code) /\
    ((forall lang, In lang LanguageDetector.SUPPORTED_LANGUAGES ->
        LanguageDetector.keywordScore lang code = 0) ->
     l = "cpp").
Proof.
  rewrite detectLanguage_no_filename.
  destruct (detect_by_score code) as [c [j [p [Hs [Hc [Hj [Hp ->]]]]]]].
  cbv zeta. intros [= <-]. rewrite Hs.
  assert (Ic : LanguageDetector.getLanguageInfo "cpp" = Some c).
  { unfold LanguageDetector.getLanguageInfo. rewrite Hs.
    unfold LanguageDetector.SUPPORTED_LANGUAGES in Hs. now injection Hs as <- <- <-. }
  assert (Ij : LanguageDetector.getLanguageInfo "java" = Some j).
  { unfold LanguageDetector.getLanguageInfo. rewrite Hs.
    unfold LanguageDetector.SUPPORTED_LANGUAGES in Hs. now injection Hs as <- <- <-. }
  assert (Ip : LanguageDetector.getLanguageInfo "python" = Some p).
  { unfold LanguageDetector.getLanguageInfo. rewrite Hs.
    unfold LanguageDetector.SUPPORTED_LANGUAGES in Hs. now injection Hs as <- <- <-. }
  assert (Hall : forall n : nat,
            (forall lang, In lang [c; j; p] ->
               LanguageDetector.keywordScore lang code <= n) <->
            LanguageDetector.keywordScore c code <= n /\
            LanguageDetector.keywordScore j code <= n /\
            LanguageDetector.keywordScore p code <= n).
  { intros n. split.
    - intros H. repeat split; apply H; simpl; auto.
    - intros [H1 [H2 H3]] lang [<-|[<-|[<-|[]]]]; assumption. }
  assert (Hzero : (forall lang, In lang [c; j; p] ->
                     LanguageDetector.keywordScore lang code = 0) ->
                  LanguageDetector.keywordScore c code = 0 /\
                  LanguageDetector.keywordScore j code = 0 /\
                  LanguageDetector.keywordScore p code = 0).
  { intros H. repeat split; apply H; simpl; auto. }
  destruct (LanguageDetector.keywordScore j code
            <? LanguageDetector.keywordScore c code) eqn:E1;
    [apply Nat.ltb_lt in E1 | apply Nat.ltb_ge in E1];
    match goal with
    | |- context [LanguageDetector.keywordScore p code <? ?x] =>
        destruct (LanguageDetector.keywordScore p code <? x) eqn:E2;
        [apply Nat.ltb_lt in E2 | apply Nat.ltb_ge in E2]
    end;
    match goal with
    | |- context [0 <? ?x] =>
        destruct (0 <? x) eqn:E3;
        [apply Nat.ltb_lt in E3 | apply Nat.ltb_ge in E3]
    end;
    rewrite ?Hc, ?Hj, ?Hp;
    first
      [ exists c; split; [exact Ic|]; split;
        [apply Hall; lia | intros Hz; apply Hzero in Hz; try reflexivity; lia]
      | exists j; split; [exact Ij|]; split;
        [apply Hall; lia | intros Hz; apply Hzero in Hz; try reflexivity; lia]
      | exists p; split; [exact Ip|]; split;
        [apply Hall; lia | intros Hz; apply Hzero in Hz; try reflexivity; lia] ].
Qed.

Lemma detected_language_has_a_top_score_witness :
  exists info,
    LanguageDetector.detectLanguage "def f(): import x" None = Value "python" /\
    LanguageDetector.getLanguageInfo "python" = Some info /\
    forall lang, In lang LanguageDetector.SUPPORTED_LANGUAGES ->
      LanguageDetector.keywordScore lang "def f(): import x"
      <= LanguageDetector.keywordScore info "def f(): import x".
Proof.
  assert (H : LanguageDetector.detectLanguage "def f(): import x" None
              = Value "python") by (vm_compute; reflexivity).
  destruct (detected_language_has_a_top_score _ _ H) as [info [Hi [Hmax _]]].
  exists info. auto.
Defined.

(** ** The extension of the file name decides first *)

Section Extension.

Import LanguageDetector.

Lemma includes_middle a f t : JS.includes (a ++ f ++ t) f = true.
Proof.
  induction a as [|c a IH]; cbn [append]; [apply includes_here|].
  apply includes_skip. exact IH.
Qed.

Lemma lastSegment_after_dot base ext :
  JS.includes ext "." = false -> lastSegment (base ++ "." ++ ext) = ext.
Proof.
  intros Hext. induction base as [|c base IH].
  - cbn [append lastSegment]. rewrite Hext. reflexivity.
  - change (String c base ++ "." ++ ext)%string
      with (String c (base ++ "." ++ ext)).
    cbn [lastSegment]. now rewrite includes_middle.
Qed.

Lemma lastSegment_without_dot ext :
  JS.includes ext "." = false -> lastSegment ext = ext.
Proof.
  destruct ext as [|c ext]; [reflexivity|]. intros H.
  cbn [JS.includes] in H. apply orb_false_iff in H. destruct H as [Hc Hext].
  cbn [lastSegment]. rewrite Hext.
  cbn [JS.startsWith] in Hc. rewrite andb_true_r in Hc.
  rewrite Ascii.eqb_sym in Hc. now rewrite Hc.
Qed.

Lemma detectLanguage_by_last_segment code filename lang :
  filename <> EmptyString ->
  In lang SUPPORTED_LANGUAGES ->
  In ("." ++ JS.toLowerCase (lastSegment filename))%string (extensions lang) ->
  detectLanguage code (Some filename) = Value (id lang).
Proof.
  intros Hne Hlang Hext. unfold detectLanguage.
  destruct filename as [|c f]; [now elim Hne|].
  generalize dependent (JS.toLowerCase (lastSegment (String c f))).
  intros segment Hext.
  unfold SUPPORTED_LANGUAGES in Hlang. simpl in Hlang.
  destruct Hlang as [<-|[<-|[<-|[]]]]; simpl in Hext;
    repeat (destruct Hext as [Hext|Hext];
            [injection Hext as <-; reflexivity|]);
    contradiction.
Qed.

End Extension.

(** X23: a file name whose last dot-separated part, in lower case, is an
    extension of a supported language decides the answer of
    [detectLanguage] whatever the text is; a file name without any dot counts
    as its own extension (a file called [py] is taken for Python). *)
Theorem extension_decides_the_language code base ext lang :
  JS.includes ext "." = false ->
  In lang LanguageDetector.SUPPORTED_LANGUAGES ->
  In ("." ++ JS.toLowerCase ext)%string (LanguageDetector.extensions lang) ->
  LanguageDetector.detectLanguage code (Some (base ++ "." ++ ext)%string)
    = Value (LanguageDetector.id lang) /\
  (ext <> EmptyString ->
   LanguageDetector.detectLanguage code (Some ext) = Value (LanguageDetector.id lang)).
Proof.
  intros Hdot Hlang Hext. split.
  - apply detectLanguage_by_last_segment; trivial.
    + destruct base; discriminate.
    + now rewrite lastSegment_after_dot.
  - intros Hne. apply detectLanguage_by_last_segment; trivial.
    now rewrite lastSegment_without_dot.
Qed.

Lemma extension_decides_the_language_witness :
  exists lang,
    In lang LanguageDetector.SUPPORTED_LANGUAGES /\
    LanguageDetector.id lang = "python" /\
    LanguageDetector.detectLanguage "#include <vector>" (Some "solve.v2.PY")
      = Value "python".
Proof.
  assert (E : exists lang,
             In lang LanguageDetector.SUPPORTED_LANGUAGES /\
             LanguageDetector.id lang = "python" /\
             In ".py" (LanguageDetector.extensions lang)).
  { eexists. split; [right; right; left; reflexivity|].
    split; [reflexivity | left; reflexivity]. }
  destruct E as [lang [Hin [Hid Hext]]]. exists lang.
  split; [exact Hin|]. split; [exact Hid|].
  rewrite <- Hid.
  exact (proj1 (extension_decides_the_language "#include <vector>" "solve.v2" "PY"
                  lang eq_refl Hin Hext)).
Defined.

(** ** Texts without braces *)

Section BraceFree.

Import ComplexityDetector.

Variable this : t.

Hypothesis brace_free :
  forall line, In line (lines this) ->
    JS.includes (JS.trim line) "{" = false /\ JS.includes (JS.trim line) "}" = false.

Lemma skipn_In {A} n (l : list A) x : In x (skipn n l) -> In x l.
Proof.
  intros H. rewrite <- (firstn_skipn n l). apply in_or_app. now right.
Qed.

Lemma skipn_two_length {A} n (l : list A) x y rest :
  skipn n l = x :: y :: rest -> n + 2 <= List.length l.
Proof.
  intros H. assert (E : List.length (skipn n l) = S (S (List.length rest)))
    by (rewrite H; reflexivity).
  rewrite length_skipn in E. lia.
Qed.

(** Without braces the scan stops on the line after the one it started on,
    so it sees depth 2 at most and a nested pattern spans two lines. *)
Lemma analyzeNestedStructure_brace_free i p :
  analyzeNestedStructure this i = Value (Some p) ->
  p = nestedPattern i (i + 1) 2 /\ i + 2 <= List.length (lines this).
Proof.
  unfold analyzeNestedStructure.
  destruct (skipn i (lines this)) as [|l0 [|l1 rest]] eqn:E; cbn [scanNested].
  - simpl. discriminate.
  - destruct (brace_free l0) as [-> ->];
      [apply (skipn_In i); rewrite E; now left|].
    rewrite Nat.ltb_irrefl.
    destruct (isLoop this (JS.trim l0)) as [[|]| |]; simpl; discriminate.
  - destruct (brace_free l0) as [-> ->];
      [apply (skipn_In i); rewrite E; now left|].
    destruct (brace_free l1) as [-> ->];
      [apply (skipn_In i); rewrite E; right; now left|].
    rewrite Nat.ltb_irrefl.
    replace (i <? S i) with true by (symmetry; apply Nat.ltb_lt; lia).
    apply skipn_two_length in E.
    destruct (isLoop this (JS.trim l0)) as [[|]| |]; cbn [bind andb];
      try discriminate;
      destruct (isLoop this (JS.trim l1)) as [[|]| |]; cbn [bind andb];
      try discriminate; simpl; try discriminate.
    intros [= <-]. split; [|assumption].
    unfold nestedPattern. f_equal; lia.
Qed.

Lemma detectPatterns_from_brace_free fuel i found ps :
  detectPatterns_from this fuel i found = Value ps ->
  Forall (fun p => p_type p = PNested ->
                   exists j, p = nestedPattern j (j + 1) 2 /\
                             j + 2 <= List.length (lines this)) found ->
  Forall (fun p => p_type p = PNested ->
                   exists j, p = nestedPattern j (j + 1) 2 /\
                             j + 2 <= List.length (lines this)) ps.
Proof.
  revert i found.
  induction fuel as [|fuel IH]; intros i found H Hfound; simpl in H; [discriminate|].
  destruct (i <? List.length (lines this)); [|now injection H as <-].
  apply bind_Value in H. destruct H as [l [_ H]].
  apply bind_Value in H. destruct H as [nested [Hn H]].
  destruct nested as [p|].
  - apply IH in H; [assumption|].
    apply Forall_app. split; [assumption|]. constructor; [|constructor].
    destruct l; [|discriminate]. intros _. exists i.
    now apply analyzeNestedStructure_brace_free.
  - apply IH in H; [assumption|].
    destruct (isRecursiveCall _); [|assumption].
    apply Forall_app. split; [assumption|]. constructor; [|constructor].
    intros [=].
Qed.

End BraceFree.

(** X24: in a text no line of which has a brace (Python, for one), every
    nested pattern of [analyze] spans exactly two lines of the text and has
    depth 2, label ['O(n^2)'] and impact medium, however deep the loops are
    nested. *)
Theorem brace_free_text_has_depth_2_patterns code language r p :
  (forall line, In line (JS.split_lines code) ->
     JS.includes (JS.trim line) "{" = false /\
     JS.includes (JS.trim line) "}" = false) ->
  analyze code language = Value r ->
  In p (patterns r) ->
  p_type p = PNested ->
  exists i, p = nestedPattern i (i + 1) 2 /\ i + 2 <= lineCount code.
Proof.
  intros Hfree H Hin Hp. apply analyze_Value in H.
  destruct H as [lbl [pats [ai [pre [_ [Hpats [_ ->]]]]]]]. simpl in Hin.
  apply (detectPatterns_from_brace_free
           (ComplexityDetector.new code language) Hfree) in Hpats; [|constructor].
  rewrite Forall_forall in Hpats. exact (Hpats p Hin Hp).
Qed.


Lemma brace_free_text_has_depth_2_patterns_witness :
  exists r p i,
    analyze tripleLoopPython "python" = Value r /\
    In p (patterns r) /\
    p = nestedPattern i (i + 1) 2 /\ i + 2 <= lineCount tripleLoopPython.
Proof.
  assert (E : exists r,
             analyze tripleLoopPython "python" = Value r /\
             exists p, In p (patterns r) /\ p_type p = PNested).
  { eexists. split; [vm_compute; reflexivity|].
    eexists. split; [left; reflexivity|reflexivity]. }
  destruct E as [r [H [p [Hin Hp]]]].
  assert (Hfree : forall line, In line (JS.split_lines tripleLoopPython) ->
            JS.includes (JS.trim line) "{" = false /\
            JS.includes (JS.trim line) "}" = false).
  { intros line Hl. vm_compute in Hl.
    repeat (destruct Hl as [<-|Hl]; [split; vm_compute; reflexivity|]).
    destruct Hl. }
  destruct (brace_free_text_has_depth_2_patterns _ _ _ _ Hfree H Hin Hp)
    as [i Hi].
  exists r, p, i. split; [exact H|]. split; [exact Hin|]. exact Hi.
Defined.


(** ** Leading and trailing white space of the lines *)

Section TrimmedLines.

Import ComplexityDetector.

Variables this that : t.
Hypothesis same_language : language this = language that.
Hypothesis same_trimmed : map JS.trim (lines this) = map JS.trim (lines that).

Lemma trimmed_isLoop line : isLoop this line = isLoop that line.
Proof. apply detector_isLoop_same. now rewrite same_language. Qed.

Lemma trimmed_getLineComplexity line :
  getLineComplexity this line = getLineComplexity that line.
Proof. apply getLineComplexity_same. now rewrite same_language. Qed.

Lemma trimmed_length : List.length (lines this) = List.length (lines that).
Proof.
  rewrite <- (length_map JS.trim (lines this)), same_trimmed.
  apply length_map.
Qed.

Lemma trimmed_nth i :
  JS.trim (nth i (lines this) EmptyString) = JS.trim (nth i (lines that) EmptyString).
Proof.
  rewrite <- (map_nth JS.trim (lines this)), <- (map_nth JS.trim (lines that)).
  now rewrite same_trimmed.
Qed.

Lemma analyzeLines_from_trimmed index rest1 rest2 a b :
  map JS.trim rest1 = map JS.trim rest2 ->
  analyzeLines_from this index rest1 = Value a ->
  analyzeLines_from that index rest2 = Value b ->
  map classification a = map classification b.
Proof.
  revert index rest2 a b.
  induction rest1 as [|l1 rest1 IH]; intros index [|l2 rest2] a b E Ha Hb;
    try discriminate E; cbn [analyzeLines_from] in Ha, Hb.
  - injection Ha as <-. injection Hb as <-. reflexivity.
  - cbn [map] in E. injection E as El Er. cbv zeta in Ha, Hb.
    rewrite El, trimmed_getLineComplexity in Ha.
    apply bind_Value in Ha. destruct Ha as [c1 [Hc1 Ha]].
    apply bind_Value in Hb. destruct Hb as [c2 [Hc2 Hb]].
    rewrite Hc1 in Hc2. injection Hc2 as <-.
    apply bind_Value in Ha. destruct Ha as [a' [Ha' Ha]].
    apply bind_Value in Hb. destruct Hb as [b' [Hb' Hb]].
    injection Ha as <-. injection Hb as <-.
    cbn [map]. f_equal. exact (IH _ _ _ _ Er Ha' Hb').
Qed.

Lemma scanNested_trimmed rest1 rest2 currentLine startLine depth maxDepth braceCount :
  map JS.trim rest1 = map JS.trim rest2 ->
  scanNested this rest1 currentLine startLine depth maxDepth braceCount =
  scanNested that rest2 currentLine startLine depth maxDepth braceCount.
Proof.
  revert rest2 currentLine depth maxDepth braceCount.
  induction rest1 as [|l1 rest1 IH]; intros [|l2 rest2] cur depth maxDepth bc E;
    try discriminate E; [reflexivity|].
  cbn [map] in E. injection E as El Er.
  cbn [scanNested]. cbv zeta. rewrite El, trimmed_isLoop.
  destruct (isLoop that (JS.trim l2)) as [l| |]; cbn [bind]; try reflexivity.
  destruct (_ && (startLine <? cur)); [reflexivity | now apply IH].
Qed.

Lemma analyzeNestedStructure_trimmed i :
  analyzeNestedStructure this i = analyzeNestedStructure that i.
Proof.
  unfold analyzeNestedStructure.
  rewrite (scanNested_trimmed (skipn i (lines this)) (skipn i (lines that)));
    [reflexivity|].
  now rewrite <- !skipn_map, same_trimmed.
Qed.

Lemma detectPatterns_from_trimmed fuel i found :
  detectPatterns_from this fuel i found = detectPatterns_from that fuel i found.
Proof.
  revert i found.
  induction fuel as [|fuel IH]; intros i found; cbn [detectPatterns_from];
    [reflexivity|].
  cbv zeta. rewrite trimmed_length, trimmed_nth, trimmed_isLoop.
  destruct (i <? List.length (lines that)); [|reflexivity].
  destruct (isLoop that _) as [l| |]; cbn [bind]; try reflexivity.
  rewrite analyzeNestedStructure_trimmed.
  destruct (if l then analyzeNestedStructure that i else Value None)
    as [[p|]| |]; cbn [bind]; try reflexivity; apply IH.
Qed.

Lemma detectPatterns_trimmed : detectPatterns this = detectPatterns that.
Proof.
  unfold detectPatterns. rewrite trimmed_length. apply detectPatterns_from_trimmed.
Qed.

End TrimmedLines.

(** X25: white space at the start and at the end of the lines does not count.
    Two texts whose lines are equal once trimmed get, under one tag, the same
    patterns, the same overall complexity, the same educational content, and
    line records that agree on everything but the text of the line. *)
Theorem indentation_is_ignored code1 code2 language r1 r2 :
  map JS.trim (JS.split_lines code1) = map JS.trim (JS.split_lines code2) ->
  analyze code1 language = Value r1 ->
  analyze code2 language = Value r2 ->
  patterns r1 = patterns r2 /\
  overall r1 = overall r2 /\
  educational r1 = educational r2 /\
  map classification (lineByLine r1) = map classification (lineByLine r2).
Proof.
  intros E H1 H2.
  apply analyze_Value in H1. destruct H1 as [l1 [p1 [a1 [q1 [Hl1 [Hp1 [_ ->]]]]]]].
  apply analyze_Value in H2. destruct H2 as [l2 [p2 [a2 [q2 [Hl2 [Hp2 [_ ->]]]]]]].
  cbn [patterns overall educational lineByLine].
  rewrite (detectPatterns_trimmed (ComplexityDetector.new code1 language)
             (ComplexityDetector.new code2 language) eq_refl E) in Hp1.
  rewrite Hp1 in Hp2. injection Hp2 as <-.
  repeat split.
  exact (analyzeLines_from_trimmed (ComplexityDetector.new code1 language)
           (ComplexityDetector.new code2 language) eq_refl 0 _ _ _ _ E Hl1 Hl2).
Qed.

Lemma indentation_is_ignored_witness :
  exists r1 r2,
    analyze tripleLoopPython "python" = Value r1 /\
    analyze tripleLoopFlat "python" = Value r2 /\
    patterns r1 = patterns r2 /\
    overall r1 = overall r2 /\
    educational r1 = educational r2 /\
    map classification (lineByLine r1) = map classification (lineByLine r2).
Proof.
  assert (E1 : exists r, analyze tripleLoopPython "python" = Value r)
    by (eexists; vm_compute; reflexivity).
  assert (E2 : exists r, analyze tripleLoopFlat "python" = Value r)
    by (eexists; vm_compute; reflexivity).
  destruct E1 as [r1 H1]. destruct E2 as [r2 H2]. exists r1, r2.
  split; [exact H1|]. split; [exact H2|].
  apply (indentation_is_ignored tripleLoopPython tripleLoopFlat "python");
    [vm_compute; reflexivity | exact H1 | exact H2].
Defined.


(** ** Suggestions that need a loop header *)

Lemma forEachLine_Forall {A} (P : A -> Prop)
    (body : nat -> string -> comp (list A)) lines :
  forall i out,
    (forall k raw xs, nth_error lines k = Some raw ->
                      body (i + k) raw = Value xs -> Forall P xs) ->
    forEachLine body i lines = Value out ->
    Forall P out.
Proof.
  induction lines as [|raw rest IH]; intros i out Hbody H; simpl in H.
  - injection H as <-. constructor.
  - apply bind_Value in H. destruct H as [xs [Hxs H]].
    apply bind_Value in H. destruct H as [ys [Hys H]].
    injection H as <-. apply Forall_app. split.
    + apply (Hbody 0 raw); [reflexivity|]. now rewrite Nat.add_0_r.
    + apply (IH (S i)); [|assumption].
      intros k raw' xs' Hk Hb. apply (Hbody (S k) raw'); [exact Hk|].
      now rewrite Nat.add_succ_r.
Qed.

Lemma when_not_aboutLoops c s :
  ~ aboutLoops s -> Forall (fun s => ~ aboutLoops s) (AIOptimizer.when c s).
Proof. intros H. destruct c; simpl; auto. Qed.

Ltac not_about_loops :=
  repeat (apply Forall_app; split);
  try (apply when_not_aboutLoops; unfold aboutLoops; cbn [title loopTitles];
       intros Habout; cbn [In] in Habout;
       repeat (destruct Habout as [Habout|Habout]; [discriminate Habout|]);
       exact Habout);
  try constructor.

Section OptimizerLoopFree.

Import AIOptimizer.

Variable this : t.
Variable lines : list string.

Hypothesis loop_free :
  forall line, In line lines ->
    isLoop this line = Value false /\ isLoop this (JS.trim line) = Value false.

Lemma nth_error_line k raw :
  nth_error lines k = Some raw -> In raw lines /\ nth k lines EmptyString = raw.
Proof.
  intros H. split; [exact (nth_error_In _ _ H)|].
  now apply nth_error_nth.
Qed.

Lemma analyzeNestedLoops_loop_free out :
  analyzeNestedLoops this lines = Value out -> Forall (fun s => ~ aboutLoops s) out.
Proof.
  apply forEachLine_Forall. intros k raw xs Hk Hxs. cbv beta zeta in Hxs.
  destruct (nth_error_line _ _ Hk) as [Hin _].
  rewrite (proj2 (loop_free raw Hin)) in Hxs. simpl in Hxs.
  injection Hxs as <-. constructor.
Qed.

Lemma analyzeRecursionPatterns_loop_free out :
  analyzeRecursionPatterns this lines = Value out ->
  Forall (fun s => ~ aboutLoops s) out.
Proof.
  apply forEachLine_Forall. intros k raw xs _ Hxs. cbv beta zeta in Hxs.
  destruct (isRecursiveFunction _); injection Hxs as <-; not_about_loops.
Qed.

Lemma analyzeDataStructureUsage_loop_free out :
  analyzeDataStructureUsage this lines = Value out ->
  Forall (fun s => ~ aboutLoops s) out.
Proof.
  apply forEachLine_Forall. intros k raw xs _ Hxs. cbv beta zeta in Hxs.
  injection Hxs as <-; not_about_loops.
Qed.

Lemma isLinearSearchInSortedArray_loop_free k raw :
  nth_error lines k = Some raw ->
  isLinearSearchInSortedArray this lines k = Value false.
Proof.
  intros Hk. destruct (nth_error_line _ _ Hk) as [Hin Hn].
  unfold isLinearSearchInSortedArray. cbv zeta. rewrite Hn.
  rewrite (proj1 (loop_free raw Hin)).
  destruct (JS.includes raw "=="); cbn [andThen bind];
    now rewrite andb_false_r.
Qed.

Lemma analyzeSearchPatterns_loop_free out :
  analyzeSearchPatterns this lines = Value out ->
  Forall (fun s => ~ aboutLoops s) out.
Proof.
  apply forEachLine_Forall. intros k raw xs Hk Hxs. cbv beta zeta in Hxs.
  rewrite Nat.add_0_l, (isLinearSearchInSortedArray_loop_free _ _ Hk) in Hxs.
  cbn [bind when app] in Hxs.
  injection Hxs as <-; not_about_loops.
Qed.

Lemma analyzeSortingPatterns_loop_free out :
  analyzeSortingPatterns this lines = Value out ->
  Forall (fun s => ~ aboutLoops s) out.
Proof.
  apply forEachLine_Forall. intros k raw xs _ Hxs. cbv beta zeta in Hxs.
  apply bind_Value in Hxs. destruct Hxs as [bubble [_ Hxs]].
  apply bind_Value in Hxs. destruct Hxs as [selection [_ Hxs]].
  injection Hxs as <-; not_about_loops.
Qed.

Lemma hasStringConcatenationInLoop_loop_free k raw :
  nth_error lines k = Some raw ->
  hasStringConcatenationInLoop this lines k = Value false.
Proof.
  intros Hk. destruct (nth_error_line _ _ Hk) as [Hin Hn].
  unfold hasStringConcatenationInLoop. rewrite Hn.
  now rewrite (proj1 (loop_free raw Hin)).
Qed.

Lemma analyzeStringOperations_loop_free out :
  analyzeStringOperations this lines = Value out ->
  Forall (fun s => ~ aboutLoops s) out.
Proof.
  apply forEachLine_Forall. intros k raw xs Hk Hxs. cbv beta zeta in Hxs.
  rewrite Nat.add_0_l, (hasStringConcatenationInLoop_loop_free _ _ Hk) in Hxs.
  cbn [bind when app] in Hxs.
  injection Hxs as <-; not_about_loops.
Qed.

Lemma analyzeMemoryOptimizations_loop_free out :
  analyzeMemoryOptimizations this lines = Value out ->
  Forall (fun s => ~ aboutLoops s) out.
Proof.
  apply forEachLine_Forall. intros k raw xs _ Hxs. cbv beta zeta in Hxs.
  injection Hxs as <-; not_about_loops.
Qed.

End OptimizerLoopFree.

Lemma generateAISuggestions_loop_free this out :
  (forall line, In line (JS.split_lines (AIOptimizer.code this)) ->
     AIOptimizer.isLoop this line = Value false /\
     AIOptimizer.isLoop this (JS.trim line) = Value false) ->
  AIOptimizer.generateAISuggestions this = Value out ->
  Forall (fun s => ~ aboutLoops s) out.
Proof.
  unfold AIOptimizer.generateAISuggestions. intros Hfree H.
  apply bind_Value in H. destruct H as [s1 [H1 H]].
  apply bind_Value in H. destruct H as [s2 [H2 H]].
  apply bind_Value in H. destruct H as [s3 [H3 H]].
  apply bind_Value in H. destruct H as [s4 [H4 H]].
  apply bind_Value in H. destruct H as [s5 [H5 H]].
  apply bind_Value in H. destruct H as [s6 [H6 H]].
  apply bind_Value in H. destruct H as [s7 [H7 H]].
  injection H as <-.
  repeat (apply Forall_app; split);
    eauto using analyzeNestedLoops_loop_free, analyzeRecursionPatterns_loop_free,
      analyzeDataStructureUsage_loop_free, analyzeSearchPatterns_loop_free,
      analyzeSortingPatterns_loop_free, analyzeStringOperations_loop_free,
      analyzeMemoryOptimizations_loop_free.
Qed.

Lemma recursionPatternsFrom_types i rest :
  Forall (fun p => p_type p = PRecursion) (recursionPatternsFrom i rest).
Proof.
  revert i. induction rest as [|line rest IH]; intros i; simpl; [constructor|].
  apply Forall_app. split; [|apply IH].
  destruct (ComplexityDetector.isRecursiveCall _); repeat constructor.
Qed.

(** X26: when no line of the text, trimmed or not, is a loop header under
    the given tag, none of the suggestions of [analyze] is one of the five
    that are made for a loop: 'Reduce nested loop complexity', 'Replace
    nested loop search with hash map', 'Optimize matrix operations', 'Use
    binary search for sorted arrays' and 'Use StringBuilder for string
    concatenation in loops'. *)
Theorem loop_free_text_gets_no_loop_suggestion code language r :
  (forall line, In line (JS.split_lines code) ->
     ComplexityDetector.isLoop (ComplexityDetector.new code language) line
     = Value false /\
     ComplexityDetector.isLoop (ComplexityDetector.new code language) (JS.trim line)
     = Value false) ->
  analyze code language = Value r ->
  Forall (fun s => ~ aboutLoops s) (suggestions r).
Proof.
  intros Hfree H. apply Forall_forall. intros s Hin.
  apply analyze_Value in H.
  destruct H as [lbl [pats [ai [pre [_ [Hp [Ha ->]]]]]]]. simpl in Hin.
  apply deduplicateSuggestions_In in Hin. apply in_app_or in Hin.
  destruct Hin as [Hin|Hin].
  - rewrite detectPatterns_loop_free in Hp
      by (intros line Hl; exact (proj2 (Hfree line Hl))).
    injection Hp as <-.
    pose proof (generateSuggestions_made lbl
                  (recursionPatternsFrom 0
                     (ComplexityDetector.lines (ComplexityDetector.new code language))))
      as Hm.
    rewrite Forall_forall in Hm.
    destruct (Hm s Hin) as [[p [Hpin [Hty _]]]|[[p [_ [_ ->]]]|[l [_ [_ ->]]]]].
    + pose proof (recursionPatternsFrom_types 0
                    (ComplexityDetector.lines (ComplexityDetector.new code language)))
        as Ht.
      rewrite Forall_forall in Ht. rewrite (Ht p Hpin) in Hty. discriminate.
    + unfold aboutLoops. cbn. intros Habout.
      repeat (destruct Habout as [Habout|Habout]; [discriminate Habout|]).
      exact Habout.
    + unfold aboutLoops. cbn. intros Habout.
      repeat (destruct Habout as [Habout|Habout]; [discriminate Habout|]).
      exact Habout.
  - unfold optimizerSuggestions in Ha.
    apply generateAISuggestions_loop_free in Ha.
    + rewrite Forall_forall in Ha. exact (Ha s Hin).
    + exact Hfree.
Qed.

Lemma loop_free_text_gets_no_loop_suggestion_witness :
  exists r,
    analyze Scenarios.fibonacciPython "python" = Value r /\
    suggestions r <> [] /\
    Forall (fun s => ~ aboutLoops s) (suggestions r).
Proof.
  assert (E : exists r, analyze Scenarios.fibonacciPython "python" = Value r /\
                        suggestions r <> [])
    by (eexists; split; [vm_compute; reflexivity | discriminate]).
  destruct E as [r [H Hne]]. exists r.
  split; [exact H|]. split; [exact Hne|].
  apply (loop_free_text_gets_no_loop_suggestion Scenarios.fibonacciPython "python");
    [|exact H].
  intros line Hl. vm_compute in Hl.
  repeat (destruct Hl as [<-|Hl]; [split; vm_compute; reflexivity|]).
  destruct Hl.
Defined.


(** ** Keywords are counted up to case *)

Lemma sameUpToCase_length a b :
  sameUpToCase a b = true -> String.length a = String.length b.
Proof.
  revert b. induction a as [|x a IH]; intros [|y b] H; simpl in *;
    try discriminate; [reflexivity|].
  apply andb_true_iff in H. destruct H as [_ H]. now rewrite (IH _ H).
Qed.

Lemma length_take n s : String.length (RegExp.take n s) = Nat.min n (String.length s).
Proof.
  unfold RegExp.take. revert n.
  induction s as [|c s IH]; intros [|n]; simpl; try reflexivity.
  now rewrite IH.
Qed.

Lemma rmatch_LitI_case (R : option RegExp.captures -> option RegExp.captures -> Prop)
    kw :
  R None None ->
  forall prev prev' a b caps caps' k k',
    (forall p p' a' b', sameUpToCase a' b' = true ->
                        R (k p a' caps) (k' p' b' caps')) ->
    sameUpToCase a b = true ->
    R (RegExp.rmatch (RegExpGlobal.LitI kw) prev a caps k)
      (RegExp.rmatch (RegExpGlobal.LitI kw) prev' b caps' k').
Proof.
  intros HNone.
  assert (Hcls : forall c prev prev' a b caps caps' k k',
            (forall p p' a' b', sameUpToCase a' b' = true ->
                                R (k p a' caps) (k' p' b' caps')) ->
            sameUpToCase a b = true ->
            R (RegExp.rmatch
                 (RegExp.Cls (fun x => Ascii.eqb (RegExpGlobal.canonicalize c)
                                                 (RegExpGlobal.canonicalize x)))
                 prev a caps k)
              (RegExp.rmatch
                 (RegExp.Cls (fun x => Ascii.eqb (RegExpGlobal.canonicalize c)
                                                 (RegExpGlobal.canonicalize x)))
                 prev' b caps' k')).
  { intros c prev prev' [|x a] [|y b] caps caps' k k' Hk H;
      cbn [sameUpToCase] in H; try discriminate H; cbn [RegExp.rmatch];
      [exact HNone|].
    apply andb_true_iff in H. destruct H as [Hxy H].
    apply Ascii.eqb_eq in Hxy. rewrite Hxy.
    destruct (Ascii.eqb _ _); [now apply Hk | exact HNone]. }
  induction kw as [|c kw IH]; intros prev prev' a b caps caps' k k' Hk H.
  - cbn [RegExpGlobal.LitI RegExp.rmatch]. now apply Hk.
  - destruct kw as [|c' kw'].
    + cbn [RegExpGlobal.LitI]. now apply Hcls.
    + change (RegExpGlobal.LitI (String c (String c' kw')))
        with (RegExp.Cat
                (RegExp.Cls (fun x => Ascii.eqb (RegExpGlobal.canonicalize c)
                                                (RegExpGlobal.canonicalize x)))
                (RegExpGlobal.LitI (String c' kw'))).
      refine (Hcls c prev prev' a b caps caps'
                (fun p s cs =>
                   RegExp.rmatch (RegExpGlobal.LitI (String c' kw')) p s cs k)
                (fun p s cs =>
                   RegExp.rmatch (RegExpGlobal.LitI (String c' kw')) p s cs k')
                _ H).
      intros p p' a' b' H'. now apply IH.
Qed.

Lemma matchHere_case kw prev prev' a b :
  sameUpToCase a b = true ->
  option_map String.length (RegExpGlobal.matchHere (RegExpGlobal.LitI kw) prev a) =
  option_map String.length (RegExpGlobal.matchHere (RegExpGlobal.LitI kw) prev' b).
Proof.
  intros H. unfold RegExpGlobal.matchHere. cbn [RegExp.rmatch].
  apply (rmatch_LitI_case
           (fun o1 o2 =>
              option_map String.length
                (match o1 with
                 | Some caps =>
                     Some (match RegExp.group 0 caps with
                           | Some m => m | None => EmptyString end)
                 | None => None
                 end) =
              option_map String.length
                (match o2 with
                 | Some caps =>
                     Some (match RegExp.group 0 caps with
                           | Some m => m | None => EmptyString end)
                 | None => None
                 end))); [reflexivity| |exact H].
  intros p p' a' b' H'. unfold RegExp.accept. cbn [RegExp.group Nat.eqb option_map].
  rewrite !length_take, (sameUpToCase_length _ _ H), (sameUpToCase_length _ _ H').
  reflexivity.
Qed.

Lemma matchAll_case kw a :
  forall b prev prev' skip,
    sameUpToCase a b = true ->
    List.length (RegExpGlobal.matchAll (RegExpGlobal.LitI kw) prev a skip) =
    List.length (RegExpGlobal.matchAll (RegExpGlobal.LitI kw) prev' b skip).
Proof.
  induction a as [|x a IH]; intros [|y b] prev prev' skip H;
    cbn [sameUpToCase] in H; try discriminate H.
  - destruct skip as [|skip]; cbn [RegExpGlobal.matchAll]; [|reflexivity].
    pose proof (matchHere_case kw prev prev' EmptyString EmptyString eq_refl) as E.
    destruct (RegExpGlobal.matchHere _ prev _), (RegExpGlobal.matchHere _ prev' _);
      try discriminate E; reflexivity.
  - pose proof H as Hab.
    apply andb_true_iff in H. destruct H as [_ H].
    destruct skip as [|skip]; cbn [RegExpGlobal.matchAll]; [|now apply IH].
    pose proof (matchHere_case kw prev prev' (String x a) (String y b)) as E.
    cbn [sameUpToCase] in E. specialize (E Hab).
    destruct (RegExpGlobal.matchHere _ prev _) as [m|],
             (RegExpGlobal.matchHere _ prev' _) as [m'|];
      try discriminate E; cbn [List.length].
    + injection E as E. rewrite E. f_equal. now apply IH.
    + now apply IH.
Qed.

Lemma keywordScore_case lang a b :
  sameUpToCase a b = true ->
  LanguageDetector.keywordScore lang a = LanguageDetector.keywordScore lang b.
Proof.
  intros H. unfold LanguageDetector.keywordScore.
  generalize 0. induction (LanguageDetector.keywords lang) as [|kw kws IH];
    intros acc; cbn [fold_left]; [reflexivity|].
  replace (RegExpGlobal.matchCount (LanguageDetector.keywordPattern kw) a)
    with (RegExpGlobal.matchCount (LanguageDetector.keywordPattern kw) b)
    by (symmetry; exact (matchAll_case kw a b None None 0 H)).
  apply IH.
Qed.

Lemma computeScores_case a b :
  sameUpToCase a b = true ->
  LanguageDetector.computeScores a = LanguageDetector.computeScores b.
Proof.
  intros H. unfold LanguageDetector.computeScores.
  generalize (@nil (string * nat)).
  induction LanguageDetector.SUPPORTED_LANGUAGES as [|lang langs IH];
    intros acc; cbn [fold_left]; [reflexivity|].
  rewrite (keywordScore_case lang a b H). apply IH.
Qed.

(** X27: keywords are counted up to case.  Two texts that are equal up to
    the case of their characters are detected as the same language, with or
    without a file name. *)
Theorem detection_ignores_case a b filename :
  sameUpToCase a b = true ->
  LanguageDetector.detectLanguage a filename =
  LanguageDetector.detectLanguage b filename.
Proof.
  intros H. unfold LanguageDetector.detectLanguage.
  now rewrite (computeScores_case a b H).
Qed.

Lemma detection_ignores_case_witness :
  sameUpToCase pythonScript pythonScriptCapitals = true /\
  LanguageDetector.detectLanguage pythonScript None = Value "python" /\
  LanguageDetector.detectLanguage pythonScriptCapitals None = Value "python".
Proof.
  split; [vm_compute; reflexivity|].
  split; [vm_compute; reflexivity|].
  rewrite <- (detection_ignores_case pythonScript pythonScriptCapitals None)
    by (vm_compute; reflexivity).
  vm_compute. reflexivity.
Defined.
